(** * Copernicus backend: a shallow embedding of the request handlers

    The development follows the layout of the Python package:

    - [Float]     Python's [float]: rounding to binary64, sums, comparisons;
    - [Py]        the fragment of Python the code relies on: JSON values as
                  returned by [r.json()], truthiness, [dict.get], exceptions,
                  subscripts, iteration, [<], [str.replace] and slicing;
    - [Datetime]  [datetime] values, [timedelta] arithmetic, [isoformat];
    - [Models]    [app/models.py]            (the [AOI] validator);
    - [Runtime]   the world the services run in (clock, token cache, file
                  store, upstream answers) and the monad threading it;
    - [Lib]       what the services use of httpx, time and asyncio;
    - [Token]     [app/services/token.py];
    - [Catalog]   [app/services/catalog.py];
    - [Process]   [app/services/process.py];
    - [Storage]   [app/services/storage.py];
    - [AoiRepo]   [app/services/aoi_repo.py];
    - [Main]      [app/main.py];
    - [Sample]    data for the worked examples;
    - [Job]       [scripts/run_job.py].

    The definitions come first, the facts about them after [Sample].

    How the code is read:
    - a [float] is an IEEE 754 double: [Float.round] is rounding to the
      nearest double, ties to even, and the sums, differences and
      comparisons of the token cache go through it; the clock itself is a
      rational number of seconds;
    - a JSON number is an [int] or a finite [float], kept as the rational
      it stands for, or one of [Infinity], [-Infinity] and [NaN], which
      [json.loads] reads too;
    - a handler is a computation in [Runtime.M]: it reads the world,
      changes the state and may raise; what the upstream answers is part
      of the world and is arbitrary;
    - the tasks of a batch run one after the other, in an order the
      world chooses;
    - paths are [pathlib]'s on a POSIX system, and a file is named by the
      string of its path;
    - the [coordinates] of a geometry are any JSON value, as
      [dict[str, Any]] lets them be. *)

From Stdlib Require Import ZArith QArith Qround Lqa Lia Bool Ascii String List.
From Stdlib Require Import DecimalString.
From stdpp Require Import gmap strings.
Import ListNotations.

Local Open Scope string_scope.
Local Open Scope Z_scope.

(* ===================================================================== *)
(** * Python's float *)
(* ===================================================================== *)

Module Float.

(** A [float]: a finite value, kept as the rational it stands for (the
    sign of zero is not kept), an infinity or [nan]. The same type
    carries the value of an [int] where Python compares an [int] with a
    [float], which it does exactly. *)
Inductive t : Type :=
| Finite (q : Q)
| Inf (negative : bool)
| NaN.

Definition Qltb (x y : Q) : bool := negb (Qle_bool y x).

(** [2 ** e]. *)
Definition pow2 (e : Z) : Q :=
  if 0 <=? e then inject_Z (2 ^ e) else 1 # Z.to_pos (2 ^ (- e)).

(** The integer nearest to [n / d], the even one of two that are equally
    near. *)
Definition nearest (n d : Z) : Z :=
  let fl := n / d in
  let r := n mod d in
  match 2 * r ?= d with
  | Lt => fl
  | Gt => fl + 1
  | Eq => if Z.even fl then fl else fl + 1
  end.

(** The integer part of the binary logarithm of [a / d], for positive
    [a] and [d]. *)
Definition ilog2 (a d : Z) : Z :=
  let k := Z.log2 a - Z.log2 d in
  if (if 0 <=? k then d * 2 ^ k <=? a else d <=? a * 2 ^ (- k)) then k else k - 1.

(** The exponent of the last place of the double nearest to [q]: 52
    places below the leading bit, and not below that of the subnormal
    numbers. *)
Definition exponent (q : Q) : Z :=
  Z.max (ilog2 (Z.abs (Qnum q)) (Zpos (Qden q)) - 52) (-1074).

(** The double nearest to [q]: 53 significant bits, ties to even, an
    infinity from [2 ** 1024 - 2 ** 970] on. *)
Definition round (q : Q) : t :=
  let e := exponent q in
  let m := if 0 <=? e then nearest (Qnum q) (Zpos (Qden q) * 2 ^ e)
           else nearest (Qnum q * 2 ^ (- e)) (Zpos (Qden q)) in
  if Qnum q =? 0 then Finite 0
  else if (971 <? e) || ((e =? 971) && (2 ^ 53 <=? Z.abs m)) then Inf (m <? 0)
  else Finite (Qred (inject_Z m * pow2 e)).

(** [x + y], [-x] and [x - y] on floats. *)
Definition add (x y : t) : t :=
  match x, y with
  | NaN, _ | _, NaN => NaN
  | Inf a, Inf b => if Bool.eqb a b then Inf a else NaN
  | Inf a, Finite _ | Finite _, Inf a => Inf a
  | Finite a, Finite b => round (a + b)
  end.

Definition opp (x : t) : t :=
  match x with
  | Finite a => Finite (- a)
  | Inf a => Inf (negb a)
  | NaN => NaN
  end.

Definition sub (x y : t) : t := add x (opp y).

(** [x < y] and [x == y], exact also between an [int] and a [float]. *)
Definition lt (x y : t) : bool :=
  match x, y with
  | NaN, _ | _, NaN => false
  | Finite a, Finite b => Qltb a b
  | Finite _, Inf b => negb b
  | Inf a, Finite _ => a
  | Inf a, Inf b => a && negb b
  end.

Definition eq (x y : t) : bool :=
  match x, y with
  | Finite a, Finite b => Qeq_bool a b
  | Inf a, Inf b => Bool.eqb a b
  | _, _ => false
  end.

(** What the facts about rounding speak of: [x] is finite and within
    [d] of [q]. *)
Definition near (d : Q) (x : t) (q : Q) : Prop :=
  exists r, x = Finite r /\ (q - d <= r)%Q /\ (r <= q + d)%Q.

End Float.

(* ===================================================================== *)
(** * Python values *)
(* ===================================================================== *)

Module Py.

(** JSON documents, as [json.loads] and [r.json()] produce them: [None],
    [bool], numbers, [str], [list] and [dict] (an association list; the
    first binding of a key is the one [get] sees). A number is an [int]
    or a finite [float] of the value [q], or one of the floats read from
    [Infinity], [-Infinity] and [NaN]. *)
#[warnings="-register-all"]
Inductive json : Type :=
| JNull
| JBool (b : bool)
| JNum (q : Q)
| JInf (negative : bool)
| JNaN
| JStr (s : string)
| JArr (l : list json)
| JObj (m : list (string * json)).

(** The exceptions the handlers tell apart. [HTTPStatusError] carries what
    the handlers read from [e.response]; [HTTPException] is FastAPI's;
    [PyError cls msg] is any other subclass of [Exception], with [msg]
    what [str(e)] gives. *)
Inductive exn : Type :=
| HTTPStatusError (status_code : Z) (text : string)
| HTTPException (status_code : Z) (detail : json)
| PyError (cls : string) (msg : string).

Definition result (A : Type) : Type := (exn + A)%type.

Definition AttributeError (msg : string) : exn := PyError "AttributeError" msg.
Definition TypeError (msg : string) : exn := PyError "TypeError" msg.
Definition KeyError (msg : string) : exn := PyError "KeyError" msg.
Definition IndexError (msg : string) : exn := PyError "IndexError" msg.
Definition ValueError (msg : string) : exn := PyError "ValueError" msg.
Definition OverflowError (msg : string) : exn := PyError "OverflowError" msg.

(** [bool(v)]. *)
Definition Qis_zero (q : Q) : bool := (Qnum q =? 0)%Z.

Definition truthy (v : json) : bool :=
  match v with
  | JNull => false
  | JBool b => b
  | JNum q => negb (Qis_zero q)
  | JInf _ | JNaN => true
  | JStr s => negb (String.eqb s "")
  | JArr l => match l with [] => false | _ => true end
  | JObj m => match m with [] => false | _ => true end
  end.

(** [a or b]. *)
Definition py_or (a b : json) : json := if truthy a then a else b.

(** Lookup in a [dict]. *)
Fixpoint assoc (k : string) (m : list (string * json)) : option json :=
  match m with
  | [] => None
  | (k', v) :: m' => if String.eqb k k' then Some v else assoc k m'
  end.

(** [d.get(k, default)]; anything but a [dict] has no usable [get]. *)
Definition get_default (v : json) (k : string) (default : json) : result json :=
  match v with
  | JObj m => inr (match assoc k m with Some x => x | None => default end)
  | _ => inl (AttributeError "object has no attribute 'get'")
  end.

(** [d.get(k)]. *)
Definition get (v : json) (k : string) : result json := get_default v k JNull.

(** [d[k]] for a string key [k]. *)
Definition getitem (v : json) (k : string) : result json :=
  match v with
  | JObj m => match assoc k m with
              | Some x => inr x
              | None => inl (KeyError k)
              end
  | JArr _ | JStr _ => inl (TypeError "indices must be integers")
  | _ => inl (TypeError "object is not subscriptable")
  end.

(** Iterating over a string gives its characters. *)
Fixpoint chars (s : string) : list json :=
  match s with
  | EmptyString => []
  | String c rest => JStr (String c EmptyString) :: chars rest
  end.

(** [[x for x in v]]: the items of a list, the keys of a dict, the
    characters of a string. *)
Definition items (v : json) : result (list json) :=
  match v with
  | JArr l => inr l
  | JObj m => inr (map (fun kv => JStr (fst kv)) m)
  | JStr s => inr (chars s)
  | _ => inl (TypeError "object is not iterable")
  end.

(** [v[i]] for an index [i] that is not negative. A dict read from JSON
    has strings for keys, so no integer is one of them. *)
Definition subscript (v : json) (i : nat) : result json :=
  match v with
  | JArr l =>
      match nth_error l i with
      | Some x => inr x
      | None => inl (IndexError "list index out of range")
      end
  | JStr s =>
      match String.get i s with
      | Some c => inr (JStr (String c EmptyString))
      | None => inl (IndexError "string index out of range")
      end
  | JObj _ => inl (KeyError (NilZero.string_of_uint (Nat.to_uint i)))
  | _ => inl (TypeError "object is not subscriptable")
  end.

(** The value of a number; [True] and [False] are the integers 1 and 0. *)
Definition number (v : json) : option Float.t :=
  match v with
  | JBool b => Some (Float.Finite (if b then 1 else 0))
  | JNum q => Some (Float.Finite q)
  | JInf negative => Some (Float.Inf negative)
  | JNaN => Some Float.NaN
  | _ => None
  end.

(** [a is b or a == b], the test by which the comparison of two lists
    skips their common prefix. Every [NaN] read from JSON is one and the
    same object. Two dicts are equal when they have the same keys with
    equal values (keys are not repeated in a dict). *)
Fixpoint same (a b : json) {struct a} : bool :=
  match number a, number b with
  | Some Float.NaN, Some Float.NaN => true
  | Some x, Some y => Float.eq x y
  | None, None =>
      match a, b with
      | JNull, JNull => true
      | JStr s, JStr t => String.eqb s t
      | JArr la, JArr lb =>
          (fix all (la lb : list json) : bool :=
             match la, lb with
             | [], [] => true
             | x :: la', y :: lb' => same x y && all la' lb'
             | _, _ => false
             end) la lb
      | JObj ma, JObj mb =>
          Nat.eqb (List.length ma) (List.length mb) &&
          (fix all (ma : list (string * json)) : bool :=
             match ma with
             | [] => true
             | (k, v) :: ma' =>
                 match assoc k mb with
                 | Some v' => same v v'
                 | None => false
                 end && all ma'
             end) ma
      | _, _ => false
      end
  | _, _ => false
  end.

(** [s < t] on strings: by the first character that differs. *)
Definition str_lt (s t : string) : bool :=
  match String.compare s t with
  | Lt => true
  | _ => false
  end.

(** [a < b]. Numbers compare by value, strings and lists by their first
    difference; nothing else is ordered, nor are values of two kinds. *)
Fixpoint lt (a b : json) {struct a} : result bool :=
  match number a, number b with
  | Some x, Some y => inr (Float.lt x y)
  | None, None =>
      match a, b with
      | JStr s, JStr t => inr (str_lt s t)
      | JArr la, JArr lb =>
          (fix lex (la lb : list json) : result bool :=
             match la, lb with
             | [], [] => inr false
             | [], _ :: _ => inr true
             | _ :: _, [] => inr false
             | x :: la', y :: lb' => if same x y then lex la' lb' else lt x y
             end) la lb
      | _, _ => inl (TypeError "'<' not supported between instances")
      end
  | _, _ => inl (TypeError "'<' not supported between instances")
  end.

(** [s.replace(old, new)] for a non-empty [old]: occurrences are replaced
    from the left and do not overlap. [skip] counts the characters of the
    occurrence just replaced that are still to be dropped. *)
Fixpoint replace_from (old new : string) (skip : nat) (s : string) : string :=
  match s with
  | EmptyString => EmptyString
  | String c rest =>
      match skip with
      | S k => replace_from old new k rest
      | O =>
          if String.prefix old s
          then String.append new (replace_from old new (Nat.pred (String.length old)) rest)
          else String c (replace_from old new O rest)
      end
  end.

Definition replace (old new s : string) : string := replace_from old new O s.

(** [s[:n]]. *)
Definition take (n : nat) (s : string) : string := String.substring 0 n s.

(** [v.replace(...)] on a JSON value: only [str] has the method. *)
Definition as_str (v : json) : result string :=
  match v with
  | JStr s => inr s
  | _ => inl (AttributeError "object has no attribute 'replace'")
  end.

End Py.

(* ===================================================================== *)
(** * Dates and times *)
(* ===================================================================== *)

Module Datetime.

Import Py.

(** A [datetime]: the wall-clock reading [wall], counted in microseconds
    from 1970-01-01T00:00:00 on the proleptic Gregorian calendar, and the
    [tzinfo]: [None] for a naive value, [Some off] for a fixed UTC offset
    of [off] microseconds. *)
Record datetime : Type := mkdt { wall : Z; tzinfo : option Z }.

Definition us_per_second : Z := 1000000.
Definition us_per_hour : Z := 3600 * us_per_second.
Definition us_per_day : Z := 24 * us_per_hour.

(** Days from 1970-01-01 to the civil date [y-m-d], and back. *)
Definition days_from_civil (y m d : Z) : Z :=
  let y' := if m <=? 2 then y - 1 else y in
  let era := y' / 400 in
  let yoe := y' - era * 400 in
  let doy := (153 * (if 2 <? m then m - 3 else m + 9) + 2) / 5 + d - 1 in
  let doe := yoe * 365 + yoe / 4 - yoe / 100 + doy in
  era * 146097 + doe - 719468.

Definition civil_from_days (z : Z) : Z * Z * Z :=
  let z' := z + 719468 in
  let era := z' / 146097 in
  let doe := z' - era * 146097 in
  let yoe := (doe - doe / 1460 + doe / 36524 - doe / 146096) / 365 in
  let doy := doe - (365 * yoe + yoe / 4 - yoe / 100) in
  let mp := (5 * doy + 2) / 153 in
  let d := doy - (153 * mp + 2) / 5 + 1 in
  let m := if mp <? 10 then mp + 3 else mp - 9 in
  let y := yoe + era * 400 in
  (if m <=? 2 then y + 1 else y, m, d).

(** [datetime.min] and [datetime.max]: years 1 to 9999. *)
Definition min_wall : Z := days_from_civil 1 1 1 * us_per_day.
Definition max_wall : Z := days_from_civil 10000 1 1 * us_per_day - 1.

Definition in_range (w : Z) : bool := (min_wall <=? w) && (w <=? max_wall).

(** Arithmetic that leaves the supported years raises [OverflowError]. *)
Definition checked (w : Z) (tz : option Z) : result datetime :=
  if in_range w then inr (mkdt w tz)
  else inl (OverflowError "date value out of range").

(** [dt + timedelta(microseconds=delta)]. *)
Definition add_delta (dt : datetime) (delta : Z) : result datetime :=
  checked (wall dt + delta) (tzinfo dt).

(** [dt.replace(tzinfo=timezone.utc)]. *)
Definition replace_tzinfo_utc (dt : datetime) : datetime := mkdt (wall dt) (Some 0).

(** [dt.replace(microsecond=0)]. *)
Definition replace_microsecond_0 (dt : datetime) : datetime :=
  mkdt (wall dt - wall dt mod us_per_second) (tzinfo dt).

(** [dt.astimezone(timezone.utc)]. A naive value is read in the system's
    local time, whose offset [local_utcoffset] the platform supplies. *)
Definition astimezone_utc (local_utcoffset : Z -> Z) (dt : datetime) : result datetime :=
  match tzinfo dt with
  | Some off => checked (wall dt - off) (Some 0)
  | None => checked (wall dt - local_utcoffset (wall dt)) (Some 0)
  end.

(** Decimal digits, zero padded to [n] places (the low [n] digits). *)
Definition digit (z : Z) : ascii := ascii_of_nat (48 + Z.to_nat (z mod 10)).

Fixpoint digits (n : nat) (z : Z) : string :=
  match n with
  | O => EmptyString
  | S k => String.append (digits k (z / 10)) (String (digit z) EmptyString)
  end.

(** [d.isoformat()] for the date of a wall-clock reading: [YYYY-MM-DD]. *)
Definition date_isoformat (w : Z) : string :=
  let '(y, m, d) := civil_from_days (w / us_per_day) in
  digits 4 y ++ "-" ++ digits 2 m ++ "-" ++ digits 2 d.

(** [dt.date().isoformat()]. *)
Definition date_iso (dt : datetime) : string := date_isoformat (wall dt).

(** The time of day [HH:MM:SS], with [.ffffff] when the microseconds are
    not zero. *)
Definition time_isoformat (us : Z) : string :=
  let s := us / us_per_second in
  let f := us mod us_per_second in
  digits 2 (s / 3600) ++ ":" ++ digits 2 (s / 60 mod 60) ++ ":" ++ digits 2 (s mod 60)
  ++ (if f =? 0 then "" else "." ++ digits 6 f).

(** The UTC offset [+HH:MM], with seconds and microseconds when present. *)
Definition offset_isoformat (off : Z) : string :=
  let a := Z.abs off in
  let s := a / us_per_second in
  let f := a mod us_per_second in
  (if off <? 0 then "-" else "+")
  ++ digits 2 (s / 3600) ++ ":" ++ digits 2 (s / 60 mod 60)
  ++ (if (s mod 60 =? 0) && (f =? 0) then ""
      else ":" ++ digits 2 (s mod 60) ++ (if f =? 0 then "" else "." ++ digits 6 f)).

(** [dt.isoformat()]. *)
Definition isoformat (dt : datetime) : string :=
  date_isoformat (wall dt) ++ "T" ++ time_isoformat (wall dt mod us_per_day)
  ++ match tzinfo dt with
     | None => ""
     | Some off => offset_isoformat off
     end.

(** A reader for the extended format [YYYY-MM-DDTHH:MM:SS], optionally
    followed by [+HH:MM] or [-HH:MM]: the part of [datetime.fromisoformat]
    that every Python version accepts and that the upstream catalog uses.
    It stands in for the library function in the worked examples; the
    general results take the reader as a parameter. *)
Definition digit_val (c : ascii) : option Z :=
  let n := nat_of_ascii c in
  if (48 <=? n)%nat && (n <=? 57)%nat then Some (Z.of_nat (n - 48)) else None.

Fixpoint number_of (acc : Z) (s : string) : option Z :=
  match s with
  | EmptyString => Some acc
  | String c rest =>
      match digit_val c with
      | Some d => number_of (acc * 10 + d) rest
      | None => None
      end
  end.

Definition field (start len : nat) (s : string) : option Z :=
  let t := String.substring start len s in
  if (String.length t =? len)%nat then number_of 0 t else None.

Definition sep_at (i : nat) (c : string) (s : string) : bool :=
  String.eqb (String.substring i 1 s) c.

Definition days_in_month (y m : Z) : Z :=
  days_from_civil (if m =? 12 then y + 1 else y) (if m =? 12 then 1 else m + 1) 1
  - days_from_civil y m 1.

(** Whether [z] is the day number of a date of the calendar. *)
Definition is_calendar_day (z : Z) : bool :=
  let '(y, m, d) := civil_from_days z in
  (days_from_civil y m d =? z) && (1 <=? m) && (m <=? 12)
  && (1 <=? d) && (d <=? days_in_month y m).

Fixpoint calendar_days (n : nat) (z : Z) : bool :=
  match n with
  | O => true
  | S k => is_calendar_day z && calendar_days k (z + 1)
  end.

Definition read_offset (s : string) : option (option Z) :=
  if String.eqb s "" then Some None
  else if (String.length s =? 6)%nat && sep_at 3 ":" s
  then
    match field 1 2 s, field 4 2 s with
    | Some hh, Some mm =>
        if (hh <? 24) && (mm <? 60)
        then
          if sep_at 0 "+" s then Some (Some ((hh * 3600 + mm * 60) * us_per_second))
          else if sep_at 0 "-" s then Some (Some (- ((hh * 3600 + mm * 60) * us_per_second)))
          else None
        else None
    | _, _ => None
    end
  else None.

Definition fromisoformat_extended (s : string) : option datetime :=
  if sep_at 4 "-" s && sep_at 7 "-" s && sep_at 10 "T" s && sep_at 13 ":" s && sep_at 16 ":" s
  then
    match field 0 4 s, field 5 2 s, field 8 2 s,
          field 11 2 s, field 14 2 s, field 17 2 s,
          read_offset (String.substring 19 (String.length s - 19) s) with
    | Some y, Some m, Some d, Some hh, Some mi, Some ss, Some tz =>
        if (1 <=? y) && (1 <=? m) && (m <=? 12) && (1 <=? d) && (d <=? days_in_month y m)
           && (hh <? 24) && (mi <? 60) && (ss <? 60)
        then Some (mkdt (days_from_civil y m d * us_per_day
                         + (hh * 3600 + mi * 60 + ss) * us_per_second) tz)
        else None
    | _, _, _, _, _, _, _ => None
    end
  else None.

End Datetime.

(* ===================================================================== *)
(** * app/models.py *)
(* ===================================================================== *)

Module Models.

Import Py.

(** The [geometry] member, a [dict[str, Any]]: its ["type"] and its
    ["coordinates"], each any JSON value when present, and whether it
    has further members. *)
Record Geometry : Type := mkGeometry {
  g_type : option json;
  g_coordinates : option json;
  g_other_members : bool
}.

(** An [AOI] with its fields set. A [bbox] that was supplied holds the
    floats pydantic made of its items; the validator assigns a derived
    one as it computed it, whatever its items are. *)
Record AOI : Type := mkAOI {
  id : string;
  name : string;
  bbox : option (list json);
  geometry : option Geometry
}.

(** [bool(self.geometry)]: a [dict] is true when it has a member. *)
Definition geometry_truthy (g : option Geometry) : bool :=
  match g with
  | None => false
  | Some g =>
      match g_type g, g_coordinates g with
      | None, None => g_other_members g
      | _, _ => true
      end
  end.

(** [self.geometry.get("type") != "Polygon"]. *)
Definition type_is_polygon (g : Geometry) : bool :=
  match g_type g with
  | Some (JStr s) => String.eqb s "Polygon"
  | _ => false
  end.

(** [min(l)] and [max(l)]: the first extremal item; an item replaces the
    current one when it is less ([min]) or greater ([max]) than it, and
    a comparison that raises ends the search; an empty list raises. *)
Fixpoint min_from (cur : json) (l : list json) : result json :=
  match l with
  | [] => inr cur
  | x :: l' =>
      match lt x cur with
      | inl e => inl e
      | inr b => min_from (if b then x else cur) l'
      end
  end.

Fixpoint max_from (cur : json) (l : list json) : result json :=
  match l with
  | [] => inr cur
  | x :: l' =>
      match lt cur x with
      | inl e => inl e
      | inr b => max_from (if b then x else cur) l'
      end
  end.

Definition py_min (l : list json) : result json :=
  match l with
  | [] => inl (ValueError "min() iterable argument is empty")
  | x :: l' => min_from x l'
  end.

Definition py_max (l : list json) : result json :=
  match l with
  | [] => inl (ValueError "max() iterable argument is empty")
  | x :: l' => max_from x l'
  end.

(** [[c[i] for c in coords]] over the items of [coords]. *)
Fixpoint column_of (i : nat) (positions : list json) : result (list json) :=
  match positions with
  | [] => inr []
  | c :: rest =>
      match subscript c i with
      | inl e => inl e
      | inr x =>
          match column_of i rest with
          | inl e => inl e
          | inr xs => inr (x :: xs)
          end
      end
  end.

Definition column (i : nat) (coords : json) : result (list json) :=
  match items coords with
  | inl e => inl e
  | inr positions => column_of i positions
  end.

(** The first block of [ensure_bbox]: the envelope of the first ring. *)
Definition envelope (g : Geometry) : result (list json) :=
  match g_coordinates g with
  | None => inl (KeyError "coordinates")
  | Some rings =>
      match subscript rings 0 with
      | inl e => inl e
      | inr coords =>
          match column 0 coords with
          | inl e => inl e
          | inr lons =>
              match column 1 coords with
              | inl e => inl e
              | inr lats =>
                  match py_min lons, py_min lats, py_max lons, py_max lats with
                  | inr a, inr b, inr c, inr d => inr [a; b; c; d]
                  | inl e, _, _, _ => inl e
                  | _, inl e, _, _ => inl e
                  | _, _, inl e, _ => inl e
                  | _, _, _, inl e => inl e
                  end
              end
          end
      end
  end.

Definition set_bbox (a : AOI) (b : list json) : AOI :=
  mkAOI (id a) (name a) (Some b) (geometry a).

(** The last block of [ensure_bbox]. *)
Definition check_bbox (a : AOI) : result AOI :=
  match bbox a with
  | None | Some [] =>
      inl (ValueError "AOI must have bbox (either directly or computed from geometry)")
  | Some b =>
      if (List.length b =? 4)%nat then inr a
      else inl (ValueError "AOI must have bbox (either directly or computed from geometry)")
  end.

(** [AOI.ensure_bbox], the validator that runs after the fields are set. *)
Definition ensure_bbox (a : AOI) : result AOI :=
  match bbox a, geometry a with
  | None, Some g =>
      if geometry_truthy (Some g) then
        if negb (type_is_polygon g) then inl (ValueError "geometry.type must be 'Polygon'")
        else
          match envelope g with
          | inl e => inl e
          | inr b => check_bbox (set_bbox a b)
          end
      else check_bbox a
  | _, _ => check_bbox a
  end.

(** What the claims about the envelope speak of: the least and the
    greatest member of a list, the [i]-th coordinate of every position
    of a ring of numbers, and such a ring and a bbox of numbers as JSON
    has them. *)
Definition least (x : Q) (l : list Q) : Prop :=
  In x l /\ forall y, In y l -> (x <= y)%Q.

Definition greatest (x : Q) (l : list Q) : Prop :=
  In x l /\ forall y, In y l -> (y <= x)%Q.

Definition coordinate (i : nat) (ring : list (list Q)) (xs : list Q) : Prop :=
  Forall2 (fun c x => nth_error c i = Some x) ring xs.

Definition numbers (l : list Q) : list json := map JNum l.

Definition of_ring (ring : list (list Q)) : json :=
  JArr (map (fun c => JArr (numbers c)) ring).

End Models.

(* ===================================================================== *)
(** * The world the services run in *)
(* ===================================================================== *)

Module Runtime.

Import Py.

(** [bytes]. *)
Definition bytes : Type := string.

(** What the code reads from an [httpx.Response]. [json_body] is what
    [r.json()] returns, [None] when the body is not JSON. *)
Record Response : Type := mkResponse {
  status_code : Z;
  text : string;
  json_body : option json;
  content : bytes
}.

(** One call of [client.post]: an answer, or an exception of the
    transport (time-out, refused connection), a subclass of [Exception]. *)
Inductive outcome : Type :=
| Answer (r : Response)
| Failure (cls msg : string).

(** [app/config.py]. *)
Record Settings : Type := mkSettings {
  sh_client_id : string;
  sh_client_secret : string;
  sh_token_url : string;
  sh_base_url : string;
  output_dir : string
}.

(** The body of a catalog search and of a process request, as far as the
    arguments of the call determine it. *)
Record CatalogRequest : Type := mkCatalogRequest {
  cr_token : json;
  cr_bbox : option (list json);
  cr_datetime : string;
  cr_limit : Z;
  cr_max_cloud : Q
}.

Record ProcessRequest : Type := mkProcessRequest {
  pr_token : json;
  pr_bbox : option (list json);
  pr_from : string;
  pr_to : string;
  pr_width : Z;
  pr_height : Z
}.

(** Everything a run depends on and does not change: the settings, the
    library functions left open ([datetime.fromisoformat], the local
    time zone, [float] on strings, [str] on values the model does not
    print and the message of an [HTTPStatusError]), the
    content of [data/aois.json] ([None] when the file is missing), the
    order in which the event loop lets the tasks of a batch run (see
    [Main.gather]) and the answers of the three upstream endpoints to
    the [n]-th request of the run. *)
Record World : Type := mkWorld {
  settings : Settings;
  fromisoformat : string -> option Datetime.datetime;
  local_utcoffset : Z -> Z;
  float_of_str : string -> option Float.t;
  repr : json -> string;
  status_error_str : Z -> string;
  aoi_file : option (list Models.AOI);
  schedule : list nat;
  token_endpoint : nat -> outcome;
  catalog_endpoint : nat -> CatalogRequest -> outcome;
  process_endpoint : nat -> ProcessRequest -> outcome
}.

(** What a run leaves behind, in order. *)
Inductive event : Type :=
| TokenPost
| CatalogPost (rq : CatalogRequest)
| ProcessPost (rq : ProcessRequest)
| Sleep (seconds : Q)
| WriteFile (path : string).

(** The mutable part: the clock (in seconds since the epoch), the
    module level [_token_cache] (its [expires_at] is a float), the files
    under the output directory, the number of requests sent so far and
    the trace. *)
Record State : Type := mkState {
  clock : Q;
  cache_access_token : json;
  cache_expires_at : Float.t;
  files : gmap string bytes;
  requests : nat;
  trace : list event
}.

(** [_token_cache] as the module is loaded. *)
Definition initial (now : Q) : State :=
  mkState now JNull (Float.Finite 0) ∅ 0 [].

(** Computations: they read the world, change the state and may raise;
    what was changed before an exception stays changed. *)
Definition M (A : Type) : Type := World -> State -> result A * State.

Definition ret {A : Type} (x : A) : M A := fun _ s => (inr x, s).

Definition raise {A : Type} (e : exn) : M A := fun _ s => (inl e, s).

Definition bind {A B : Type} (c : M A) (k : A -> M B) : M B :=
  fun w s =>
    match c w s with
    | (inr x, s') => k x w s'
    | (inl e, s') => (inl e, s')
    end.

(** [try: c  except Exception as e: h e]. *)
Definition try_except {A : Type} (c : M A) (h : exn -> M A) : M A :=
  fun w s =>
    match c w s with
    | (inr x, s') => (inr x, s')
    | (inl e, s') => h e w s'
    end.

Definition lift {A : Type} (r : result A) : M A := fun _ s => (r, s).

Definition ask : M World := fun w s => (inr w, s).

Definition get_state : M State := fun _ s => (inr s, s).

Definition record_event (e : event) : M unit :=
  fun _ s =>
    (inr tt, mkState (clock s) (cache_access_token s) (cache_expires_at s)
                     (files s) (requests s) (trace s ++ [e])).

Definition count_request : M nat :=
  fun _ s =>
    (inr (requests s),
     mkState (clock s) (cache_access_token s) (cache_expires_at s)
             (files s) (S (requests s)) (trace s)).

End Runtime.

Declare Scope run_scope.
Delimit Scope run_scope with run.
Notation "x <- c ;; k" := (Runtime.bind c (fun x => k))
  (at level 100, c at next level, right associativity) : run_scope.
Notation "c ;; k" := (Runtime.bind c (fun _ => k))
  (at level 100, right associativity) : run_scope.

Local Open Scope run_scope.

(* ===================================================================== *)
(** * httpx, time and asyncio, as the services use them *)
(* ===================================================================== *)

Module Lib.

Import Py Runtime.

(** [r.raise_for_status()]: only a 2xx status passes. *)
Definition is_success (r : Response) : bool :=
  (200 <=? status_code r) && (status_code r <=? 299).

Definition raise_for_status (r : Response) : M unit :=
  if is_success r then ret tt
  else raise (HTTPStatusError (status_code r) (text r)).

(** [r.json()]. *)
Definition response_json (r : Response) : M json :=
  match json_body r with
  | Some j => ret j
  | None => raise (PyError "JSONDecodeError" "Expecting value")
  end.

Definition deliver (o : outcome) : M Response :=
  match o with
  | Answer r => ret r
  | Failure cls msg => raise (PyError cls msg)
  end.

(** [time.time()]: the clock as a float. *)
Definition now_of (s : State) : Float.t := Float.round (clock s).

Definition time_time : M Float.t := fun _ s => (inr (now_of s), s).

(** [await asyncio.sleep(d)]. *)
Definition sleep (d : Q) : M unit :=
  record_event (Sleep d) ;;
  fun _ s =>
    (inr tt, mkState (clock s + d)%Q (cache_access_token s) (cache_expires_at s)
                     (files s) (requests s) (trace s)).

(** [float(v)]: an [int] is rounded to the nearest double and is too
    large when that is an infinity; a [float] is itself, the double
    nearest to the number as it was written; a string is parsed. *)
Definition to_float (w : World) (v : json) : result Float.t :=
  match v with
  | JNum q =>
      match Float.round q with
      | Float.Finite r => inr (Float.Finite r)
      | _ => inl (OverflowError "int too large to convert to float")
      end
  | JInf negative => inr (Float.Inf negative)
  | JNaN => inr Float.NaN
  | JBool b => inr (Float.Finite (if b then 1 else 0))
  | JStr s =>
      match float_of_str w s with
      | Some x => inr x
      | None => inl (ValueError "could not convert string to float")
      end
  | _ => inl (TypeError "float() argument must be a string or a real number")
  end.

Definition py_float (v : json) : M Float.t :=
  w <- ask ;;
  lift (to_float w v).

(** [str(e)]. *)
Definition exn_str (w : World) (e : exn) : string :=
  match e with
  | PyError _ msg => msg
  | HTTPException st (JStr d) =>
      NilZero.string_of_int (Z.to_int st) ++ ": " ++ d
  | HTTPException st d =>
      NilZero.string_of_int (Z.to_int st) ++ ": " ++ repr w d
  | HTTPStatusError st _ => status_error_str w st
  end.

(** [datetime.now(timezone.utc)]: the clock, cut to the microsecond. *)
Definition datetime_now_utc : M Datetime.datetime :=
  s <- get_state ;;
  lift (Datetime.checked (Qfloor (clock s * 1000000)) (Some 0)).

End Lib.

(* ===================================================================== *)
(** * app/services/token.py *)
(* ===================================================================== *)

Module Token.

Import Py Runtime Lib.

Definition set_access_token (tok : json) : M unit :=
  fun _ s =>
    (inr tt, mkState (clock s) tok (cache_expires_at s)
                     (files s) (requests s) (trace s)).

Definition set_expires_at (t : Float.t) : M unit :=
  fun _ s =>
    (inr tt, mkState (clock s) (cache_access_token s) t
                     (files s) (requests s) (trace s)).

(** [client.post(settings.sh_token_url, data=data)]. *)
Definition post_token : M Response :=
  w <- ask ;;
  n <- count_request ;;
  record_event TokenPost ;;
  deliver (token_endpoint w n).

(** The test [_token_cache["access_token"] and
    (_token_cache["expires_at"] - now) > 60]. *)
Definition cache_is_fresh (s : State) (now : Float.t) : bool :=
  truthy (cache_access_token s) &&
  Float.lt (Float.Finite 60) (Float.sub (cache_expires_at s) now).

Definition get_access_token : M json :=
  now <- time_time ;;
  s <- get_state ;;
  if cache_is_fresh s now then ret (cache_access_token s)
  else
    r <- post_token ;;
    raise_for_status r ;;
    payload <- response_json r ;;
    tok <- lift (getitem payload "access_token") ;;
    set_access_token tok ;;
    e <- lift (get_default payload "expires_in" (JNum 3600)) ;;
    f <- py_float e ;;
    set_expires_at (Float.add now f) ;;
    s' <- get_state ;;
    ret (cache_access_token s').

(** What the claims about the cache speak of: the number of requests to
    the token endpoint in a trace, a token being cached with more than
    sixty seconds left at time [now] by the test of the code, and a
    payload granting the token [tok] for [f] seconds: [f] is what
    [float] makes of its [expires_in], of [3600] when it has none. *)
Definition token_requests (t : list event) : nat :=
  List.length (List.filter (fun ev => match ev with TokenPost => true | _ => false end) t).

Definition cached_and_valid (s : State) (now : Float.t) : Prop :=
  truthy (cache_access_token s) = true /\
  Float.lt (Float.Finite 60) (Float.sub (cache_expires_at s) now) = true.

Definition lifetime (m : list (string * json)) : json :=
  match assoc "expires_in" m with
  | Some v => v
  | None => JNum 3600
  end.

Definition grants (w : World) (payload : json) (tok : json) (f : Float.t) : Prop :=
  exists m, payload = JObj m /\ assoc "access_token" m = Some tok /\
            to_float w (lifetime m) = inr f.

End Token.

(* ===================================================================== *)
(** * app/services/catalog.py *)
(* ===================================================================== *)

Module Catalog.

Import Py Runtime Lib.

Definition _parse_dt (dt_str : string) : M Datetime.datetime :=
  w <- ask ;;
  match fromisoformat w (replace "Z" "+00:00" dt_str) with
  | None => raise (ValueError "Invalid isoformat string")
  | Some dt => lift (Datetime.astimezone_utc (local_utcoffset w) dt)
  end.

Definition _iso_z (dt : Datetime.datetime) : M string :=
  w <- ask ;;
  u <- lift (Datetime.astimezone_utc (local_utcoffset w) dt) ;;
  ret (replace "+00:00" "Z" (Datetime.isoformat u)).

(** [r.status_code in (502, 503, 504)]. *)
Definition transient (r : Response) : bool :=
  (status_code r =? 502) || (status_code r =? 503) || (status_code r =? 504).

(** The [for i in range(tries)] loop of [_post_with_retry] over the
    indices still to come; [last] is the variable [r] ([None] while it
    is unbound), read by the two statements after the loop. *)
Fixpoint retry_loop (post : M Response) (tries : Z) (range : list nat)
    (last : option Response) : M Response :=
  match range with
  | [] =>
      match last with
      | Some r => raise_for_status r ;; ret r
      | None => raise (PyError "UnboundLocalError" "cannot access local variable 'r'")
      end
  | i :: rest =>
      r <- post ;;
      if transient r && (Z.of_nat i <? tries - 1)
      then sleep ((3 # 2) * inject_Z (Z.of_nat i + 1))%Q ;; retry_loop post tries rest (Some r)
      else raise_for_status r ;; ret r
  end.

Definition _post_with_retry (post : M Response) (tries : nat) : M Response :=
  retry_loop post (Z.of_nat tries) (seq 0 tries) None.

(** [client.post(url, json=payload, headers=headers)]. *)
Definition post_catalog (rq : CatalogRequest) : M Response :=
  w <- ask ;;
  n <- count_request ;;
  record_event (CatalogPost rq) ;;
  deliver (catalog_endpoint w n rq).

(** Iterating over a JSON value: the items of a list, the keys of a
    dict, the characters of a string. *)
Definition iterate (v : json) : M (list json) :=
  match v with
  | JArr l => ret l
  | JObj m => ret (map (fun kv => JStr (fst kv)) m)
  | JStr s => ret (chars s)
  | _ => raise (TypeError "object is not iterable")
  end.

(** [key_fn], local to [find_latest_s2_scene]. *)
Definition key_fn (f : json) : M Datetime.datetime :=
  p <- lift (get f "properties") ;;
  d <- lift (get (py_or p (JObj [])) "datetime") ;;
  dt_str <- lift (as_str (py_or d (JStr "1970-01-01T00:00:00Z"))) ;;
  _parse_dt dt_str.

(** The instant of an aware value; [a < b] on aware values compares
    their instants. *)
Definition instant (dt : Datetime.datetime) : Z :=
  match Datetime.tzinfo dt with
  | Some off => Datetime.wall dt - off
  | None => Datetime.wall dt
  end.

(** [max(items, key=key)]: the key of each item is computed once, in
    order, and an item replaces the current one only when its key is
    strictly greater. *)
Fixpoint max_from (key : json -> M Datetime.datetime) (best : json)
    (kbest : Datetime.datetime) (items : list json) : M json :=
  match items with
  | [] => ret best
  | x :: rest =>
      k <- key x ;;
      if instant kbest <? instant k then max_from key x k rest
      else max_from key best kbest rest
  end.

Definition py_max (key : json -> M Datetime.datetime) (items : list json) : M json :=
  match items with
  | [] => raise (ValueError "max() iterable argument is empty")
  | x :: rest => k <- key x ;; max_from key x k rest
  end.

(** The end of [find_latest_s2_scene], from [data = r.json()] on. *)
Definition latest_of (data : json) : M json :=
  fs <- lift (get data "features") ;;
  let features := py_or fs (JArr []) in
  if negb (truthy features) then ret JNull
  else
    items <- iterate features ;;
    py_max key_fn items.

(** The beginning of [find_latest_s2_scene], up to [data = r.json()]. *)
Definition search (bbox : option (list json)) (days : Z) (max_cloud : Q) : M json :=
  now0 <- datetime_now_utc ;;
  let now := Datetime.replace_microsecond_0 now0 in
  start <- lift (Datetime.add_delta now (- (days * Datetime.us_per_day))) ;;
  from <- _iso_z start ;;
  to <- _iso_z now ;;
  let datetime_range := from ++ "/" ++ to in
  token <- Token.get_access_token ;;
  let payload := mkCatalogRequest token bbox datetime_range 50 max_cloud in
  r <- _post_with_retry (post_catalog payload) 4 ;;
  response_json r.

Definition find_latest_s2_scene (bbox : option (list json)) (days : Z) (max_cloud : Q) : M json :=
  data <- search bbox days max_cloud ;;
  latest_of data.

(** What the claims about retrying speak of: the pause after attempt
    number [i + 1], the state after one more request, after a pause, and
    after [k] transient answers starting at loop index [i]; and the
    requests and pauses a trace records. *)
Definition backoff (i : nat) : Q := ((3 # 2) * inject_Z (Z.of_nat i + 1))%Q.

Definition posted (rq : CatalogRequest) (s : State) : State :=
  mkState (clock s) (cache_access_token s) (cache_expires_at s) (files s)
          (S (requests s)) (trace s ++ [CatalogPost rq]).

Definition paused (d : Q) (s : State) : State :=
  mkState (clock s + d)%Q (cache_access_token s) (cache_expires_at s) (files s)
          (requests s) (trace s ++ [Sleep d]).

Fixpoint retried (rq : CatalogRequest) (i k : nat) (s : State) : State :=
  match k with
  | O => s
  | S k' => retried rq (S i) k' (paused (backoff i) (posted rq s))
  end.

Definition catalog_posts (t : list event) : nat :=
  List.length (List.filter (fun ev => match ev with CatalogPost _ => true | _ => false end) t).

Fixpoint pauses (t : list event) : list Q :=
  match t with
  | [] => []
  | Sleep d :: t' => d :: pauses t'
  | _ :: t' => pauses t'
  end.

(** What the claims about the latest scene speak of: the key of a
    feature (the state plays no part in it), a feature without a usable
    [datetime], the key such a feature gets, and a search result without
    features. *)
Definition key_of (w : World) (f : json) : result Datetime.datetime :=
  fst (key_fn f w (initial 0)).

Definition absent_or_falsy (v : option json) : Prop :=
  match v with
  | None => True
  | Some x => truthy x = false
  end.

Definition lacks_datetime (f : json) : Prop :=
  exists m, f = JObj m /\
    (absent_or_falsy (assoc "properties" m) \/
     exists pm, assoc "properties" m = Some (JObj pm) /\
                absent_or_falsy (assoc "datetime" pm)).

Definition datetime_of (f : json) (d : string) : Prop :=
  exists m pm, f = JObj m /\ assoc "properties" m = Some (JObj pm) /\
               assoc "datetime" pm = Some (JStr d) /\ d <> "".

Definition epoch_key (w : World) : result Datetime.datetime :=
  fst (_parse_dt "1970-01-01T00:00:00Z" w (initial 0)).

Definition no_features (data : json) : Prop :=
  exists m, data = JObj m /\ absent_or_falsy (assoc "features" m).

(** What [raise_for_status] followed by [return r] makes of an answer. *)
Definition settle (r : Response) : result Response :=
  if is_success r then inr r else inl (HTTPStatusError (status_code r) (text r)).

End Catalog.

(* ===================================================================== *)
(** * app/services/process.py *)
(* ===================================================================== *)

Module Process.

Import Py Runtime Lib.

Definition post_process (rq : ProcessRequest) : M Response :=
  w <- ask ;;
  n <- count_request ;;
  record_event (ProcessPost rq) ;;
  deliver (process_endpoint w n rq).

Definition fetch_false_color_png (bbox : option (list json)) (time_from time_to : string)
    (width height : Z) : M bytes :=
  token <- Token.get_access_token ;;
  let payload := mkProcessRequest token bbox time_from time_to width height in
  r <- post_process payload ;;
  raise_for_status r ;;
  ret (content r).

End Process.

(* ===================================================================== *)
(** * app/services/storage.py *)
(* ===================================================================== *)

Module Storage.

Import Py Runtime Lib.

(** [pathlib.PurePosixPath]: the root (empty, [/] or [//]) and the
    components, from which empty ones and [.] are dropped. *)
Record PurePath : Type := mkPath { root : string; parts : list string }.

Definition is_slash (c : ascii) : bool := Ascii.eqb c "/"%char.

(** [s.split("/")]. *)
Fixpoint split (s : string) : list string :=
  match s with
  | EmptyString => [EmptyString]
  | String c rest =>
      if is_slash c then EmptyString :: split rest
      else
        match split rest with
        | h :: t => String c h :: t
        | [] => [String c EmptyString]
        end
  end.

Definition keep (x : string) : bool := negb (String.eqb x "") && negb (String.eqb x ".").

Definition segments (s : string) : list string := List.filter keep (split s).

Definition root_of (s : string) : string :=
  match s with
  | String c1 rest1 =>
      if is_slash c1 then
        match rest1 with
        | String c2 rest2 =>
            if is_slash c2 then
              match rest2 with
              | String c3 _ => if is_slash c3 then "/" else "//"
              | EmptyString => "//"
              end
            else "/"
        | EmptyString => "/"
        end
      else ""
  | EmptyString => ""
  end.

(** [Path(s)]. *)
Definition Path (s : string) : PurePath := mkPath (root_of s) (segments s).

(** [p / s]: an absolute [s] replaces [p]. *)
Definition is_absolute (s : string) : bool :=
  match s with
  | String c _ => is_slash c
  | EmptyString => false
  end.

Definition joinpath (p : PurePath) (s : string) : PurePath :=
  if is_absolute s then Path s
  else mkPath (root p) (parts p ++ segments s).

Fixpoint join_slash (l : list string) : string :=
  match l with
  | [] => ""
  | [x] => x
  | x :: rest => x ++ "/" ++ join_slash rest
  end.

(** [str(p)]. *)
Definition str (p : PurePath) : string :=
  match root p, parts p with
  | EmptyString, [] => "."
  | r, l => r ++ join_slash l
  end.

(** [p.write_bytes(data)]: the file named [str(p)] now holds [data].
    Directories are not tracked, so [mkdir(parents=True, exist_ok=True)]
    leaves no mark. *)
Definition write_bytes (p : PurePath) (data : bytes) : M unit :=
  record_event (WriteFile (str p)) ;;
  fun _ s =>
    (inr tt, mkState (clock s) (cache_access_token s) (cache_expires_at s)
                     (<[str p := data]> (files s)) (requests s) (trace s)).

Definition save_png (aoi_id date_str : string) (png_bytes : bytes) : M string :=
  w <- ask ;;
  let out_dir := joinpath (Path (output_dir (settings w))) aoi_id in
  let filename := date_str ++ "_false_color.png" in
  let out_path := joinpath out_dir filename in
  write_bytes out_path png_bytes ;;
  ret (replace "\" "/" (str out_path)).

(** What the claim about the layout speaks of: a name that is one path
    component, a string without backslash (the separator [save_png]
    rewrites), and an output directory written the way [str(Path(d))]
    prints it, with at least one component. *)
Fixpoint has (c : ascii) (s : string) : bool :=
  match s with
  | EmptyString => false
  | String a rest => Ascii.eqb a c || has c rest
  end.

Definition component (x : string) : Prop :=
  has "/" x = false /\ x <> "" /\ x <> ".".

Definition portable (x : string) : Prop := has "\" x = false.

Definition normal_dir (d : string) : Prop :=
  str (Path d) = d /\ parts (Path d) <> [].

(** The state after [data] was written to [path]. *)
Definition written (path : string) (data : bytes) (s : State) : State :=
  mkState (clock s) (cache_access_token s) (cache_expires_at s)
          (<[path := data]> (files s)) (requests s) (trace s ++ [WriteFile path]).

End Storage.

(* ===================================================================== *)
(** * app/services/aoi_repo.py *)
(* ===================================================================== *)

Module AoiRepo.

Import Py Runtime Lib.

(** The list comprehension of [load_aois]: every record of the file is
    built as an [AOI], which runs the validator. *)
Fixpoint construct_all (raw : list Models.AOI) : M (list Models.AOI) :=
  match raw with
  | [] => ret []
  | x :: rest =>
      a <- lift (Models.ensure_bbox x) ;;
      l <- construct_all rest ;;
      ret (a :: l)
  end.

Definition load_aois : M (list Models.AOI) :=
  w <- ask ;;
  match aoi_file w with
  | None => ret []
  | Some raw => construct_all raw
  end.

Definition get_aoi (aoi_id : string) : M (option Models.AOI) :=
  aois <- load_aois ;;
  ret (List.find (fun a => String.eqb (Models.id a) aoi_id) aois).

(** Reading the file does not touch the state; [known w aoi_id] is what
    [get_aoi] finds in the world [w]. *)
Definition known (w : World) (aoi_id : string) : result (option Models.AOI) :=
  fst (get_aoi aoi_id w (initial 0)).

Definition loaded (w : World) : result (list Models.AOI) :=
  fst (load_aois w (initial 0)).

End AoiRepo.

(* ===================================================================== *)
(** * app/main.py *)
(* ===================================================================== *)

Module Main.

Import Py Runtime Lib.

Definition parse_datetime_utc (datetime_utc : json) : M Datetime.datetime :=
  w <- ask ;;
  s <- lift (as_str datetime_utc) ;;
  match fromisoformat w (replace "Z" "+00:00" s) with
  | None =>
      raise (HTTPException 422
               (JStr "Invalid datetime_utc. Use ISO format e.g. 2026-01-23T10:15:00Z"))
  | Some dt =>
      let dt' := match Datetime.tzinfo dt with
                 | None => Datetime.replace_tzinfo_utc dt
                 | Some _ => dt
                 end in
      lift (Datetime.astimezone_utc (local_utcoffset w) dt')
  end.

Definition to_z (dt : Datetime.datetime) : M string :=
  w <- ask ;;
  u <- lift (Datetime.astimezone_utc (local_utcoffset w) dt) ;;
  ret (replace "+00:00" "Z" (Datetime.isoformat u)).

Definition jnum (z : Z) : json := JNum (inject_Z z).

Definition aoi_not_found : exn := HTTPException 404 (JStr "AOI not found").

(** The [detail] of the errors a single-AOI handler re-raises. *)
Definition upstream_detail (where_ : string) (st : Z) (tx : string) : json :=
  JObj [("where", JStr where_); ("upstream_status", jnum st);
        ("upstream_body", JStr (take 1200 tx))].

(** [except httpx.HTTPStatusError as e: raise HTTPException(...)], with
    every other exception passing through. *)
Definition reraise_status {A : Type} (where_ : string) (e : exn) : M A :=
  match e with
  | HTTPStatusError st tx => raise (HTTPException st (upstream_detail where_ st tx))
  | _ => raise e
  end.

(** Reading a datetime and computing the window do not touch the state;
    [parsed] and [window_of] are what they return in the world [w]. *)
Definition parsed (w : World) (v : json) : result Datetime.datetime :=
  fst (parse_datetime_utc v w (initial 0)).

(** [GET /aois/{aoi_id}/latest-scene]. *)
Definition latest_scene (aoi_id : string) (days : Z) (cloud : Q) : M json :=
  aoi <- AoiRepo.get_aoi aoi_id ;;
  match aoi with
  | None => raise aoi_not_found
  | Some aoi =>
      feature <-
        try_except (Catalog.find_latest_s2_scene (Models.bbox aoi) days cloud)
          (fun e =>
             match e with
             | HTTPStatusError st tx =>
                 raise (HTTPException st (upstream_detail "catalog.search" st tx))
             | _ =>
                 w <- ask ;;
                 raise (HTTPException 502
                          (JObj [("where", JStr "catalog.search");
                                 ("error", JStr (exn_str w e))]))
             end) ;;
      if negb (truthy feature)
      then ret (JObj [("aoi_id", JStr aoi_id); ("scene", JNull)])
      else
        props <- lift (get_default feature "properties" (JObj [])) ;;
        dt <- lift (get props "datetime") ;;
        cc <- lift (get props "eo:cloud_cover") ;;
        sid <- lift (get feature "id") ;;
        ret (JObj [("aoi_id", JStr aoi_id); ("datetime", dt);
                   ("cloud_cover", cc); ("scene_id", sid)])
  end.

(** The window of one hour on each side of [dt], as the three rendering
    handlers compute it. *)
Definition window (dt : Datetime.datetime) : M (string * string) :=
  before <- lift (Datetime.add_delta dt (- Datetime.us_per_hour)) ;;
  time_from <- to_z before ;;
  after <- lift (Datetime.add_delta dt Datetime.us_per_hour) ;;
  time_to <- to_z after ;;
  ret (time_from, time_to).

Definition window_of (w : World) (dt : Datetime.datetime) : result (string * string) :=
  fst (window dt w (initial 0)).

(** [GET /aois/{aoi_id}/fc.png]: the image itself and its media type. *)
Definition fc_png (aoi_id : string) (datetime_utc : string) : M (bytes * string) :=
  aoi <- AoiRepo.get_aoi aoi_id ;;
  match aoi with
  | None => raise aoi_not_found
  | Some aoi =>
      dt <- parse_datetime_utc (JStr datetime_utc) ;;
      tw <- window dt ;;
      png <-
        try_except
          (Process.fetch_false_color_png (Models.bbox aoi) (fst tw) (snd tw) 1024 1024)
          (reraise_status "process") ;;
      ret (png, "image/png")
  end.

(** [GET /aois/{aoi_id}/fc]. *)
Definition fc_save (aoi_id : string) (datetime_utc : string) : M json :=
  aoi <- AoiRepo.get_aoi aoi_id ;;
  match aoi with
  | None => raise aoi_not_found
  | Some aoi =>
      dt <- parse_datetime_utc (JStr datetime_utc) ;;
      tw <- window dt ;;
      png <- Process.fetch_false_color_png (Models.bbox aoi) (fst tw) (snd tw) 1024 1024 ;;
      saved <- Storage.save_png aoi_id (Datetime.date_iso dt) png ;;
      let file_path := replace "\" "/" saved in
      dtz <- to_z dt ;;
      ret (JObj [("aoi_id", JStr aoi_id); ("datetime", JStr dtz);
                 ("file", JStr file_path); ("url", JStr ("/" ++ file_path))])
  end.

(** The answer of the rendering handlers when there is nothing to render. *)
Definition nothing_rendered (aoi_id : string) : json :=
  JObj [("aoi_id", JStr aoi_id); ("datetime", JNull); ("file", JNull); ("url", JNull)].

(** What the claim about a missing datetime speaks of: a feature that is
    there (a non-empty dict) whose [properties], when present, is a dict
    without a usable [datetime]. *)
Definition undated (f : json) : Prop :=
  exists m, f = JObj m /\ m <> [] /\
    (assoc "properties" m = None \/
     exists pm, assoc "properties" m = Some (JObj pm) /\
                Catalog.absent_or_falsy (assoc "datetime" pm)).

(** [GET /aois/{aoi_id}/latest-fc]. *)
Definition latest_fc (aoi_id : string) (days : Z) (cloud : Q) : M json :=
  aoi <- AoiRepo.get_aoi aoi_id ;;
  match aoi with
  | None => raise aoi_not_found
  | Some aoi =>
      feature <-
        try_except (Catalog.find_latest_s2_scene (Models.bbox aoi) days cloud)
          (reraise_status "catalog.search") ;;
      if negb (truthy feature) then ret (nothing_rendered aoi_id)
      else
        props <- lift (get_default feature "properties" (JObj [])) ;;
        dt_str <- lift (get props "datetime") ;;
        if negb (truthy dt_str) then ret (nothing_rendered aoi_id)
        else
          dt <- parse_datetime_utc dt_str ;;
          tw <- window dt ;;
          png <-
            try_except
              (Process.fetch_false_color_png (Models.bbox aoi) (fst tw) (snd tw) 1024 1024)
              (reraise_status "process") ;;
          saved <- Storage.save_png aoi_id (Datetime.date_iso dt) png ;;
          let file_path := replace "\" "/" saved in
          ret (JObj [("aoi_id", JStr aoi_id); ("datetime", dt_str);
                     ("file", JStr file_path); ("url", JStr ("/" ++ file_path))])
  end.

(** ** The batch handlers *)

(** [await asyncio.gather] over the tasks. The tasks are started together
    and finish in an order the program does not choose. Each is run here
    as a whole, in the order the event loop picks: the indices of
    [schedule] that name a task, each at its first mention, then the
    tasks not named, in their order; so every task runs once, and
    [schedule] ranges over all the orders. Every result goes to the slot
    of its task, and the slots are returned in the order of the tasks.
    An exception leaving a task leaves [gather]. The semaphore of the
    handlers bounds how many tasks are inside [async with sem] at a
    time; with tasks run one after the other it never blocks. *)
Fixpoint first_mentions (seen : list nat) (l : list nat) : list nat :=
  match l with
  | [] => []
  | i :: rest =>
      if existsb (Nat.eqb i) seen then first_mentions seen rest
      else i :: first_mentions (i :: seen) rest
  end.

Definition run_order (sched : list nat) (n : nat) : list nat :=
  let named := first_mentions [] (List.filter (fun i => (i <? n)%nat) sched) in
  named ++ List.filter (fun i => negb (existsb (Nat.eqb i) named)) (seq 0 n).

Fixpoint run_tasks {A : Type} (tasks : list (M A)) (order : list nat)
    (slots : list (option A)) : M (list (option A)) :=
  match order with
  | [] => ret slots
  | i :: rest =>
      match tasks !! i with
      | Some t => r <- t ;; run_tasks tasks rest (<[i := Some r]> slots)
      | None => run_tasks tasks rest slots
      end
  end.

Fixpoint collect {A : Type} (slots : list (option A)) : M (list A) :=
  match slots with
  | [] => ret []
  | Some r :: rest => l <- collect rest ;; ret (r :: l)
  | None :: _ => raise (PyError "RuntimeError" "task did not run")
  end.

Definition gather {A : Type} (tasks : list (M A)) : M (list A) :=
  w <- ask ;;
  slots <- run_tasks tasks (run_order (schedule w) (List.length tasks))
                     (List.repeat None (List.length tasks)) ;;
  collect slots.

Definition item (a : Models.AOI) (members : list (string * json)) : json :=
  JObj (("aoi_id", JStr (Models.id a)) :: ("name", JStr (Models.name a)) :: members).

(** The two [except] clauses that close [one] in both batch handlers;
    [latest_scenes] adds where the error came from. *)
Definition status_error (where_ : option string) (st : Z) (tx : string) : json :=
  JObj (match where_ with
        | Some x => [("where", JStr x)]
        | None => []
        end ++ [("status", jnum st); ("body", JStr (take 400 tx))]).

(** The value of the [error] member for the exception [e]. *)
Definition error_of (where_ : option string) (w : World) (e : exn) : json :=
  match e with
  | HTTPStatusError st tx => status_error where_ st tx
  | _ => JObj [("message", JStr (exn_str w e))]
  end.

Definition item_of_exn (where_ : option string) (a : Models.AOI) (e : exn) : M json :=
  match e with
  | HTTPStatusError st tx => ret (item a [("error", status_error where_ st tx)])
  | _ =>
      w <- ask ;;
      ret (item a [("error", JObj [("message", JStr (exn_str w e))])])
  end.

(** What the claim about the batches speaks of: [r] is the entry of the
    AOI [a] when its task, whose guarded part is [body], starts in the
    state [si]: a record of [a], the one the guarded part returned or,
    when that raised [e], the error record for [e]. *)
Definition entry (body : M json) (where_ : option string) (w : World)
    (a : Models.AOI) (si : State) (r : json) : Prop :=
  (exists members, r = item a members) /\
  match fst (body w si) with
  | inr x => r = x
  | inl e => r = item a [("error", error_of where_ w e)]
  end.

(** Whether an entry has an [error] member. *)
Definition failed (r : json) : bool :=
  match get r "error" with
  | inr JNull | inl _ => false
  | inr _ => true
  end.

(** [GET /latest-scenes]. *)
Definition latest_scenes_body (days : Z) (cloud : Q) (a : Models.AOI) : M json :=
  feature <- Catalog.find_latest_s2_scene (Models.bbox a) days cloud ;;
  if negb (truthy feature) then ret (item a [("scene", JNull)])
  else
    props <- lift (get_default feature "properties" (JObj [])) ;;
    dt <- lift (get props "datetime") ;;
    cc <- lift (get props "eo:cloud_cover") ;;
    sid <- lift (get feature "id") ;;
    ret (item a [("scene", JObj [("datetime", dt); ("cloud_cover", cc); ("scene_id", sid)])]).

Definition latest_scenes_one (days : Z) (cloud : Q) (a : Models.AOI) : M json :=
  try_except (latest_scenes_body days cloud a) (item_of_exn (Some "catalog.search") a).

Definition batch_answer (results : list json) : json :=
  JObj [("count", jnum (Z.of_nat (List.length results))); ("results", JArr results)].

(** [concurrency] sizes the semaphore, which has no say in what the
    tasks return (see [gather]). *)
Definition latest_scenes (days : Z) (cloud : Q) (concurrency : Z) : M json :=
  aois <- AoiRepo.load_aois ;;
  results <- gather (map (latest_scenes_one days cloud) aois) ;;
  ret (batch_answer results).

(** [GET /latest-fc-all]. *)
Definition latest_fc_all_body (days : Z) (cloud : Q) (a : Models.AOI) : M json :=
  feature <- Catalog.find_latest_s2_scene (Models.bbox a) days cloud ;;
  if negb (truthy feature)
  then ret (item a [("datetime", JNull); ("file", JNull); ("url", JNull)])
  else
    props <- lift (get_default feature "properties" (JObj [])) ;;
    dt_str <- lift (get (py_or props (JObj [])) "datetime") ;;
    if negb (truthy dt_str)
    then ret (item a [("error", JObj [("message", JStr "scene missing datetime")])])
    else
      dt <- parse_datetime_utc dt_str ;;
      tw <- window dt ;;
      png <- Process.fetch_false_color_png (Models.bbox a) (fst tw) (snd tw) 1024 1024 ;;
      saved <- Storage.save_png (Models.id a) (Datetime.date_iso dt) png ;;
      let file_path := replace "\" "/" saved in
      ret (item a [("datetime", dt_str); ("file", JStr file_path);
                   ("url", JStr ("/" ++ file_path))]).

Definition latest_fc_all_one (days : Z) (cloud : Q) (a : Models.AOI) : M json :=
  try_except (latest_fc_all_body days cloud a) (item_of_exn None a).

Definition latest_fc_all (days : Z) (cloud : Q) (concurrency : Z) : M json :=
  aois <- AoiRepo.load_aois ;;
  results <- gather (map (latest_fc_all_one days cloud) aois) ;;
  ret (batch_answer results).

End Main.

(* ===================================================================== *)
(** * Sample data for the worked examples *)
(* ===================================================================== *)

Module Sample.

Import Py Models.

Definition q (n : Z) (d : positive) : Q := Qmake n d.

(** A square around Prague, closed as GeoJSON asks. *)
Definition ring : list (list Q) :=
  [[q 14 1; q 50 1]; [q 29 2; q 50 1]; [q 29 2; q 101 2]; [q 14 1; q 101 2]; [q 14 1; q 50 1]].

Definition polygon : Geometry :=
  mkGeometry (Some (JStr "Polygon")) (Some (JArr [of_ring ring])) false.

(** The same coordinates under another GeoJSON type. *)
Definition multiline : Geometry :=
  mkGeometry (Some (JStr "MultiLineString")) (Some (JArr [of_ring ring])) false.

Definition vol1 : AOI :=
  mkAOI "vol1" "Volcano one" (Some (numbers [q 14 1; q 50 1; q 29 2; q 101 2])) None.

Definition vol2 : AOI := mkAOI "vol2" "Volcano two" None (Some polygon).

Definition vol2_built : AOI :=
  mkAOI "vol2" "Volcano two" (Some (numbers [q 14 1; q 50 1; q 29 2; q 101 2]))
        (Some polygon).

(** An explicit bbox next to a geometry that is not a polygon. *)
Definition boxed_multiline : AOI :=
  mkAOI "vol3" "Volcano three" (Some (numbers [q 0 1; q 0 1; q 1 1; q 1 1]))
        (Some multiline).

(** An explicit bbox whose corners are swapped. *)
Definition swapped : AOI :=
  mkAOI "vol4" "Volcano four" (Some (numbers [q 10 1; q 10 1; q 0 1; q 0 1])) None.

Definition unboxed_multiline : AOI :=
  mkAOI "vol5" "Volcano five" None (Some multiline).

Definition bare : AOI := mkAOI "vol6" "Volcano six" None None.

(** A world for the examples: two AOIs on file, a token endpoint that
    grants [t0] for half an hour, a catalog that knows two scenes of the
    same instant, a renderer that always answers. *)
Definition png : Runtime.bytes := "PNG".

Definition token_payload : json :=
  JObj [("access_token", JStr "t0"); ("expires_in", JNum (q 1800 1))].

Definition feature (sid dt : string) : json :=
  JObj [("id", JStr sid);
        ("properties", JObj [("datetime", JStr dt); ("eo:cloud_cover", JNum (q 42 1))])].

Definition scene_a : json := feature "S2A_T33UVR" "2026-01-20T10:15:00Z".
Definition scene_b : json := feature "S2A_T33UWR" "2026-01-20T10:15:00Z".

Definition ok (body : json) : Runtime.outcome :=
  Runtime.Answer (Runtime.mkResponse 200 "" (Some body) png).

Definition status (code : Z) (body : string) : Runtime.outcome :=
  Runtime.Answer (Runtime.mkResponse code body None "").

Definition found_two : json := JObj [("features", JArr [scene_a; scene_b])].

Definition settings : Runtime.Settings :=
  Runtime.mkSettings "id" "secret"
    "https://identity.dataspace.copernicus.eu/auth/realms/CDSE/protocol/openid-connect/token"
    "https://sh.dataspace.copernicus.eu" "output".

Definition world_with (aois : list AOI)
    (catalog : nat -> Runtime.CatalogRequest -> Runtime.outcome) : Runtime.World :=
  Runtime.mkWorld settings Datetime.fromisoformat_extended (fun _ => 0)
    (fun _ => None) (fun _ => "<object>") (fun _ => "<status error>")
    (Some aois) [1; 0]%nat
    (fun _ => ok token_payload) catalog (fun _ _ => ok JNull).

Definition world : Runtime.World :=
  world_with [vol1; vol2] (fun _ _ => ok found_two).

(** A feature without a [datetime], and one from before 1970. *)
Definition undated : json :=
  JObj [("id", JStr "S2A_undated"); ("properties", JObj [("eo:cloud_cover", JNum (q 7 1))])].

Definition apollo : json := feature "Apollo_11" "1969-07-20T20:17:00Z".

(** A catalog with nothing to offer, and one that is down. *)
Definition quiet : Runtime.World :=
  world_with [vol1; vol2] (fun _ _ => ok (JObj [("features", JArr [])])).

Definition down : Runtime.World :=
  world_with [vol1; vol2] (fun _ _ => status 500 "internal error").

(** A catalog whose only scene has no datetime, and one whose scene has
    [null] for its properties. *)
Definition timeless : Runtime.World :=
  world_with [vol1; vol2] (fun _ _ => ok (JObj [("features", JArr [undated])])).

Definition hollow : json := JObj [("id", JStr "S2A_hollow"); ("properties", JNull)].

Definition hollowed : Runtime.World :=
  world_with [vol1; vol2] (fun _ _ => ok (JObj [("features", JArr [hollow])])).

(** Five AOIs, and a catalog that fails for the third. *)
Definition site (n : Z) : AOI :=
  mkAOI ("site" ++ NilZero.string_of_int (Z.to_int n)) "Site"
        (Some (numbers [q n 1; q 50 1; q (n + 1) 1; q 51 1])) None.

Definition five : list AOI := [site 1; site 2; site 3; site 4; site 5].

Definition west_is (n : Z) (b : option (list json)) : bool :=
  match b with
  | Some (JNum x :: _) => Qeq_bool x (q n 1)
  | _ => false
  end.

Definition third_fails : Runtime.World :=
  world_with five
    (fun _ rq => if west_is 3 (Runtime.cr_bbox rq) then status 500 "internal error"
                 else ok found_two).

(** An AOI whose id contains a backslash. *)
Definition odd : AOI :=
  mkAOI "a\b" "Odd one" (Some (numbers [q 14 1; q 50 1; q 29 2; q 101 2])) None.

Definition odd_world : Runtime.World :=
  world_with [odd] (fun _ _ => ok found_two).

(** A catalog that is busy twice before it answers. *)

Definition flaky : Runtime.World :=
  world_with [vol1; vol2]
    (fun n _ => match n with
                | O => status 503 "busy"
                | S O => status 502 "bad gateway"
                | _ => ok found_two
                end).

Definition request : Runtime.CatalogRequest :=
  Runtime.mkCatalogRequest (JStr "t0") (bbox vol1)
    "2025-12-24T12:00:00Z/2026-01-23T12:00:00Z" 50 (q 80 1).

(** 2026-01-23T12:00:00Z on the clock. *)
Definition noon : Q := q 1769169600 1.

Definition start : Runtime.State := Runtime.initial noon.

(** The state a first call for a token leaves, and the same state one
    minute and one hour later. *)
Definition granted (now : Q) : Runtime.State :=
  Runtime.mkState now (JStr "t0") (Float.Finite (noon + q 1800 1)) ∅ 1 [Runtime.TokenPost].

End Sample.

(* ===================================================================== *)
(** * Notions used by the further properties *)
(* ===================================================================== *)

Module Notions.

Import Py Runtime.

(** The error of the last check of [ensure_bbox]. *)
Definition bbox_error : exn :=
  ValueError "AOI must have bbox (either directly or computed from geometry)".

(** The bboxes the catalog was asked about, in the order of the
    requests. *)
Definition searched (t : list event) : list (option (list json)) :=
  flat_map (fun ev => match ev with CatalogPost rq => [cr_bbox rq] | _ => [] end) t.

(** The state after one request to the token endpoint that left the
    cache alone. *)
Definition asked (s : State) : State :=
  mkState (clock s) (cache_access_token s) (cache_expires_at s) (files s)
          (S (requests s)) (trace s ++ [TokenPost]).

(** A JSON value [float] cannot take. *)
Definition not_a_number (v : json) : Prop :=
  match v with
  | JNull | JArr _ | JObj _ => True
  | _ => False
  end.

(** Two states with the same token cache and the same files. *)
Definition same_store (s s' : State) : Prop :=
  cache_access_token s' = cache_access_token s /\
  cache_expires_at s' = cache_expires_at s /\
  files s' = files s.

(** The sum of a list of pauses. *)
Definition total (l : list Q) : Q := fold_right Qplus 0%Q l.

(** The process requests and the files written in a trace, in order. *)
Definition process_posts (t : list event) : list ProcessRequest :=
  flat_map (fun ev => match ev with ProcessPost rq => [rq] | _ => [] end) t.

Definition writes (t : list event) : list string :=
  flat_map (fun ev => match ev with WriteFile p => [p] | _ => [] end) t.

(** The AOI file of [w] can be read and has no record with the id: it is
    missing, or all its records are valid and none bears the id. *)
Definition unlisted (w : World) (aoi_id : string) : Prop :=
  match aoi_file w with
  | None => True
  | Some raw =>
      Forall (fun x => exists a, Models.ensure_bbox x = inr a) raw /\
      Forall (fun x => Models.id x <> aoi_id) raw
  end.

(** What the single-AOI handlers that guard the render make of its
    error. *)
Definition guarded (where_ : string) (e : exn) : exn :=
  match e with
  | HTTPStatusError st tx => HTTPException st (Main.upstream_detail where_ st tx)
  | _ => e
  end.

(** What [raise_for_status] and [r.content] make of one answer. *)
Definition content_of (o : outcome) : result bytes :=
  match o with
  | Answer r =>
      if Lib.is_success r then inr (content r)
      else inl (HTTPStatusError (status_code r) (text r))
  | Failure cls msg => inl (PyError cls msg)
  end.

End Notions.

(* ===================================================================== *)
(** * More sample data *)
(* ===================================================================== *)

Module Fixtures.

Import Py Models.

(** A bbox of three numbers beside a sound polygon. *)
Definition short_bbox : AOI :=
  mkAOI "vol7" "Volcano seven"
        (Some (numbers [Sample.q 14 1; Sample.q 50 1; Sample.q 29 2]))
        (Some Sample.polygon).

(** Polygons that cannot give an envelope: no [coordinates], no ring, an
    empty ring, a position of one number. *)
Definition no_coordinates : AOI :=
  mkAOI "vol8" "Volcano eight" None (Some (mkGeometry (Some (JStr "Polygon")) None false)).

Definition no_ring : AOI :=
  mkAOI "vol9" "Volcano nine" None
        (Some (mkGeometry (Some (JStr "Polygon")) (Some (JArr [])) false)).

Definition empty_ring : AOI :=
  mkAOI "vol10" "Volcano ten" None
        (Some (mkGeometry (Some (JStr "Polygon")) (Some (JArr [of_ring []])) false)).

Definition flat_position : AOI :=
  mkAOI "vol11" "Volcano eleven" None
        (Some (mkGeometry (Some (JStr "Polygon"))
                          (Some (JArr [of_ring [[Sample.q 14 1; Sample.q 50 1];
                                                [Sample.q 15 1]]])) false)).

(** Polygons whose coordinates are not numbers: a ring of two strings,
    and a ring whose first longitude is [NaN]. *)
Definition lettered : AOI :=
  mkAOI "vol12" "Volcano twelve" None
        (Some (mkGeometry (Some (JStr "Polygon")) (Some (JArr [JArr [JStr "ab"; JStr "cd"]]))
                          false)).

Definition undefined_corner : AOI :=
  mkAOI "vol13" "Volcano thirteen" None
        (Some (mkGeometry (Some (JStr "Polygon"))
                          (Some (JArr [JArr [JArr [JNaN; JNum 0]; JArr [JNum 1; JNum 1]]]))
                          false)).

(** Token endpoints that refuse, that answer without a token, that give
    no lifetime to read, and that grant a token for half a minute. *)
Definition with_token (token : nat -> Runtime.outcome) : Runtime.World :=
  Runtime.mkWorld Sample.settings Datetime.fromisoformat_extended (fun _ => 0)
    (fun _ => None) (fun _ => "<object>") (fun _ => "<status error>")
    (Some [Sample.vol1; Sample.vol2]) [1; 0]%nat
    token (fun _ _ => Sample.ok Sample.found_two) (fun _ _ => Sample.ok JNull).

Definition refused : Runtime.World :=
  with_token (fun _ => Sample.status 401 "invalid_client").

Definition unreachable : Runtime.World :=
  with_token (fun _ => Runtime.Failure "ConnectTimeout" "timed out").

Definition tokenless : Runtime.World :=
  with_token (fun _ => Sample.ok (JObj [("error", JStr "none")])).

Definition ageless : Runtime.World :=
  with_token (fun _ => Sample.ok (JObj [("access_token", JStr "t1"); ("expires_in", JNull)])).

Definition brief : Runtime.World :=
  with_token (fun _ => Sample.ok (JObj [("access_token", JStr "t2");
                                        ("expires_in", JNum (Sample.q 30 1))])).

(** A token endpoint that grants a token for a hair more than a minute,
    and one that grants it for longer than a float can say. *)
Definition hair : Runtime.World :=
  with_token (fun _ => Sample.ok (JObj [("access_token", JStr "t3");
                                        ("expires_in", JNum (6000000001 # 100000000))])).

Definition endless : Runtime.World :=
  with_token (fun _ => Sample.ok (JObj [("access_token", JStr "t4");
                                        ("expires_in", JNum (inject_Z (10 ^ 400)))])).

(** A quarter of a second past noon. *)
Definition quarter_past : Runtime.State :=
  Runtime.initial (Sample.noon + Sample.q 1 4)%Q.

(** Five sites and a catalog that fails the request sent right after
    the token was fetched, whoever sends it. *)
Definition early_failure : Runtime.World :=
  Sample.world_with Sample.five
    (fun n _ => if (n =? 1)%nat then Sample.status 500 "internal error"
                else Sample.ok Sample.found_two).

(** A token endpoint that grants a token for one minute, and a clock a
    hair past four seconds. *)
Definition minute : Runtime.World :=
  with_token (fun _ => Sample.ok (JObj [("access_token", JStr "t5");
                                        ("expires_in", JNum 60)])).

Definition past_four : Runtime.State :=
  Runtime.initial (400000000000001 # 100000000000000).

(** A cache holding an old token that has run out. *)
Definition stale : Runtime.State :=
  Runtime.mkState Sample.noon (JStr "t0") (Float.Finite (Sample.noon - Sample.q 10 1)) ∅ 0 [].

(** A catalog that cannot be reached at the second try, and one that
    lists a scene whose datetime cannot be read after a sound one. *)
Definition dropped : Runtime.World :=
  Sample.world_with [Sample.vol1; Sample.vol2]
    (fun n _ => match n with
                | O => Sample.status 503 "busy"
                | _ => Runtime.Failure "ReadTimeout" "timed out"
                end).

Definition garbled : json := Sample.feature "S2A_garbled" "yesterday".

Definition poisoned : Runtime.World :=
  Sample.world_with [Sample.vol1; Sample.vol2]
    (fun _ _ => Sample.ok (JObj [("features", JArr [Sample.scene_a; garbled])])).

(** An AOI file with an invalid record after a sound one, a file that is
    not there, and a renderer that is overloaded. *)
Definition broken_file : Runtime.World :=
  Sample.world_with [Sample.vol1; short_bbox] (fun _ _ => Sample.ok Sample.found_two).

Definition with_render (aoi_file : option (list AOI))
    (catalog : nat -> Runtime.CatalogRequest -> Runtime.outcome)
    (process : nat -> Runtime.ProcessRequest -> Runtime.outcome) : Runtime.World :=
  Runtime.mkWorld Sample.settings Datetime.fromisoformat_extended (fun _ => 0)
    (fun _ => None) (fun _ => "<object>") (fun _ => "<status error>")
    aoi_file [1; 0]%nat
    (fun _ => Sample.ok Sample.token_payload) catalog process.

Definition no_file : Runtime.World :=
  with_render None (fun _ _ => Sample.ok Sample.found_two) (fun _ _ => Sample.ok JNull).

(** A server one hour east of Greenwich. *)
Definition east : Runtime.World :=
  Runtime.mkWorld Sample.settings Datetime.fromisoformat_extended (fun _ => 3600000000)
    (fun _ => None) (fun _ => "<object>") (fun _ => "<status error>")
    (Some [Sample.vol1; Sample.vol2]) [1; 0]%nat
    (fun _ => Sample.ok Sample.token_payload) (fun _ _ => Sample.ok Sample.found_two)
    (fun _ _ => Sample.ok JNull).

Definition render_down : Runtime.World :=
  with_render (Some [Sample.vol1; Sample.vol2])
    (fun _ _ => Sample.ok Sample.found_two) (fun _ _ => Sample.status 503 "overloaded").

End Fixtures.

(* ===================================================================== *)
(** * scripts/run_job.py *)
(* ===================================================================== *)

Declare Scope job_scope.
Delimit Scope job_scope with job.

Module Job.

Import Py Runtime.

(** What a run of the job depends on: [BASE_URL], the answer of the
    backend to the [n]-th [requests.get] of the run, sent to [url], and
    the library functions left open ([str] on values that are not
    strings, [str] on exceptions other than [PyError], [urljoin]). *)
Record Env : Type := mkEnv {
  BASE_URL : string;
  http_get : nat -> string -> outcome;
  str_of : json -> string;
  exc_str : exn -> string;
  urljoin : string -> string -> string
}.

(** What a run leaves behind: the urls requested and the pauses, in order. *)
Record Log : Type := mkLog { sent : list string; naps : list Q }.

Definition J (A : Type) : Type := Env -> Log -> result A * Log.

Definition ret {A : Type} (x : A) : J A := fun _ l => (inr x, l).

Definition raise {A : Type} (e : exn) : J A := fun _ l => (inl e, l).

Definition bind {A B : Type} (c : J A) (k : A -> J B) : J B :=
  fun env l =>
    match c env l with
    | (inr x, l') => k x env l'
    | (inl e, l') => (inl e, l')
    end.

Definition lift {A : Type} (r : result A) : J A := fun _ l => (r, l).

Definition ask : J Env := fun env l => (inr env, l).

(** [try: c  except Exception as e: ...], with the outcome as a value. *)
Definition attempt {A : Type} (c : J A) : J (result A) :=
  fun env l => (inr (fst (c env l)), snd (c env l)).

Notation "x <- c ;; k" := (bind c (fun x => k))
  (at level 100, c at next level, right associativity) : job_scope.
Notation "c ;; k" := (bind c (fun _ => k))
  (at level 100, right associativity) : job_scope.

Local Open Scope job_scope.

(** [requests.get(url, params=params, timeout=timeout)], with what it
    raises as a value. *)
Definition requests_get (url : string) : J outcome :=
  fun env l => (inr (http_get env (List.length (sent l)) url),
                mkLog (sent l ++ [url]) (naps l)).

(** [time.sleep(d)]. *)
Definition time_sleep (d : Q) : J unit :=
  fun _ l => (inr tt, mkLog (sent l) (naps l ++ [d])).

(** The [for i in range(tries)] loop of [get_with_retry] over the
    indices still to come, and the two statements after it. *)
Fixpoint get_loop (url : string) (tries : Z) (range : list nat)
    (last_exc : option exn) (last_resp : option Response) : J (option Response) :=
  match range with
  | [] =>
      match last_exc with
      | Some e => raise e
      | None => ret last_resp
      end
  | i :: rest =>
      o <- requests_get url ;;
      match o with
      | Answer r =>
          if Catalog.transient r && (Z.of_nat i <? tries - 1)
          then time_sleep ((3 # 2) * inject_Z (Z.of_nat i + 1))%Q ;;
               get_loop url tries rest last_exc (Some r)
          else ret (Some r)
      | Failure cls msg =>
          if Z.of_nat i <? tries - 1
          then time_sleep ((3 # 2) * inject_Z (Z.of_nat i + 1))%Q ;;
               get_loop url tries rest (Some (PyError cls msg)) last_resp
          else raise (PyError cls msg)
      end
  end.

Definition get_with_retry (url : string) (tries : nat) : J (option Response) :=
  get_loop url (Z.of_nat tries) (seq 0 tries) None None.

(** The rows of [errs] and [hits]. The fourth member of a row of [errs]
    is a status code or the string [EXC]. *)
Inductive code : Type :=
| Status (st : Z)
| EXC.

Record Err : Type := mkErr {
  e_name : json; e_id : json; e_step : string; e_code : code; e_msg : string
}.

Record Hit : Type := mkHit {
  h_name : json; h_id : json; h_dt : json; h_cloud : json; h_scene_id : json;
  h_img : option string
}.

(** [f"{v}"]. *)
Definition fmt (env : Env) (v : json) : string :=
  match v with
  | JStr s => s
  | _ => str_of env v
  end.

(** [str(e)]. *)
Definition str_exn (env : Env) (e : exn) : string :=
  match e with
  | PyError _ msg => msg
  | _ => exc_str env e
  end.

(** [r.status_code] and [r.text] on what [get_with_retry] returned. *)
Definition response_of (r : option Response) : J Response :=
  match r with
  | Some r => ret r
  | None => raise (AttributeError "'NoneType' object has no attribute 'status_code'")
  end.

(** [r.json()]. *)
Definition json_of (r : Response) : J json :=
  match json_body r with
  | Some j => ret j
  | None => raise (PyError "JSONDecodeError" "Expecting value")
  end.

(** [s.lstrip("/")]. *)
Fixpoint lstrip_slash (s : string) : string :=
  match s with
  | String c rest => if Ascii.eqb c "/" then lstrip_slash rest else s
  | EmptyString => EmptyString
  end.

Definition lstrip (v : json) : result string :=
  match v with
  | JStr s => inr (lstrip_slash s)
  | _ => inl (AttributeError "object has no attribute 'lstrip'")
  end.

Definition scene_url (env : Env) (aoi_id : json) : string :=
  BASE_URL env ++ "/aois/" ++ fmt env aoi_id ++ "/latest-scene".

Definition fc_url (env : Env) (aoi_id : json) : string :=
  BASE_URL env ++ "/aois/" ++ fmt env aoi_id ++ "/latest-fc".

(** Step (B) of the loop of [main], inside its [try]: the url of the
    image when there is one, and the row added to [errs] when the
    backend answers another status than 200. *)
Definition image (name aoi_id : json) : J (option string * list Err) :=
  env <- ask ;;
  r2 <- get_with_retry (fc_url env aoi_id) 4 ;;
  r2 <- response_of r2 ;;
  if status_code r2 =? 200 then
    d2 <- json_of r2 ;;
    u <- lift (get d2 "url") ;;
    if truthy u then
      u <- lift (getitem d2 "url") ;;
      path <- lift (lstrip u) ;;
      ret (Some (urljoin env (BASE_URL env ++ "/") path), [])
    else ret (None, [])
  else
    ret (None, [mkErr name aoi_id "latest-fc" (Status (status_code r2)) (take 300 (text r2))]).

(** One round of the loop of [main] over the AOIs: [hits] and [errs]
    before the round and after it. *)
Definition visit (a : json) (hits : list Hit) (errs : list Err) : J (list Hit * list Err) :=
  env <- ask ;;
  aoi_id <- lift (getitem a "id") ;;
  name <- lift (get_default a "name" aoi_id) ;;
  r <- attempt (get_with_retry (scene_url env aoi_id) 4) ;;
  match r with
  | inl e =>
      ret (hits, (errs ++ [mkErr name aoi_id "latest-scene" EXC (str_exn env e)])%list)
  | inr r =>
      r <- response_of r ;;
      if negb (status_code r =? 200) then
        ret (hits, (errs ++ [mkErr name aoi_id "latest-scene" (Status (status_code r))
                                   (take 300 (text r))])%list)
      else
        data <- json_of r ;;
        dt <- lift (get data "datetime") ;;
        if negb (truthy dt) then ret (hits, errs)
        else
          cloud <- lift (get data "cloud_cover") ;;
          scene_id <- lift (get data "scene_id") ;;
          b <- attempt (image name aoi_id) ;;
          match b with
          | inr (img, es) =>
              ret ((hits ++ [mkHit name aoi_id dt cloud scene_id img])%list,
                   (errs ++ es)%list)
          | inl e =>
              ret ((hits ++ [mkHit name aoi_id dt cloud scene_id None])%list,
                   (errs ++ [mkErr name aoi_id "latest-fc" EXC (str_exn env e)])%list)
          end
  end.

Fixpoint survey (aois : list json) (hits : list Hit) (errs : list Err)
    : J (list Hit * list Err) :=
  match aois with
  | [] => ret (hits, errs)
  | a :: rest =>
      acc <- visit a hits errs ;;
      survey rest (fst acc) (snd acc)
  end.

(** What the properties of the job speak of: an outcome after which
    [get_with_retry] tries again when tries are left, and what it makes
    of the outcome it stops at. *)
Definition again (o : outcome) : bool :=
  match o with
  | Answer r => Catalog.transient r
  | Failure _ _ => true
  end.

Definition final (o : outcome) : result (option Response) :=
  match o with
  | Answer r => inr (Some r)
  | Failure cls msg => inl (PyError cls msg)
  end.

(** The log [l'] is the log [l] after at most [n] calls of
    [get_with_retry] with four tries: at most four requests, three
    pauses and nine seconds of pause for each. *)
Definition within (n : nat) (l l' : Log) : Prop :=
  (List.length (sent l') <= List.length (sent l) + 4 * n)%nat /\
  (List.length (naps l') <= List.length (naps l) + 3 * n)%nat /\
  (fold_right Qplus 0 (naps l') <= fold_right Qplus 0 (naps l) + 9 * inject_Z (Z.of_nat n))%Q.

(** The rows of [hits] and [errs] for an AOI whose scene was found. *)
Definition member (m : list (string * json)) (k : string) : json :=
  match assoc k m with
  | Some x => x
  | None => JNull
  end.

Definition name_of (m : list (string * json)) (aoi_id : json) : json :=
  match assoc "name" m with
  | Some x => x
  | None => aoi_id
  end.

End Job.

(* ===================================================================== *)
(** * Sample data for the job *)
(* ===================================================================== *)

Module JobFixtures.

Import Py Runtime Job.

Definition answer (code : Z) (body : json) : outcome :=
  Answer (mkResponse code "" (Some body) "").

Definition scene_answer : json :=
  JObj [("aoi_id", JStr "vol1"); ("datetime", JStr "2026-01-20T10:15:00Z");
        ("cloud_cover", JNum (Sample.q 42 1)); ("scene_id", JStr "S2A_T33UVR")].

Definition ends_with (suffix s : string) : bool :=
  String.eqb (String.substring (String.length s - String.length suffix)
                               (String.length suffix) s) suffix.

(** A backend that cannot be reached at first and is busy next, then
    answers; whose search finds a scene and whose render fails. *)
Definition shaky : Env :=
  mkEnv "http://127.0.0.1:8000"
    (fun n url =>
       match n with
       | O => Failure "ConnectionError" "connection refused"
       | S O => Sample.status 503 "busy"
       | _ =>
           if ends_with "/latest-scene" url then answer 200 scene_answer
           else Sample.status 500 "render failed"
       end)
    (fun _ => "<object>") (fun _ => "<error>")
    (fun base path => base ++ path).

(** A backend that answers every request with an error status. *)
Definition failing : Env :=
  mkEnv "http://127.0.0.1:8000" (fun _ _ => Sample.status 500 "internal error")
    (fun _ => "<object>") (fun _ => "<error>") (fun base path => base ++ path).

Definition vol1_row : json := JObj [("id", JStr "vol1"); ("name", JStr "Volcano one")].

Definition fresh : Log := mkLog [] [].

End JobFixtures.

(* ===================================================================== *)
(** * Worked examples *)
(* ===================================================================== *)

Example replace_z : Py.replace "Z" "+00:00" "2026-01-20T10:15:00Z" = "2026-01-20T10:15:00+00:00".
Proof. reflexivity. Qed.

Example replace_back : Py.replace "+00:00" "Z" "2026-01-20T10:15:00+00:00" = "2026-01-20T10:15:00Z".
Proof. reflexivity. Qed.

Example civil_2026_01_23 : Datetime.civil_from_days (Datetime.days_from_civil 2026 1 23) = (2026, 1, 23).
Proof. reflexivity. Qed.

Example epoch_day : Datetime.days_from_civil 1970 1 1 = 0.
Proof. reflexivity. Qed.

Example read_then_print :
  option_map Datetime.isoformat (Datetime.fromisoformat_extended "2026-01-23T10:15:00+00:00")
  = Some "2026-01-23T10:15:00+00:00".
Proof. vm_compute. reflexivity. Qed.

Example read_offset_time :
  option_map Datetime.isoformat (Datetime.fromisoformat_extended "2024-02-29T23:30:00-05:00")
  = Some "2024-02-29T23:30:00-05:00".
Proof. vm_compute. reflexivity. Qed.

Example reject_bad_day : Datetime.fromisoformat_extended "2025-02-29T00:00:00" = None.
Proof. vm_compute. reflexivity. Qed.

Example day_of_2026_01_23 : Datetime.days_from_civil 2026 1 23 = 20476.
Proof. reflexivity. Qed.

Example replace_does_not_overlap : Py.replace "aa" "b" "aaa" = "ba".
Proof. reflexivity. Qed.

Example fraction_and_offset :
  Datetime.isoformat (Datetime.mkdt (20476 * Datetime.us_per_day + 36900500000) (Some 0))
    = "2026-01-23T10:15:00.500000+00:00" /\
  Datetime.isoformat (Datetime.mkdt (20476 * Datetime.us_per_day) (Some 19815000000))
    = "2026-01-23T00:00:00+05:30:15".
Proof. vm_compute. split; reflexivity. Qed.

Example last_hour_overflows :
  Datetime.add_delta (Datetime.mkdt (Datetime.max_wall - 1800000000) (Some 0))
                     Datetime.us_per_hour
  = inl (Py.OverflowError "date value out of range").
Proof. vm_compute. reflexivity. Qed.

(** Joining as [pathlib] does on a POSIX system. *)
Example joined_paths :
  map (fun p => Storage.str (Storage.joinpath (Storage.joinpath (Storage.Path (fst p)) (snd p))
                                              "f.png"))
      [("output", "vol1"); ("output/", "vol1"); ("./output", "vol1"); ("output", ".");
       ("output", "a\b"); ("//x", "y"); ("///x", "y"); ("/", "y"); ("", "y");
       ("output", "/abs"); ("out//put", "v")]
  = ["output/vol1/f.png"; "output/vol1/f.png"; "output/vol1/f.png"; "output/f.png";
     "output/a\b/f.png"; "//x/y/f.png"; "/x/y/f.png"; "/y/f.png"; "y/f.png";
     "/abs/f.png"; "out/put/v/f.png"].
Proof. vm_compute. reflexivity. Qed.

Lemma calendar_days_checked : Datetime.calendar_days (Z.to_nat 47847) 0 = true.
Proof. vm_compute. reflexivity. Qed.

Lemma calendar_days_all (n : nat) :
  forall z, Datetime.calendar_days n z = true ->
  forall i, z <= i < z + Z.of_nat n -> Datetime.is_calendar_day i = true.
Proof.
  induction n as [|n IH]; intros z H i Hi; [lia|].
  cbn [Datetime.calendar_days] in H. apply andb_true_iff in H. destruct H as [H0 H1].
  destruct (Z.eq_dec i z) as [->|Hne]; [exact H0|].
  apply (IH (z + 1) H1). lia.
Qed.

(** From 1970 to 2100 every day number is the number of a date of the
    calendar, and of that date only. *)
Lemma civil_from_days_calendar (z : Z) :
  0 <= z < 47847 ->
  exists y m d,
    Datetime.civil_from_days z = (y, m, d) /\ Datetime.days_from_civil y m d = z /\
    1 <= m <= 12 /\ 1 <= d <= Datetime.days_in_month y m.
Proof.
  intros Hz.
  pose proof (calendar_days_all _ 0 calendar_days_checked z) as H.
  rewrite Z2Nat.id in H by lia. specialize (H ltac:(lia)).
  unfold Datetime.is_calendar_day in H.
  destruct (Datetime.civil_from_days z) as [[y m] d].
  exists y, m, d. rewrite !andb_true_iff in H.
  destruct H as [[[[H1 H2] H3] H4] H5].
  apply Z.eqb_eq in H1. apply Z.leb_le in H2, H3, H4, H5. repeat split; assumption.
Qed.

(* ===================================================================== *)
(** * The AOI validator *)
(* ===================================================================== *)

Section ModelsFacts.

Import Py Models.

Lemma Qltb_true (x y : Q) : Float.Qltb x y = true <-> (x < y)%Q.
Proof.
  unfold Float.Qltb. rewrite negb_true_iff, <- not_true_iff_false, Qle_bool_iff.
  split; [apply Qnot_le_lt | apply Qlt_not_le].
Qed.

Lemma Qltb_false (x y : Q) : Float.Qltb x y = false <-> (y <= x)%Q.
Proof.
  unfold Float.Qltb. rewrite negb_false_iff. apply Qle_bool_iff.
Qed.

(** On numbers, [<] is the order of their values. *)
Lemma lt_numbers (x y : Q) : lt (JNum x) (JNum y) = inr (Float.Qltb x y).
Proof. reflexivity. Qed.

Lemma min_from_least (l : list Q) :
  forall cur, exists x, min_from (JNum cur) (numbers l) = inr (JNum x) /\ least x (cur :: l).
Proof.
  induction l as [|x l IH]; intros cur; cbn [numbers map min_from].
  - exists cur. split; [reflexivity|].
    split; [now left | intros y [<-|[]]; apply Qle_refl].
  - rewrite lt_numbers. destruct (Float.Qltb x cur) eqn:E.
    + apply Qltb_true in E. destruct (IH x) as (m & Hm & Hin & Hle).
      exists m. split; [exact Hm|]. split.
      * right. exact Hin.
      * intros y [<-|Hy]; [|now apply Hle].
        apply Qle_trans with x; [apply Hle; now left | now apply Qlt_le_weak].
    + apply Qltb_false in E. destruct (IH cur) as (m & Hm & Hin & Hle).
      exists m. split; [exact Hm|]. split.
      * destruct Hin as [<-|Hin]; [now left | right; now right].
      * intros y [<-|[<-|Hy]].
        -- apply Hle; now left.
        -- apply Qle_trans with cur; [apply Hle; now left | exact E].
        -- apply Hle; now right.
Qed.

Lemma max_from_greatest (l : list Q) :
  forall cur, exists x, max_from (JNum cur) (numbers l) = inr (JNum x) /\ greatest x (cur :: l).
Proof.
  induction l as [|x l IH]; intros cur; cbn [numbers map max_from].
  - exists cur. split; [reflexivity|].
    split; [now left | intros y [<-|[]]; apply Qle_refl].
  - rewrite lt_numbers. destruct (Float.Qltb cur x) eqn:E.
    + apply Qltb_true in E. destruct (IH x) as (m & Hm & Hin & Hle).
      exists m. split; [exact Hm|]. split.
      * right. exact Hin.
      * intros y [<-|Hy]; [|now apply Hle].
        apply Qle_trans with x; [now apply Qlt_le_weak | apply Hle; now left].
    + apply Qltb_false in E. destruct (IH cur) as (m & Hm & Hin & Hle).
      exists m. split; [exact Hm|]. split.
      * destruct Hin as [<-|Hin]; [now left | right; now right].
      * intros y [<-|[<-|Hy]].
        -- apply Hle; now left.
        -- apply Qle_trans with cur; [exact E | apply Hle; now left].
        -- apply Hle; now right.
Qed.

Lemma py_min_least (l : list Q) :
  l <> [] -> exists x, py_min (numbers l) = inr (JNum x) /\ least x l.
Proof.
  destruct l as [|c l]; [congruence | intros _]. apply min_from_least.
Qed.

Lemma py_max_greatest (l : list Q) :
  l <> [] -> exists x, py_max (numbers l) = inr (JNum x) /\ greatest x l.
Proof.
  destruct l as [|c l]; [congruence | intros _]. apply max_from_greatest.
Qed.

Lemma subscript_numbers (c : list Q) (i : nat) :
  subscript (JArr (numbers c)) i
  = match nth_error c i with
    | Some x => inr (JNum x)
    | None => inl (IndexError "list index out of range")
    end.
Proof.
  unfold numbers. cbn [subscript]. rewrite nth_error_map.
  now destruct (nth_error c i).
Qed.

Lemma column_coordinate (i : nat) (ring : list (list Q)) (xs : list Q) :
  coordinate i ring xs -> column i (of_ring ring) = inr (numbers xs).
Proof.
  unfold column, of_ring. cbn [items].
  induction 1 as [|c x ring xs Hc _ IH]; cbn [map column_of]; [reflexivity|].
  now rewrite subscript_numbers, Hc, IH.
Qed.

Lemma column_inr (i : nat) (ring : list (list Q)) (ys : list json) :
  column i (of_ring ring) = inr ys -> exists xs, ys = numbers xs /\ coordinate i ring xs.
Proof.
  unfold column, of_ring. cbn [items].
  revert ys. induction ring as [|c ring IH]; cbn [map column_of]; intros ys H.
  - injection H as <-. exists []. split; [reflexivity | constructor].
  - rewrite subscript_numbers in H. destruct (nth_error c i) as [x|] eqn:Hc; [|discriminate].
    destruct (column_of i (map (fun c => JArr (numbers c)) ring)) as [e|zs]; [discriminate|].
    injection H as <-. destruct (IH zs eq_refl) as (xs & -> & Hxs).
    exists (x :: xs). split; [reflexivity | now constructor].
Qed.

Lemma coordinate_nonempty (i : nat) (ring : list (list Q)) (xs : list Q) :
  coordinate i ring xs -> ring <> [] -> xs <> [].
Proof. destruct 1; congruence. Qed.

Lemma least_greatest_le (l : list Q) (lo hi : Q) :
  least lo l -> greatest hi l -> (lo <= hi)%Q.
Proof. intros [Hin _] [_ Hle]. now apply Hle. Qed.

(** What [envelope] returns for a first ring of numbers, whenever it
    returns. *)
Lemma envelope_inr (g : Geometry) (ring : list (list Q)) (others b : list json) :
  g_coordinates g = Some (JArr (of_ring ring :: others)) ->
  envelope g = inr b ->
  exists lons lats w s e n,
    coordinate 0 ring lons /\ coordinate 1 ring lats /\
    b = numbers [w; s; e; n] /\
    least w lons /\ least s lats /\ greatest e lons /\ greatest n lats.
Proof.
  intros Hc. unfold envelope. rewrite Hc. cbn [subscript nth_error].
  destruct (column 0 (of_ring ring)) as [?|lons] eqn:E0; [discriminate|].
  destruct (column 1 (of_ring ring)) as [?|lats] eqn:E1; [discriminate|].
  destruct (column_inr _ _ _ E0) as (xs & -> & H0).
  destruct (column_inr _ _ _ E1) as (ys & -> & H1).
  destruct xs as [|x xs]; [cbn; discriminate|].
  destruct (py_min_least (x :: xs)) as (w & -> & Hw); [discriminate|].
  destruct ys as [|y ys]; [cbn; discriminate|].
  destruct (py_min_least (y :: ys)) as (s & -> & Hs); [discriminate|].
  destruct (py_max_greatest (x :: xs)) as (e & -> & He); [discriminate|].
  destruct (py_max_greatest (y :: ys)) as (n & -> & Hn); [discriminate|].
  intros [= <-]. exists (x :: xs), (y :: ys), w, s, e, n.
  split; [exact H0|]. split; [exact H1|]. split; [reflexivity|].
  split; [exact Hw|]. split; [exact Hs|]. split; [exact He | exact Hn].
Qed.

End ModelsFacts.

Section ModelsClaims.

Import Py Models.

Example build_vol2 : ensure_bbox Sample.vol2 = inr Sample.vol2_built.
Proof. reflexivity. Qed.

Example build_vol1 : ensure_bbox Sample.vol1 = inr Sample.vol1.
Proof. reflexivity. Qed.

(** Coordinates that are no numbers give a bbox that holds none: the
    derived bbox is assigned as [min] and [max] return it. *)
Example lettered_ring_accepted :
  ensure_bbox Fixtures.lettered
  = inr (set_bbox Fixtures.lettered [JStr "a"; JStr "b"; JStr "c"; JStr "d"]).
Proof. reflexivity. Qed.

Example undefined_corner_accepted :
  ensure_bbox Fixtures.undefined_corner
  = inr (set_bbox Fixtures.undefined_corner [JNaN; JNum 0; JNaN; JNum 1]).
Proof. reflexivity. Qed.

(** C5, as stated, fails: an AOI that brings its own bbox is accepted
    whatever the type of its geometry, here a [MultiLineString]. *)
Lemma non_polygon_with_bbox_accepted :
  type_is_polygon Sample.multiline = false /\
  geometry Sample.boxed_multiline = Some Sample.multiline /\
  ensure_bbox Sample.boxed_multiline = inr Sample.boxed_multiline.
Proof. repeat split. Qed.

(** C5, amended: construction fails when no bbox is supplied and the
    geometry (a non-empty dict) has a type other than 'Polygon', and it
    fails when neither a bbox nor a geometry is supplied (a missing or
    empty geometry); when a bbox of four numbers is supplied the geometry
    is not inspected and construction succeeds. *)
Theorem geometry_type_checked_only_without_bbox :
  (forall a g, bbox a = None -> geometry a = Some g ->
     geometry_truthy (Some g) = true -> type_is_polygon g = false ->
     ensure_bbox a = inl (ValueError "geometry.type must be 'Polygon'")) /\
  (forall a, bbox a = None -> geometry_truthy (geometry a) = false ->
     ensure_bbox a =
     inl (ValueError "AOI must have bbox (either directly or computed from geometry)")) /\
  (forall a b, bbox a = Some b -> List.length b = 4%nat -> ensure_bbox a = inr a).
Proof.
  split; [|split].
  - intros a g Hb Hg Ht Hp. unfold ensure_bbox. now rewrite Hb, Hg, Ht, Hp.
  - intros a Hb Hg. unfold ensure_bbox. rewrite Hb.
    destruct (geometry a) as [g|]; [rewrite Hg|]; unfold check_bbox; now rewrite Hb.
  - intros a b Hb Hl. unfold ensure_bbox, check_bbox. rewrite Hb.
    destruct b as [|x b]; [discriminate|]. now rewrite Hl.
Qed.

Lemma geometry_type_checked_only_without_bbox_witness :
  ensure_bbox Sample.unboxed_multiline = inl (ValueError "geometry.type must be 'Polygon'") /\
  ensure_bbox Sample.bare =
    inl (ValueError "AOI must have bbox (either directly or computed from geometry)") /\
  ensure_bbox Sample.boxed_multiline = inr Sample.boxed_multiline.
Proof.
  destruct geometry_type_checked_only_without_bbox as [H1 [H2 H3]].
  split; [|split].
  - apply (H1 Sample.unboxed_multiline Sample.multiline); reflexivity.
  - apply (H2 Sample.bare); reflexivity.
  - apply (H3 Sample.boxed_multiline
             (numbers [Sample.q 0 1; Sample.q 0 1; Sample.q 1 1; Sample.q 1 1]));
      reflexivity.
Defined.

(** C6, as stated, fails: a bbox supplied directly is kept as it is, also
    when its corners are out of order. *)
Lemma swapped_bbox_accepted :
  ensure_bbox Sample.swapped = inr Sample.swapped /\
  bbox Sample.swapped = Some (numbers [10 # 1; 10 # 1; 0 # 1; 0 # 1]%Q) /\
  ~ (10 # 1 <= 0 # 1)%Q.
Proof. repeat split. intros H. unfold Qle in H. simpl in H. lia. Qed.

(** C6, amended: every AOI that is constructed has a bbox of exactly four
    items. A bbox supplied directly is kept as it is: the order of its
    corners is not checked. A derived bbox is the envelope of a Polygon
    geometry as [min] and [max] computed it, assigned without a check of
    its items; when the first ring is made of positions of numbers it
    holds four numbers with min <= max on both axes, and with other
    coordinates it need not (see [lettered_ring_accepted] and
    [undefined_corner_accepted]). *)
Theorem constructed_bbox_has_four_items (a a' : AOI) :
  ensure_bbox a = inr a' ->
  exists v0 v1 v2 v3,
    bbox a' = Some [v0; v1; v2; v3] /\
    (forall b, bbox a = Some b -> a' = a /\ b = [v0; v1; v2; v3]) /\
    (bbox a = None ->
     exists g,
       geometry a = Some g /\ type_is_polygon g = true /\
       envelope g = inr [v0; v1; v2; v3] /\
       forall ring others,
         g_coordinates g = Some (JArr (of_ring ring :: others)) ->
         exists x0 y0 x1 y1,
           [v0; v1; v2; v3] = numbers [x0; y0; x1; y1] /\
           (x0 <= x1)%Q /\ (y0 <= y1)%Q).
Proof.
  assert (Hcheck : forall c c', check_bbox c = inr c' ->
            c' = c /\ exists v0 v1 v2 v3, bbox c = Some [v0; v1; v2; v3]).
  { intros c c'. unfold check_bbox.
    destruct (bbox c) as [[|v0 [|v1 [|v2 [|v3 [|z r]]]]]|] eqn:E; simpl; try discriminate.
    intros H. injection H as <-. split; [reflexivity | now exists v0, v1, v2, v3]. }
  unfold ensure_bbox. destruct (bbox a) as [b|] eqn:Hb.
  - intros H. destruct (Hcheck _ _ H) as [-> (v0 & v1 & v2 & v3 & E)].
    exists v0, v1, v2, v3. rewrite Hb in E. injection E as ->.
    split; [exact Hb | split; [|discriminate]].
    intros ? [= <-]. now split.
  - destruct (geometry a) as [g|] eqn:Hg.
    + destruct (geometry_truthy (Some g)).
      * destruct (type_is_polygon g) eqn:Hp; simpl; [|discriminate].
        destruct (envelope g) as [e|b] eqn:He; [discriminate|].
        intros H. destruct (Hcheck _ _ H) as [-> (v0 & v1 & v2 & v3 & E)].
        cbn [bbox set_bbox] in E. injection E as ->.
        exists v0, v1, v2, v3. split; [reflexivity|]. split; [discriminate|].
        intros _. exists g. split; [reflexivity|]. split; [exact Hp|].
        split; [exact He|].
        intros ring others Hc.
        destruct (envelope_inr g ring others _ Hc He)
          as (lons & lats & w & s & e & n & _ & _ & Eb & Hw & Hs & He' & Hn).
        exists w, s, e, n. split; [exact Eb|]. split; eauto using least_greatest_le.
      * intros H. destruct (Hcheck _ _ H) as [_ (? & ? & ? & ? & E)]. congruence.
    + intros H. destruct (Hcheck _ _ H) as [_ (? & ? & ? & ? & E)]. congruence.
Qed.

Lemma constructed_bbox_has_four_items_witness :
  exists v0 v1 v2 v3,
    bbox Sample.vol2_built = Some [v0; v1; v2; v3] /\
    (forall b, bbox Sample.vol2 = Some b -> Sample.vol2_built = Sample.vol2 /\ b = [v0; v1; v2; v3]) /\
    (bbox Sample.vol2 = None ->
     exists g,
       geometry Sample.vol2 = Some g /\ type_is_polygon g = true /\
       envelope g = inr [v0; v1; v2; v3] /\
       forall ring others,
         g_coordinates g = Some (JArr (of_ring ring :: others)) ->
         exists x0 y0 x1 y1,
           [v0; v1; v2; v3] = numbers [x0; y0; x1; y1] /\
           (x0 <= x1)%Q /\ (y0 <= y1)%Q).
Proof.
  apply (constructed_bbox_has_four_items Sample.vol2 Sample.vol2_built). reflexivity.
Defined.



End ModelsClaims.

(* ===================================================================== *)
(** * The token cache *)
(* ===================================================================== *)

Section FloatFacts.

Example round_sixty : Float.round 60 = Float.Finite 60.
Proof. reflexivity. Qed.

Example round_one_third :
  Float.round (1 # 3) = Float.Finite (6004799503160661 # 18014398509481984).
Proof. reflexivity. Qed.

Example round_tie_to_even :
  Float.round (9007199254740993 # 1) = Float.Finite (9007199254740992 # 1) /\
  Float.round (9007199254740995 # 1) = Float.Finite (9007199254740996 # 1).
Proof. split; reflexivity. Qed.

Example round_beyond_range :
  Float.round (inject_Z (2 ^ 1024 - 2 ^ 970)) = Float.Inf false /\
  Float.round (inject_Z (2 ^ 1024 - 2 ^ 970 - 1))
  = Float.Finite (inject_Z ((2 ^ 53 - 1) * 2 ^ 971)).
Proof. split; vm_compute; reflexivity. Qed.

Example sum_loses_small_part :
  Float.add (Float.Finite (1769169600 + (1 # 4))) (Float.round (6000000001 # 100000000))
  = Float.Finite (1769169660 + (1 # 4)).
Proof. vm_compute. reflexivity. Qed.

(** The integer [nearest] picks is within one half of the quotient. *)
Lemma nearest_error (n d : Z) :
  0 < d -> - d <= 2 * (Float.nearest n d * d - n) <= d.
Proof.
  intros Hd. unfold Float.nearest.
  pose proof (Z.div_mod n d ltac:(lia)) as Hn.
  pose proof (Z.mod_pos_bound n d Hd) as Hr.
  set (fl := n / d) in *. set (r := n mod d) in *. clearbody fl r.
  assert (Hfl : fl * d = n - r) by (rewrite Z.mul_comm; lia).
  assert (Hfl1 : (fl + 1) * d = n - r + d) by (rewrite Z.mul_add_distr_r; lia).
  destruct (Z.compare_spec (2 * r) d) as [E|E|E].
  - destruct (Z.even fl); [rewrite Hfl | rewrite Hfl1]; lia.
  - rewrite Hfl. lia.
  - rewrite Hfl1. lia.
Qed.

Lemma ilog2_upper (a d B : Z) :
  0 < a -> 0 < d -> 0 <= B -> a < d * 2 ^ B -> Float.ilog2 a d <= B - 1.
Proof.
  intros Ha Hd HB Hlt. unfold Float.ilog2.
  assert (Hk : Z.log2 a - Z.log2 d <= B).
  { assert (H : Z.log2 a <= Z.log2 (d * 2 ^ B)) by (apply Z.log2_le_mono; lia).
    rewrite Z.log2_mul_pow2 in H by lia. lia. }
  destruct (0 <=? Z.log2 a - Z.log2 d) eqn:E0.
  - apply Z.leb_le in E0.
    destruct (d * 2 ^ (Z.log2 a - Z.log2 d) <=? a) eqn:E1; [|lia].
    apply Z.leb_le in E1.
    assert (H : 2 ^ (Z.log2 a - Z.log2 d) < 2 ^ B) by nia.
    apply Z.pow_lt_mono_r_iff in H; lia.
  - apply Z.leb_gt in E0. destruct (d <=? _); lia.
Qed.

(** Below [2 ** 33] a double is at most [2 ** -21] away from the number
    it rounds: the last place is worth [2 ** -20] at most. *)
Lemma round_near (q : Q) :
  (- (8589934592) < q)%Q -> (q < 8589934592)%Q ->
  Float.near (1 # 2097152) (Float.round q) q.
Proof.
  intros Hlo Hhi. unfold Float.near, Float.round.
  destruct (Qnum q =? 0) eqn:E0.
  { apply Z.eqb_eq in E0. exists 0%Q. split; [reflexivity|].
    assert (H : (q == 0)%Q) by (unfold Qeq; simpl; lia). split; lra. }
  apply Z.eqb_neq in E0.
  set (n := Qnum q) in *. set (d := Zpos (Qden q)).
  assert (Hd : 0 < d) by (unfold d; lia).
  assert (Habs : Z.abs n < d * 2 ^ 33).
  { unfold Qlt in Hlo, Hhi. cbn [Qnum Qden Qopp] in Hlo, Hhi.
    fold n in Hlo, Hhi. fold d in Hlo, Hhi. lia. }
  assert (He : Float.exponent q <= -20).
  { unfold Float.exponent. fold n. fold d.
    pose proof (ilog2_upper (Z.abs n) d 33 ltac:(lia) Hd ltac:(lia) Habs). lia. }
  set (e := Float.exponent q) in *.
  assert (E1 : (0 <=? e) = false) by (apply Z.leb_gt; lia).
  rewrite E1.
  assert (E2 : ((971 <? e)
                || ((e =? 971) && (2 ^ 53 <=? Z.abs (Float.nearest (n * 2 ^ (- e)) d))))
               = false).
  { apply orb_false_iff. split; [apply Z.ltb_ge; lia|].
    apply andb_false_iff. left. apply Z.eqb_neq. lia. }
  rewrite E2.
  eexists. split; [reflexivity|].
  set (P := 2 ^ (- e)).
  assert (HP : 2 ^ 20 <= P) by (apply Z.pow_le_mono_r; lia).
  pose proof (nearest_error (n * P) d Hd) as Hm.
  set (m := Float.nearest (n * P) d) in *.
  assert (Hpow : Float.pow2 e = 1 # Z.to_pos P).
  { unfold Float.pow2. rewrite E1. reflexivity. }
  rewrite Qred_correct, Hpow.
  assert (HqP : Zpos (Z.to_pos P) = P) by (apply Z2Pos.id; lia).
  assert (Hq : q = n # Qden q) by (destruct q; reflexivity).
  rewrite Hq.
  split.
  - unfold Qle, Qminus, Qplus, Qopp, Qmult, inject_Z. cbn [Qnum Qden].
    rewrite !Pos2Z.inj_mul, HqP. fold d. change (Z.pos 2097152) with (2 ^ 21). nia.
  - unfold Qle, Qminus, Qplus, Qopp, Qmult, inject_Z. cbn [Qnum Qden].
    rewrite !Pos2Z.inj_mul, HqP. fold d. change (Z.pos 2097152) with (2 ^ 21). nia.
Qed.

Lemma lt_finite (x y : Q) :
  Float.lt (Float.Finite x) (Float.Finite y) = true <-> (x < y)%Q.
Proof. apply Qltb_true. Qed.

End FloatFacts.

(** Unfolding the plumbing of the monad. *)
Ltac run :=
  cbv beta delta [Runtime.bind Runtime.ret Runtime.raise Runtime.lift Runtime.ask
                  Runtime.get_state Runtime.try_except Runtime.record_event
                  Runtime.count_request Lib.time_time Lib.deliver Lib.raise_for_status
                  Lib.response_json Lib.py_float Token.set_access_token
                  Token.set_expires_at Token.post_token] in *;
  cbn [Runtime.clock Runtime.cache_access_token Runtime.cache_expires_at
       Runtime.files Runtime.requests Runtime.trace fst snd] in *.

Section TokenFacts.

Import Py Runtime Lib Token.

Lemma cache_is_fresh_true (s : State) (now : Float.t) :
  cache_is_fresh s now = true <-> cached_and_valid s now.
Proof.
  unfold cache_is_fresh, cached_and_valid. now rewrite andb_true_iff.
Qed.

Lemma token_requests_app (t u : list event) :
  token_requests (t ++ u) = (token_requests t + token_requests u)%nat.
Proof. unfold token_requests. now rewrite List.filter_app, List.length_app. Qed.

(** A fresh cache answers at once and leaves everything as it was. *)
Lemma cache_hit (w : World) (s : State) :
  cached_and_valid s (now_of s) ->
  get_access_token w s = (inr (cache_access_token s), s).
Proof.
  intros H. apply cache_is_fresh_true in H.
  unfold get_access_token. run. now rewrite H.
Qed.

(** Otherwise one request goes out, whatever comes back. *)
Lemma cache_miss_trace (w : World) (s : State) :
  ~ cached_and_valid s (now_of s) ->
  trace (snd (get_access_token w s)) = (trace s ++ [TokenPost])%list /\
  requests (snd (get_access_token w s)) = S (requests s).
Proof.
  intros H. rewrite <- cache_is_fresh_true in H. apply not_true_is_false in H.
  unfold get_access_token. run. rewrite H.
  destruct (token_endpoint w (requests s)) as [r|cls msg]; run; [|auto].
  destruct (is_success r); run; [|auto].
  destruct (json_body r) as [payload|]; run; [|auto].
  destruct (getitem payload "access_token") as [?|tok]; run; [auto|].
  destruct (get_default payload "expires_in" (JNum 3600)) as [?|v]; run; [auto|].
  destruct (to_float w v); run; auto.
Qed.

(** A granting answer is stored and returned. *)
Lemma cache_miss_grant (w : World) (s : State) (r : Response) (payload tok : json)
    (f : Float.t) :
  ~ cached_and_valid s (now_of s) ->
  token_endpoint w (requests s) = Answer r ->
  is_success r = true -> json_body r = Some payload -> grants w payload tok f ->
  get_access_token w s =
    (inr tok, mkState (clock s) tok (Float.add (now_of s) f) (files s)
                      (S (requests s)) (trace s ++ [TokenPost])).
Proof.
  intros H Hr Hs Hj (m & -> & Ht & He).
  rewrite <- cache_is_fresh_true in H. apply not_true_is_false in H.
  unfold get_access_token. run. rewrite H. cbn [trace requests]. rewrite Hr. run.
  rewrite Hs. run. rewrite Hj. run. cbn [getitem]. rewrite Ht. run. cbn [get_default].
  fold (lifetime m). now rewrite He.
Qed.

(** The test of the cache on a token granted for [e] seconds at [s1],
    read against the clock: the three roundings and the difference are
    each off by [2 ** -21] at most. *)
Lemma remaining_near (s1 s2 : State) (e : Q) :
  (0 <= clock s1)%Q -> (clock s1 <= 4294967296)%Q ->
  (0 <= clock s2)%Q -> (clock s2 <= 4294967296)%Q ->
  (- (2147483648) <= e)%Q -> (e <= 2147483648)%Q ->
  Float.near (1 # 400000)
    (Float.sub (Float.add (now_of s1) (Float.Finite e)) (now_of s2))
    (clock s1 + e - clock s2).
Proof.
  intros H1 H1' H2 H2' He He'. unfold now_of.
  destruct (round_near (clock s1)) as (n1 & -> & L1 & U1); [lra | lra |].
  destruct (round_near (clock s2)) as (n2 & -> & L2 & U2); [lra | lra |].
  cbn [Float.add].
  destruct (round_near (n1 + e)) as (x & -> & Lx & Ux); [lra | lra |].
  cbn [Float.sub Float.opp Float.add].
  destruct (round_near (x + - n2)) as (y & -> & Ly & Uy); [lra | lra |].
  exists y. split; [reflexivity|]. split; lra.
Qed.

End TokenFacts.

Section TokenClaims.

Import Py Runtime Lib Token.

Example first_call_fetches :
  get_access_token Sample.world Sample.start = (inr (JStr "t0"), Sample.granted Sample.noon).
Proof. reflexivity. Qed.

(** A lifetime beyond the range of a float: the call raises with the
    token stored and the old [expires_at] left. *)
Example endless_lifetime_overflows :
  get_access_token Fixtures.endless Sample.start
  = (inl (OverflowError "int too large to convert to float"),
     mkState Sample.noon (JStr "t4") (Float.Finite 0) ∅ 1 [TokenPost]).
Proof. vm_compute. reflexivity. Qed.

(** C2, as stated, fails: the sum [now + expires_in] is rounded. A
    token granted for 60.00000001 seconds a quarter of a second past
    noon expires, for the code, sixty seconds later to the digit; a call
    at the very instant of the grant, inside the window of [expires_in -
    60] seconds, finds exactly sixty seconds left, not more, and asks
    the endpoint again. *)
Lemma rounded_lifetime_refreshes_inside_window :
  let s1 := snd (get_access_token Fixtures.hair Fixtures.quarter_past) in
  exists e,
    to_float Fixtures.hair (JNum (6000000001 # 100000000)) = inr (Float.Finite e) /\
    fst (get_access_token Fixtures.hair Fixtures.quarter_past) = inr (JStr "t3") /\
    (clock s1 - clock Fixtures.quarter_past < e - 60)%Q /\
    cache_expires_at s1 = Float.Finite (clock Fixtures.quarter_past + 60) /\
    token_requests (trace s1) = 1%nat /\
    token_requests (trace (snd (get_access_token Fixtures.hair s1))) = 2%nat.
Proof.
  cbv zeta. eexists. split; [vm_compute; reflexivity|].
  split; [vm_compute; reflexivity|]. split; [vm_compute; reflexivity|].
  split; [vm_compute; reflexivity|]. split; vm_compute; reflexivity.
Qed.

(** C2, amended: with a token cached and more than sixty seconds left by
    the test of the code, which subtracts floats, the cached token is
    returned and nothing is sent; otherwise exactly one request goes to
    the token endpoint, and an answer granting a token for a lifetime
    [float] accepts (3600 when the answer does not say) overwrites the
    cache with the new token and with [expires_at], the float sum of
    [now] and the lifetime. Hence after a call that fetched a token, a
    later call sends nothing exactly when the float difference of that
    [expires_at] and its own [now] exceeds sixty, and one request
    otherwise; with clock readings up to [2 ** 32] seconds and a
    lifetime up to [2 ** 31] seconds, it sends nothing when it comes at
    least ten microseconds before [expires_in - 60] seconds have passed,
    and exactly one request when it comes at least ten microseconds
    after. *)
Theorem token_cache_contract :
  (forall w s, cached_and_valid s (now_of s) ->
     get_access_token w s = (inr (cache_access_token s), s)) /\
  (forall w s, ~ cached_and_valid s (now_of s) ->
     token_requests (trace (snd (get_access_token w s))) = S (token_requests (trace s)) /\
     forall r payload tok f,
       token_endpoint w (requests s) = Answer r -> is_success r = true ->
       json_body r = Some payload -> grants w payload tok f ->
       fst (get_access_token w s) = inr tok /\
       cache_access_token (snd (get_access_token w s)) = tok /\
       cache_expires_at (snd (get_access_token w s)) = Float.add (now_of s) f) /\
  (forall w s1 r payload tok f s2,
     ~ cached_and_valid s1 (now_of s1) ->
     token_endpoint w (requests s1) = Answer r -> is_success r = true ->
     json_body r = Some payload -> grants w payload tok f -> truthy tok = true ->
     cache_access_token s2 = cache_access_token (snd (get_access_token w s1)) ->
     cache_expires_at s2 = cache_expires_at (snd (get_access_token w s1)) ->
     (Float.lt (Float.Finite 60) (Float.sub (Float.add (now_of s1) f) (now_of s2)) = true ->
        get_access_token w s2 = (inr tok, s2)) /\
     (Float.lt (Float.Finite 60) (Float.sub (Float.add (now_of s1) f) (now_of s2)) = false ->
        token_requests (trace (snd (get_access_token w s2))) = S (token_requests (trace s2))) /\
     forall e,
       f = Float.Finite e ->
       (0 <= clock s1)%Q -> (clock s1 <= 4294967296)%Q ->
       (0 <= clock s2)%Q -> (clock s2 <= 4294967296)%Q ->
       (- (2147483648) <= e)%Q -> (e <= 2147483648)%Q ->
       ((clock s2 - clock s1 <= e - 60 - (1 # 100000))%Q ->
          get_access_token w s2 = (inr tok, s2)) /\
       ((e - 60 + (1 # 100000) <= clock s2 - clock s1)%Q ->
          token_requests (trace (snd (get_access_token w s2)))
          = S (token_requests (trace s2)))).
Proof.
  assert (Hone : forall w s, ~ cached_and_valid s (now_of s) ->
            token_requests (trace (snd (get_access_token w s))) = S (token_requests (trace s))).
  { intros w s H. destruct (cache_miss_trace w s H) as [-> _].
    rewrite token_requests_app. change (token_requests [TokenPost]) with 1%nat. lia. }
  split; [|split].
  - apply cache_hit.
  - intros w s H. split; [now apply Hone|].
    intros r payload tok f Hr Hs Hj Hg.
    now rewrite (cache_miss_grant w s r payload tok f H Hr Hs Hj Hg).
  - intros w s1 r payload tok f s2 H Hr Hs Hj Hg Ht Hc He.
    rewrite (cache_miss_grant w s1 r payload tok f H Hr Hs Hj Hg) in Hc, He.
    cbn [snd cache_access_token cache_expires_at] in Hc, He.
    assert (Hhit : Float.lt (Float.Finite 60)
                     (Float.sub (Float.add (now_of s1) f) (now_of s2)) = true ->
                   get_access_token w s2 = (inr tok, s2)).
    { intros Hlt. rewrite <- Hc. apply cache_hit.
      split; [now rewrite Hc | now rewrite He]. }
    assert (Hmiss : Float.lt (Float.Finite 60)
                      (Float.sub (Float.add (now_of s1) f) (now_of s2)) = false ->
                    token_requests (trace (snd (get_access_token w s2)))
                    = S (token_requests (trace s2))).
    { intros Hge. apply Hone. intros [_ Hv]. rewrite He in Hv. congruence. }
    split; [exact Hhit|]. split; [exact Hmiss|].
    intros e -> H1 H1' H2 H2' He1 He2.
    destruct (remaining_near s1 s2 e H1 H1' H2 H2' He1 He2) as (y & Ey & Ly & Uy).
    split.
    + intros Hin. apply Hhit. rewrite Ey. apply lt_finite. lra.
    + intros Hout. apply Hmiss. rewrite Ey. apply not_true_is_false.
      intros Hlt. apply lt_finite in Hlt. lra.
Qed.

Lemma token_cache_contract_witness :
  get_access_token Sample.world (Sample.granted (Sample.noon + Sample.q 60 1)%Q)
    = (inr (JStr "t0"), Sample.granted (Sample.noon + Sample.q 60 1)%Q) /\
  token_requests (trace (snd (get_access_token Sample.world Sample.start))) = 1%nat /\
  cache_expires_at (snd (get_access_token Sample.world Sample.start))
    = Float.add (now_of Sample.start) (Float.Finite (Sample.q 1800 1)) /\
  token_requests
    (trace (snd (get_access_token Sample.world (Sample.granted (Sample.noon + Sample.q 3600 1)%Q))))
    = 2%nat.
Proof.
  destruct token_cache_contract as [Hit [Miss Hence]].
  assert (Hstart : ~ cached_and_valid Sample.start (now_of Sample.start)).
  { intros [H _]. discriminate H. }
  assert (Hgrants : grants Sample.world Sample.token_payload (JStr "t0")
                      (Float.Finite (Sample.q 1800 1))).
  { eexists. split; [reflexivity|]. split; reflexivity. }
  split; [|split; [|split]].
  - destruct (Hence Sample.world Sample.start _ Sample.token_payload (JStr "t0")
                (Float.Finite (Sample.q 1800 1))
                (Sample.granted (Sample.noon + Sample.q 60 1)%Q)
                Hstart eq_refl eq_refl eq_refl Hgrants eq_refl eq_refl eq_refl)
      as (_ & _ & Hreal).
    apply (Hreal (Sample.q 1800 1) eq_refl); vm_compute; discriminate.
  - exact (proj1 (Miss Sample.world Sample.start Hstart)).
  - exact (proj2 (proj2 (proj2 (Miss Sample.world Sample.start Hstart) _
                           Sample.token_payload (JStr "t0") (Float.Finite (Sample.q 1800 1))
                           eq_refl eq_refl eq_refl Hgrants))).
  - destruct (Hence Sample.world Sample.start _ Sample.token_payload (JStr "t0")
                (Float.Finite (Sample.q 1800 1))
                (Sample.granted (Sample.noon + Sample.q 3600 1)%Q)
                Hstart eq_refl eq_refl eq_refl Hgrants eq_refl eq_refl eq_refl)
      as (_ & _ & Hreal).
    apply (Hreal (Sample.q 1800 1) eq_refl); vm_compute; discriminate.
Defined.

End TokenClaims.

(* ===================================================================== *)
(** * The catalog client *)
(* ===================================================================== *)

Section RetryFacts.

Import Py Runtime Lib Catalog.

Lemma transient_iff (r : Response) :
  transient r = true <->
  status_code r = 502 \/ status_code r = 503 \/ status_code r = 504.
Proof.
  unfold transient. rewrite !orb_true_iff, !Z.eqb_eq. tauto.
Qed.

Lemma transient_not_success (r : Response) : transient r = true -> is_success r = false.
Proof.
  rewrite transient_iff. unfold is_success. intros H.
  apply andb_false_iff. right. apply Z.leb_gt. lia.
Qed.

Lemma post_catalog_run (rq : CatalogRequest) (w : World) (s : State) :
  post_catalog rq w s =
  (match catalog_endpoint w (requests s) rq with
   | Answer r => inr r
   | Failure cls msg => inl (PyError cls msg)
   end, posted rq s).
Proof.
  unfold post_catalog, posted. run.
  destruct (catalog_endpoint w (requests s) rq); reflexivity.
Qed.

Lemma settle_run (r : Response) (w : World) (s : State) :
  (raise_for_status r ;; ret r) w s = (settle r, s).
Proof. unfold settle. run. destruct (is_success r); reflexivity. Qed.

Lemma requests_retried (rq : CatalogRequest) (k : nat) :
  forall i s, requests (retried rq i k s) = (requests s + k)%nat.
Proof.
  induction k as [|k IH]; intros i s; simpl; [lia|].
  rewrite IH. simpl. lia.
Qed.

Lemma trace_retried (rq : CatalogRequest) (k : nat) :
  forall i s,
    trace (retried rq i k s) =
    (trace s ++ flat_map (fun j => [CatalogPost rq; Sleep (backoff j)]) (seq i k))%list.
Proof.
  induction k as [|k IH]; intros i s; simpl.
  - now rewrite app_nil_r.
  - rewrite IH. simpl. now rewrite <- !app_assoc.
Qed.

Lemma catalog_posts_app (t u : list event) :
  catalog_posts (t ++ u) = (catalog_posts t + catalog_posts u)%nat.
Proof. unfold catalog_posts. now rewrite List.filter_app, List.length_app. Qed.

Lemma pauses_app (t u : list event) : pauses (t ++ u) = (pauses t ++ pauses u)%list.
Proof.
  induction t as [|[] t IH]; simpl; auto. now rewrite IH.
Qed.

Lemma catalog_posts_rounds (rq : CatalogRequest) (k i : nat) :
  catalog_posts (flat_map (fun j => [CatalogPost rq; Sleep (backoff j)]) (seq i k)) = k.
Proof.
  revert i. induction k as [|k IH]; intros i; [reflexivity|].
  simpl. change (catalog_posts (CatalogPost rq :: Sleep (backoff i) :: ?t))
    with (S (catalog_posts t)). now rewrite IH.
Qed.

Lemma pauses_rounds (rq : CatalogRequest) (k i : nat) :
  pauses (flat_map (fun j => [CatalogPost rq; Sleep (backoff j)]) (seq i k))
  = map backoff (seq i k).
Proof.
  revert i. induction k as [|k IH]; intros i; [reflexivity|].
  simpl. now rewrite IH.
Qed.

(** The loop, for any number of tries: after [k] transient answers that
    leave room for another try, the next answer settles the call. *)
Lemma retry_loop_run (w : World) (rq : CatalogRequest) (tries : nat) (r : Response) (k : nat) :
  forall i s last,
    (i + k < tries)%nat ->
    (forall j, (j < k)%nat ->
       exists rj, catalog_endpoint w (requests s + j) rq = Answer rj /\ transient rj = true) ->
    catalog_endpoint w (requests s + k) rq = Answer r ->
    (i + k = tries - 1)%nat \/ transient r = false ->
    retry_loop (post_catalog rq) (Z.of_nat tries) (seq i (tries - i)) last w s
    = (settle r, posted rq (retried rq i k s)).
Proof.
  induction k as [|k IH]; intros i s last Hlt Htr Hr Hend.
  - destruct (tries - i)%nat as [|n] eqn:En; [lia|].
    cbn [seq retry_loop retried]. unfold bind at 1. rewrite post_catalog_run.
    rewrite Nat.add_0_r in Hr. rewrite Hr.
    assert (Hstop : transient r && (Z.of_nat i <? Z.of_nat tries - 1) = false).
    { destruct Hend as [He| ->]; [|reflexivity].
      apply andb_false_iff. right. apply Z.ltb_ge. lia. }
    rewrite Hstop. apply settle_run.
  - destruct (tries - i)%nat as [|n] eqn:En; [lia|].
    cbn [seq retry_loop retried]. unfold bind at 1. rewrite post_catalog_run.
    destruct (Htr 0%nat ltac:(lia)) as (r0 & Hr0 & Ht0).
    rewrite Nat.add_0_r in Hr0. rewrite Hr0, Ht0.
    assert (Hgo : (Z.of_nat i <? Z.of_nat tries - 1) = true) by (apply Z.ltb_lt; lia).
    rewrite Hgo. cbn [andb].
    replace n with (tries - S i)%nat by lia.
    change ((sleep (backoff i) ;; retry_loop (post_catalog rq) (Z.of_nat tries)
               (seq (S i) (tries - S i)) (Some r0)) w (posted rq s))
      with (retry_loop (post_catalog rq) (Z.of_nat tries) (seq (S i) (tries - S i)) (Some r0)
              w (paused (backoff i) (posted rq s))).
    apply IH.
    + lia.
    + intros j Hj. destruct (Htr (S j) ltac:(lia)) as (rj & Hrj & Htj).
      exists rj. split; [|exact Htj]. cbn [requests paused posted].
      now replace (S (requests s) + j)%nat with (requests s + S j)%nat by lia.
    + cbn [requests paused posted].
      now replace (S (requests s) + k)%nat with (requests s + S k)%nat by lia.
    + destruct Hend as [He|Hn]; [left; lia | now right].
Qed.

End RetryFacts.

Section RetryClaims.

Import Py Runtime Lib Catalog.

Example busy_twice :
  let out := _post_with_retry (post_catalog Sample.request) 4 Sample.flaky Sample.start in
  fst out = inr (mkResponse 200 "" (Some Sample.found_two) Sample.png) /\
  trace (snd out) =
    [CatalogPost Sample.request; Sleep (backoff 0);
     CatalogPost Sample.request; Sleep (backoff 1);
     CatalogPost Sample.request].
Proof. split; reflexivity. Qed.

(** C4: the catalog search is sent again exactly when the answer has
    status 502, 503 or 504 and fewer than four attempts were made, after
    a pause of 1.5 s times the number of the attempt (1.5 s, 3 s, 4.5 s).
    So after [k <= 3] such answers, the next answer ends the call, being
    the fourth or having another status: a 2xx answer is returned, any
    other is raised as an [HTTPStatusError]; [k + 1] requests were sent
    and [k] pauses made. *)
Theorem catalog_post_retries_on_transient_status :
  (forall w rq s k r,
     (k <= 3)%nat ->
     (forall j, (j < k)%nat ->
        exists rj, catalog_endpoint w (requests s + j) rq = Answer rj /\
                   (status_code rj = 502 \/ status_code rj = 503 \/ status_code rj = 504)) ->
     catalog_endpoint w (requests s + k) rq = Answer r ->
     k = 3%nat \/ ~ (status_code r = 502 \/ status_code r = 503 \/ status_code r = 504) ->
     let out := _post_with_retry (post_catalog rq) 4 w s in
     (200 <= status_code r <= 299 -> fst out = inr r) /\
     (~ 200 <= status_code r <= 299 ->
        fst out = inl (HTTPStatusError (status_code r) (text r))) /\
     catalog_posts (trace (snd out)) = (catalog_posts (trace s) + (k + 1))%nat /\
     pauses (trace (snd out)) = (pauses (trace s) ++ map backoff (seq 0 k))%list) /\
  (backoff 0 == 3 # 2)%Q /\ (backoff 1 == 3 # 1)%Q /\ (backoff 2 == 9 # 2)%Q.
Proof.
  split; [|repeat split].
  intros w rq s k r Hk Htr Hr Hend out.
  assert (E : out = (settle r, posted rq (retried rq 0 k s))).
  { apply (retry_loop_run w rq 4 r k 0 s None); [lia | | exact Hr |].
    - intros j Hj. destruct (Htr j Hj) as (rj & Hrj & Hst).
      exists rj. split; [exact Hrj | now apply transient_iff].
    - destruct Hend as [->|Hn]; [now left | right].
      apply not_true_is_false. now rewrite transient_iff. }
  rewrite E. cbn [fst snd posted trace]. rewrite trace_retried.
  unfold settle, is_success. repeat split.
  - intros [H1 H2]. apply Z.leb_le in H1, H2. now rewrite H1, H2.
  - intros H. destruct (200 <=? status_code r) eqn:H1;
      destruct (status_code r <=? 299) eqn:H2; try reflexivity.
    apply Z.leb_le in H1, H2. lia.
  - rewrite !catalog_posts_app, catalog_posts_rounds.
    change (catalog_posts [CatalogPost rq]) with 1%nat. lia.
  - rewrite !pauses_app, pauses_rounds. cbn [pauses]. now rewrite app_nil_r.
Qed.

Lemma catalog_post_retries_on_transient_status_witness :
  let out := _post_with_retry (post_catalog Sample.request) 4 Sample.flaky Sample.start in
  (200 <= 200 <= 299 -> fst out = inr (mkResponse 200 "" (Some Sample.found_two) Sample.png)) /\
  (~ 200 <= 200 <= 299 -> fst out = inl (HTTPStatusError 200 "")) /\
  catalog_posts (trace (snd out)) = (0 + (2 + 1))%nat /\
  pauses (trace (snd out)) = ([] ++ map backoff (seq 0 2))%list.
Proof.
  apply (proj1 catalog_post_retries_on_transient_status
           Sample.flaky Sample.request Sample.start 2%nat
           (mkResponse 200 "" (Some Sample.found_two) Sample.png)).
  - lia.
  - intros [|[|j]] Hj.
    + eexists. split; [reflexivity|]. right. left. reflexivity.
    + eexists. split; [reflexivity|]. left. reflexivity.
    + lia.
  - reflexivity.
  - right. simpl. lia.
Defined.

End RetryClaims.

Section LatestFacts.

Import Py Runtime Lib Catalog.

Lemma _parse_dt_run (dt_str : string) (w : World) (s : State) :
  _parse_dt dt_str w s = (fst (_parse_dt dt_str w (initial 0)), s).
Proof.
  unfold _parse_dt. run.
  destruct (fromisoformat w (replace "Z" "+00:00" dt_str)); reflexivity.
Qed.

(** Computing a key leaves the state alone and does not depend on it. *)
Lemma key_fn_run (f : json) (w : World) (s : State) :
  key_fn f w s = (key_of w f, s).
Proof.
  unfold key_of, key_fn. run.
  destruct (get f "properties") as [?|p]; [reflexivity|].
  destruct (get (py_or p (JObj [])) "datetime") as [?|d]; [reflexivity|].
  destruct (as_str (py_or d (JStr "1970-01-01T00:00:00Z"))) as [?|dt_str]; [reflexivity|].
  rewrite (_parse_dt_run dt_str w s). reflexivity.
Qed.

Lemma get_obj (m : list (string * json)) (k : string) :
  get (JObj m) k = inr (match assoc k m with Some x => x | None => JNull end).
Proof. reflexivity. Qed.

Lemma or_default (v : option json) (d : json) :
  absent_or_falsy v -> py_or (match v with Some x => x | None => JNull end) d = d.
Proof.
  unfold py_or. destruct v as [x|]; simpl; [intros ->|]; reflexivity.
Qed.

Lemma key_of_undated (w : World) (f : json) :
  lacks_datetime f -> key_of w f = epoch_key w.
Proof.
  intros (m & -> & H). unfold key_of, epoch_key, key_fn. run. rewrite get_obj.
  assert (E : get (py_or (match assoc "properties" m with Some x => x | None => JNull end)
                         (JObj [])) "datetime" = inr JNull
              \/ exists pm, absent_or_falsy (assoc "datetime" pm) /\
                   get (py_or (match assoc "properties" m with Some x => x | None => JNull end)
                              (JObj [])) "datetime"
                   = inr (match assoc "datetime" pm with Some x => x | None => JNull end)).
  { destruct H as [H|(pm & Hp & H)].
    - left. now rewrite or_default.
    - right. exists pm. split; [exact H|]. rewrite Hp. destruct pm; reflexivity. }
  destruct E as [->|(pm & H' & ->)]; [reflexivity|].
  now rewrite or_default.
Qed.

(** The scan of [max] after its first item. *)
Lemma max_from_first (w : World) (s : State) (items : list json) :
  forall best kbest,
    (forall g, In g items -> exists kg, key_of w g = inr kg) ->
    exists f kf,
      max_from key_fn best kbest items w s = (inr f, s) /\
      (instant kbest <= instant kf) /\
      (forall g kg, In g items -> key_of w g = inr kg -> instant kg <= instant kf) /\
      ((f = best /\ kf = kbest) \/
       exists before after,
         items = (before ++ f :: after)%list /\ key_of w f = inr kf /\
         instant kbest < instant kf /\
         forall g kg, In g before -> key_of w g = inr kg -> instant kg < instant kf).
Proof.
  induction items as [|x rest IH]; intros best kbest Hk.
  - exists best, kbest. repeat split; [lia | intros ? ? [] | now left].
  - destruct (Hk x (or_introl eq_refl)) as (k & Ek).
    cbn [max_from]. unfold bind. rewrite key_fn_run, Ek.
    assert (Hrest : forall g, In g rest -> exists kg, key_of w g = inr kg)
      by (intros g Hg; apply Hk; now right).
    destruct (instant kbest <? instant k) eqn:Hlt.
    + apply Z.ltb_lt in Hlt.
      destruct (IH x k Hrest) as (f & kf & -> & Hle & Hall & Hcase).
      exists f, kf. split; [reflexivity|]. split; [lia|]. split.
      * intros g kg [<-|Hg] Eg; [|now apply (Hall g)]. rewrite Ek in Eg. injection Eg as <-. lia.
      * right. destruct Hcase as [[-> ->]|(b & a & -> & Ef & Hkf & Hb)].
        -- exists [], rest. repeat split; auto. intros ? ? [].
        -- exists (x :: b), a. repeat split; auto; [lia|].
           intros g kg [<-|Hg] Eg; [|now apply (Hb g)].
           rewrite Ek in Eg. injection Eg as <-. exact Hkf.
    + apply Z.ltb_ge in Hlt.
      destruct (IH best kbest Hrest) as (f & kf & -> & Hle & Hall & Hcase).
      exists f, kf. split; [reflexivity|]. split; [exact Hle|]. split.
      * intros g kg [<-|Hg] Eg; [|now apply (Hall g)]. rewrite Ek in Eg. injection Eg as <-. lia.
      * destruct Hcase as [[-> ->]|(b & a & -> & Ef & Hkf & Hb)]; [now left | right].
        exists (x :: b), a. repeat split; auto.
        intros g kg [<-|Hg] Eg; [|now apply (Hb g)].
        rewrite Ek in Eg. injection Eg as <-. lia.
Qed.

(** [max(features, key=key_fn)] returns the first item whose key is
    greatest. *)
Lemma py_max_first (w : World) (s : State) (items : list json) :
  items <> [] ->
  (forall g, In g items -> exists kg, key_of w g = inr kg) ->
  exists before f after kf,
    items = (before ++ f :: after)%list /\
    py_max key_fn items w s = (inr f, s) /\
    key_of w f = inr kf /\
    (forall g kg, In g before -> key_of w g = inr kg -> instant kg < instant kf) /\
    (forall g kg, In g after -> key_of w g = inr kg -> instant kg <= instant kf).
Proof.
  destruct items as [|x rest]; [congruence | intros _ Hk].
  destruct (Hk x (or_introl eq_refl)) as (k & Ek).
  cbn [py_max]. unfold bind. rewrite key_fn_run, Ek.
  destruct (max_from_first w s rest x k) as (f & kf & -> & Hle & Hall & Hcase).
  { intros g Hg. apply Hk. now right. }
  destruct Hcase as [[-> ->]|(b & a & -> & Ef & Hkf & Hb)].
  - exists [], x, rest, k. repeat split; auto. intros ? ? [].
  - exists (x :: b), f, a, kf. repeat split; auto.
    + intros g kg [<-|Hg] Eg; [|now apply (Hb g)].
      rewrite Ek in Eg. injection Eg as <-. exact Hkf.
    + intros g kg Hg. apply Hall. apply in_or_app. right. now right.
Qed.

Lemma latest_of_features (w : World) (s : State) (m : list (string * json)) (fs : list json) :
  assoc "features" m = Some (JArr fs) -> fs <> [] ->
  latest_of (JObj m) w s = py_max key_fn fs w s.
Proof.
  intros Hm Hne. unfold latest_of. run. cbn [get get_default]. rewrite Hm.
  destruct fs as [|x fs]; [congruence|]. reflexivity.
Qed.

Lemma latest_of_nothing (w : World) (s : State) (data : json) :
  no_features data -> latest_of data w s = (inr JNull, s).
Proof.
  intros (m & -> & H). unfold latest_of. run. cbn [get get_default].
  unfold py_or. destruct (assoc "features" m) as [v|]; cbn in H |- *.
  - rewrite H. reflexivity.
  - reflexivity.
Qed.

End LatestFacts.

Section LatestClaims.

Import Py Runtime Lib Catalog.

Lemma key_of_dated (w : World) (f : json) (d : string) :
  datetime_of f d -> key_of w f = fst (_parse_dt d w (initial 0)).
Proof.
  intros (m & pm & -> & Hp & Hd & Hne). unfold key_of, key_fn. run.
  rewrite get_obj, Hp.
  assert (E : get (py_or (JObj pm) (JObj [])) "datetime" = inr (JStr d)).
  { destruct pm as [|kv pm]; [discriminate|]. cbn [py_or truthy]. now rewrite get_obj, Hd. }
  rewrite E. unfold py_or. cbn [truthy].
  destruct (String.eqb d "") eqn:Ed; [apply String.eqb_eq in Ed; contradiction|].
  reflexivity.
Qed.

Example the_search_finds_two :
  fst (search (Models.bbox Sample.vol1) 30 (Sample.q 80 1) Sample.world Sample.start)
  = inr Sample.found_two.
Proof. vm_compute. reflexivity. Qed.

(** C3, as stated, fails. Of two scenes with the same datetime the one
    listed first is selected, not the later one; and a feature without a
    datetime is selected over one dated before 1970. *)
Lemma later_listed_maximum_not_selected :
  (fst (find_latest_s2_scene (Models.bbox Sample.vol1) 30 (Sample.q 80 1)
          Sample.world Sample.start) = inr Sample.scene_a /\
   key_of Sample.world Sample.scene_a = key_of Sample.world Sample.scene_b /\
   Sample.scene_a <> Sample.scene_b) /\
  (fst (latest_of (JObj [("features", JArr [Sample.undated; Sample.apollo])])
          Sample.world Sample.start) = inr Sample.undated /\
   lacks_datetime Sample.undated /\
   datetime_of Sample.apollo "1969-07-20T20:17:00Z").
Proof.
  split; split; [vm_compute; reflexivity | split; [reflexivity | discriminate] |
                 vm_compute; reflexivity | split].
  - eexists. split; [reflexivity|]. right. eexists. split; [reflexivity | exact I].
  - do 2 eexists. repeat split; discriminate.
Qed.

(** C3, amended: from a non-empty feature list whose datetimes can be
    read, [find_latest_s2_scene] selects a feature whose
    [properties.datetime] is maximal, and among several such the one
    listed first; a feature without a datetime is keyed as
    1970-01-01T00:00:00Z, so it is never selected while a feature dated
    later than that is in the list. *)
Theorem latest_scene_is_first_maximum (w : World) (s s1 : State) (bbox : option (list json))
    (days : Z) (max_cloud : Q) (m : list (string * json)) (fs : list json) :
  search bbox days max_cloud w s = (inr (JObj m), s1) ->
  assoc "features" m = Some (JArr fs) -> fs <> [] ->
  (forall g, In g fs -> exists kg, key_of w g = inr kg) ->
  (forall g d, datetime_of g d -> key_of w g = fst (_parse_dt d w (initial 0))) /\
  (forall g, lacks_datetime g -> key_of w g = epoch_key w) /\
  exists before f after kf,
    fs = (before ++ f :: after)%list /\
    find_latest_s2_scene bbox days max_cloud w s = (inr f, s1) /\
    key_of w f = inr kf /\
    (forall g kg, In g before -> key_of w g = inr kg -> instant kg < instant kf) /\
    (forall g kg, In g after -> key_of w g = inr kg -> instant kg <= instant kf) /\
    (lacks_datetime f ->
     forall g kg k0, In g fs -> key_of w g = inr kg -> epoch_key w = inr k0 ->
                     instant kg <= instant k0).
Proof.
  intros Hs Hm Hne Hk. split; [apply key_of_dated|]. split; [apply key_of_undated|].
  destruct (py_max_first w s1 fs Hne Hk) as (before & f & after & kf & E & Hmax & Ef & Hb & Ha).
  exists before, f, after, kf. repeat split; auto.
  - unfold find_latest_s2_scene, bind. rewrite Hs.
    now rewrite (latest_of_features w s1 m fs Hm Hne).
  - intros Hl g kg k0 Hg Eg E0.
    rewrite (key_of_undated w f Hl), E0 in Ef. injection Ef as <-.
    rewrite E in Hg. apply in_app_or in Hg. destruct Hg as [Hg|[<-|Hg]].
    + apply Z.lt_le_incl. now apply (Hb g).
    + rewrite (key_of_undated w f Hl), E0 in Eg. injection Eg as <-. lia.
    + now apply (Ha g).
Qed.

Lemma latest_scene_is_first_maximum_witness :
  exists before f after kf,
    [Sample.scene_a; Sample.scene_b] = (before ++ f :: after)%list /\
    find_latest_s2_scene (Models.bbox Sample.vol1) 30 (Sample.q 80 1) Sample.world Sample.start
      = (inr f, snd (search (Models.bbox Sample.vol1) 30 (Sample.q 80 1)
                       Sample.world Sample.start)) /\
    key_of Sample.world f = inr kf /\
    (forall g kg, In g before -> key_of Sample.world g = inr kg -> instant kg < instant kf) /\
    (forall g kg, In g after -> key_of Sample.world g = inr kg -> instant kg <= instant kf) /\
    (lacks_datetime f ->
     forall g kg k0, In g [Sample.scene_a; Sample.scene_b] ->
                     key_of Sample.world g = inr kg -> epoch_key Sample.world = inr k0 ->
                     instant kg <= instant k0).
Proof.
  apply (latest_scene_is_first_maximum Sample.world Sample.start _ (Models.bbox Sample.vol1)
           30 (Sample.q 80 1) [("features", JArr [Sample.scene_a; Sample.scene_b])]
           [Sample.scene_a; Sample.scene_b]).
  - vm_compute. reflexivity.
  - reflexivity.
  - discriminate.
  - intros g [<-|[<-|[]]]; eexists; vm_compute; reflexivity.
Defined.

End LatestClaims.

(* ===================================================================== *)
(** * The handlers for one AOI *)
(* ===================================================================== *)

Section HandlerFacts.

Import Py Runtime Lib.

Lemma construct_all_run (raw : list Models.AOI) (w : World) (s : State) :
  AoiRepo.construct_all raw w s = (fst (AoiRepo.construct_all raw w (initial 0)), s).
Proof.
  induction raw as [|x raw IH]; [reflexivity|].
  cbn [AoiRepo.construct_all]. run.
  destruct (Models.ensure_bbox x); [reflexivity|].
  rewrite IH. destruct (fst (AoiRepo.construct_all raw w (initial 0))) eqn:E.
  - rewrite (surjective_pairing (AoiRepo.construct_all raw w (initial 0))), E. reflexivity.
  - rewrite (surjective_pairing (AoiRepo.construct_all raw w (initial 0))), E. reflexivity.
Qed.

Lemma load_aois_run (w : World) (s : State) :
  AoiRepo.load_aois w s = (AoiRepo.loaded w, s).
Proof.
  unfold AoiRepo.loaded, AoiRepo.load_aois. run.
  destruct (aoi_file w); [apply construct_all_run | reflexivity].
Qed.

Lemma get_aoi_run (aoi_id : string) (w : World) (s : State) :
  AoiRepo.get_aoi aoi_id w s = (AoiRepo.known w aoi_id, s).
Proof.
  unfold AoiRepo.known, AoiRepo.get_aoi. run. rewrite !load_aois_run.
  destruct (AoiRepo.loaded w); reflexivity.
Qed.

End HandlerFacts.

Section NoSceneClaim.

Import Py Runtime Lib Main.

Example nothing_over_vol1 :
  fst (latest_scene "vol1" 30 (Sample.q 80 1) Sample.quiet Sample.start)
  = inr (JObj [("aoi_id", JStr "vol1"); ("scene", JNull)]).
Proof. vm_compute. reflexivity. Qed.

Example scene_over_vol1 :
  fst (latest_scene "vol1" 30 (Sample.q 80 1) Sample.world Sample.start)
  = inr (JObj [("aoi_id", JStr "vol1"); ("datetime", JStr "2026-01-20T10:15:00Z");
               ("cloud_cover", JNum (Sample.q 42 1)); ("scene_id", JStr "S2A_T33UVR")]).
Proof. vm_compute. reflexivity. Qed.

Example catalog_down :
  fst (latest_scene "vol1" 30 (Sample.q 80 1) Sample.down Sample.start)
  = inl (HTTPException 500 (upstream_detail "catalog.search" 500 "internal error")).
Proof. vm_compute. reflexivity. Qed.

(** C8: when the search yields no features, [find_latest_s2_scene]
    returns [None] and raises nothing, and [GET /aois/{id}/latest-scene]
    answers [{aoi_id, scene: null}]; when the search fails instead, the
    handler raises an [HTTPException], so the two cannot be confused. *)
Theorem no_scene_is_not_an_error :
  (forall w s s1 aoi_id aoi days cloud data,
     AoiRepo.known w aoi_id = inr (Some aoi) ->
     Catalog.search (Models.bbox aoi) days cloud w s = (inr data, s1) ->
     Catalog.no_features data ->
     Catalog.find_latest_s2_scene (Models.bbox aoi) days cloud w s = (inr JNull, s1) /\
     latest_scene aoi_id days cloud w s
       = (inr (JObj [("aoi_id", JStr aoi_id); ("scene", JNull)]), s1)) /\
  (forall w s s1 aoi_id aoi days cloud e,
     AoiRepo.known w aoi_id = inr (Some aoi) ->
     Catalog.find_latest_s2_scene (Models.bbox aoi) days cloud w s = (inl e, s1) ->
     exists st detail,
       latest_scene aoi_id days cloud w s = (inl (HTTPException st detail), s1)).
Proof.
  split.
  - intros w s s1 aoi_id aoi days cloud data Hk Hs Hn.
    assert (Hf : Catalog.find_latest_s2_scene (Models.bbox aoi) days cloud w s
                 = (inr JNull, s1)).
    { unfold Catalog.find_latest_s2_scene, bind. rewrite Hs.
      now apply latest_of_nothing. }
    split; [exact Hf|].
    unfold latest_scene, bind. rewrite get_aoi_run, Hk.
    unfold try_except. rewrite Hf. reflexivity.
  - intros w s s1 aoi_id aoi days cloud e Hk Hf.
    unfold latest_scene, bind. rewrite get_aoi_run, Hk.
    unfold try_except. rewrite Hf.
    destruct e; run; eauto.
Qed.

Lemma no_scene_is_not_an_error_witness :
  (Catalog.find_latest_s2_scene (Models.bbox Sample.vol1) 30 (Sample.q 80 1)
     Sample.quiet Sample.start
   = (inr JNull, snd (Catalog.search (Models.bbox Sample.vol1) 30 (Sample.q 80 1)
                        Sample.quiet Sample.start)) /\
   latest_scene "vol1" 30 (Sample.q 80 1) Sample.quiet Sample.start
   = (inr (JObj [("aoi_id", JStr "vol1"); ("scene", JNull)]),
      snd (Catalog.search (Models.bbox Sample.vol1) 30 (Sample.q 80 1)
             Sample.quiet Sample.start))) /\
  (exists st detail,
     latest_scene "vol1" 30 (Sample.q 80 1) Sample.down Sample.start
     = (inl (HTTPException st detail),
        snd (Catalog.find_latest_s2_scene (Models.bbox Sample.vol1) 30 (Sample.q 80 1)
               Sample.down Sample.start))).
Proof.
  destruct no_scene_is_not_an_error as [H1 H2]. split.
  - apply (H1 Sample.quiet Sample.start _ "vol1" Sample.vol1 30 (Sample.q 80 1)
              (JObj [("features", JArr [])])).
    + vm_compute. reflexivity.
    + vm_compute. reflexivity.
    + eexists. split; [reflexivity|]. reflexivity.
  - apply (H2 Sample.down Sample.start _ "vol1" Sample.vol1 30 (Sample.q 80 1)
              (HTTPStatusError 500 "internal error")).
    + vm_compute. reflexivity.
    + vm_compute. reflexivity.
Defined.

End NoSceneClaim.

(* ===================================================================== *)
(** * Paths and the image store *)
(* ===================================================================== *)

Section StorageFacts.

Import Py Runtime Lib Storage.

(** Let [simpl] compute the append of strings again. *)
Local Arguments String.append !s1 s2 : simpl nomatch.

Lemma append_assoc (a b c : string) : ((a ++ b) ++ c)%string = (a ++ b ++ c)%string.
Proof. induction a as [|x a IH]; simpl; [reflexivity | now rewrite IH]. Qed.

Lemma has_app (c : ascii) (a b : string) :
  has c (a ++ b)%string = has c a || has c b.
Proof.
  induction a as [|x a IH]; simpl; [reflexivity|].
  rewrite IH. now rewrite orb_assoc.
Qed.

Lemma split_no_slash (x : string) : has "/" x = false -> split x = [x].
Proof.
  induction x as [|c x IH]; simpl; [reflexivity|].
  intros H. apply orb_false_iff in H. destruct H as [Hc Hx].
  unfold is_slash. rewrite Hc, (IH Hx). reflexivity.
Qed.

Lemma segments_component (x : string) : component x -> segments x = [x].
Proof.
  intros (Hs & He & Hd). unfold segments. rewrite (split_no_slash x Hs). simpl.
  unfold keep.
  destruct (String.eqb_spec x ""); [contradiction|].
  destruct (String.eqb_spec x "."); [contradiction|]. reflexivity.
Qed.

Lemma joinpath_component (p : PurePath) (x : string) :
  component x -> joinpath p x = mkPath (root p) (parts p ++ [x]).
Proof.
  intros H. unfold joinpath. rewrite (segments_component x H).
  destruct H as (Hs & _ & _). destruct x as [|c x]; [reflexivity|].
  cbn [has] in Hs. apply orb_false_iff in Hs. destruct Hs as [Hc _].
  cbn [is_absolute]. unfold is_slash. now rewrite Hc.
Qed.

Lemma join_slash_snoc (l : list string) (x : string) :
  l <> [] -> join_slash (l ++ [x]) = (join_slash l ++ "/" ++ x)%string.
Proof.
  induction l as [|a l IH]; [congruence | intros _].
  destruct l as [|b l]; [reflexivity|].
  change (join_slash ((a :: b :: l) ++ [x]))
    with (a ++ "/" ++ join_slash ((b :: l) ++ [x]))%string.
  rewrite IH by discriminate.
  change (join_slash (a :: b :: l)) with (a ++ "/" ++ join_slash (b :: l))%string.
  now rewrite !append_assoc.
Qed.

Lemma str_snoc (r : string) (l : list string) (x : string) :
  l <> [] -> str (mkPath r (l ++ [x])) = (str (mkPath r l) ++ "/" ++ x)%string.
Proof.
  intros Hl. pose proof (join_slash_snoc l x Hl) as E.
  destruct l as [|a l]; [congruence|].
  unfold str. cbn [root parts]. cbn [app] in *.
  destruct r as [|c r]; rewrite E; [reflexivity|].
  now rewrite append_assoc.
Qed.

(** The path [save_png] writes to, spelled out. *)
Lemma out_path_layout (d aoi_id filename : string) :
  normal_dir d -> component aoi_id -> component filename ->
  str (joinpath (joinpath (Path d) aoi_id) filename)
  = (d ++ "/" ++ aoi_id ++ "/" ++ filename)%string.
Proof.
  intros [Hd Hp] Ha Hf.
  rewrite (joinpath_component _ aoi_id Ha), (joinpath_component _ filename Hf).
  cbn [root parts].
  rewrite str_snoc by (destruct (parts (Path d)); [congruence | discriminate]).
  rewrite (str_snoc _ _ _ Hp).
  change (mkPath (root (Path d)) (parts (Path d))) with (Path d).
  rewrite Hd. now rewrite !append_assoc.
Qed.

Lemma replace_absent (c : ascii) (new s : string) :
  has c s = false -> replace (String c EmptyString) new s = s.
Proof.
  unfold replace. induction s as [|a s IH]; [reflexivity|].
  cbn [has]. intros H. apply orb_false_iff in H. destruct H as [Ha Hs].
  cbn [replace_from String.prefix].
  destruct (ascii_dec c a) as [<-|Hne].
  - now rewrite Ascii.eqb_refl in Ha.
  - now rewrite (IH Hs).
Qed.

Lemma digit_is_digit (z : Z) (c : ascii) :
  (nat_of_ascii c < 48 \/ 57 < nat_of_ascii c)%nat -> Ascii.eqb (Datetime.digit z) c = false.
Proof.
  intros Hc. apply Ascii.eqb_neq. intros <-. unfold Datetime.digit in Hc.
  assert (Hm : 0 <= z mod 10 < 10) by (apply Z.mod_pos_bound; lia).
  rewrite nat_ascii_embedding in Hc; lia.
Qed.

Lemma has_digits (c : ascii) (n : nat) :
  (nat_of_ascii c < 48 \/ 57 < nat_of_ascii c)%nat ->
  forall z, has c (Datetime.digits n z) = false.
Proof.
  intros Hc. induction n as [|n IH]; intros z; [reflexivity|].
  cbn [Datetime.digits]. rewrite has_app, IH. cbn [has].
  now rewrite (digit_is_digit z c Hc).
Qed.

Lemma has_date (c : ascii) (wall : Z) :
  (nat_of_ascii c < 48 \/ 57 < nat_of_ascii c)%nat -> c <> "-"%char ->
  has c (Datetime.date_isoformat wall) = false.
Proof.
  intros Hc Hd. unfold Datetime.date_isoformat.
  destruct (Datetime.civil_from_days (wall / Datetime.us_per_day)) as [[y m] d].
  rewrite !has_app, !(has_digits c _ Hc). cbn [has].
  destruct (Ascii.eqb_spec "-"%char c); [congruence | reflexivity].
Qed.

Lemma length_append (a b : string) :
  String.length (a ++ b)%string = (String.length a + String.length b)%nat.
Proof. induction a as [|x a IH]; simpl; [reflexivity | now rewrite IH]. Qed.

Lemma length_digits (n : nat) : forall z, String.length (Datetime.digits n z) = n.
Proof.
  induction n as [|n IH]; intros z; [reflexivity|].
  cbn [Datetime.digits]. rewrite length_append, IH. simpl. lia.
Qed.

Lemma length_filename (wall : Z) :
  String.length (Datetime.date_isoformat wall ++ "_false_color.png")%string = 26%nat.
Proof.
  unfold Datetime.date_isoformat.
  destruct (Datetime.civil_from_days (wall / Datetime.us_per_day)) as [[y m] d].
  rewrite !length_append, !length_digits. reflexivity.
Qed.

Lemma filename_component (wall : Z) :
  component (Datetime.date_isoformat wall ++ "_false_color.png").
Proof.
  repeat split.
  - rewrite has_app, has_date; [reflexivity | left; apply Nat.ltb_lt; reflexivity | discriminate].
  - intros H. apply (f_equal String.length) in H. rewrite length_filename in H. discriminate.
  - intros H. apply (f_equal String.length) in H. rewrite length_filename in H. discriminate.
Qed.

Lemma filename_portable (wall : Z) :
  portable (Datetime.date_isoformat wall ++ "_false_color.png").
Proof.
  unfold portable. rewrite has_app, has_date; [reflexivity | right; apply Nat.ltb_lt; reflexivity | discriminate].
Qed.

Lemma replace_clears (c d : ascii) (s : string) :
  c <> d -> has c (replace (String c EmptyString) (String d EmptyString) s) = false.
Proof.
  intros Hcd. unfold replace. induction s as [|a s IH]; [reflexivity|].
  cbn [replace_from String.prefix String.length Nat.pred].
  destruct (ascii_dec c a) as [<-|Hne].
  - assert (E : String.prefix "" s = true) by (destruct s; reflexivity).
    rewrite E.
    change (has c (String d (replace_from (String c "") (String d "") 0 s)) = false).
    cbn [has]. rewrite IH. destruct (Ascii.eqb_spec d c); [congruence | reflexivity].
  - cbn [has]. rewrite IH. destruct (Ascii.eqb_spec a c); [congruence | reflexivity].
Qed.

Lemma replace_twice (s : string) :
  replace "\" "/" (replace "\" "/" s) = replace "\" "/" s.
Proof. apply replace_absent, replace_clears. discriminate. Qed.

Lemma save_png_run (aoi_id date_str : string) (png : bytes) (w : World) (s : State) :
  save_png aoi_id date_str png w s =
  let path := str (joinpath (joinpath (Path (output_dir (settings w))) aoi_id)
                            (date_str ++ "_false_color.png")) in
  (inr (replace "\" "/" path), written path png s).
Proof. reflexivity. Qed.

End StorageFacts.

Section RenderFacts.

Import Py Runtime Lib Main.

Lemma parse_datetime_utc_run (v : json) (w : World) (s : State) :
  parse_datetime_utc v w s = (parsed w v, s).
Proof.
  unfold parsed, parse_datetime_utc. run.
  destruct (as_str v) as [?|x]; [reflexivity|].
  destruct (fromisoformat w (replace "Z" "+00:00" x)); reflexivity.
Qed.

Lemma checked_inr (wall : Z) (tz : option Z) (dt : Datetime.datetime) :
  Datetime.checked wall tz = inr dt ->
  dt = Datetime.mkdt wall tz /\ Datetime.in_range wall = true.
Proof.
  unfold Datetime.checked. destruct (Datetime.in_range wall); [|discriminate].
  intros [= <-]. now split.
Qed.

Lemma astimezone_utc_inr (off : Z -> Z) (dt u : Datetime.datetime) :
  Datetime.astimezone_utc off dt = inr u ->
  Datetime.tzinfo u = Some 0 /\ Datetime.in_range (Datetime.wall u) = true.
Proof.
  unfold Datetime.astimezone_utc.
  destruct (Datetime.tzinfo dt); intros H; apply checked_inr in H;
    destruct H as [-> H]; now split.
Qed.

(** A datetime that was read is in UTC and within the supported years. *)
Lemma parsed_utc (w : World) (v : json) (dt : Datetime.datetime) :
  parsed w v = inr dt ->
  Datetime.tzinfo dt = Some 0 /\ Datetime.in_range (Datetime.wall dt) = true.
Proof.
  unfold parsed, parse_datetime_utc. run.
  destruct (as_str v) as [?|x]; [discriminate|].
  destruct (fromisoformat w (replace "Z" "+00:00" x)) as [d|]; [|discriminate].
  cbn [fst]. apply astimezone_utc_inr.
Qed.

Lemma to_z_utc (dt : Datetime.datetime) (w : World) (s : State) :
  Datetime.tzinfo dt = Some 0 -> Datetime.in_range (Datetime.wall dt) = true ->
  to_z dt w s = (inr (replace "+00:00" "Z" (Datetime.isoformat dt)), s).
Proof.
  destruct dt as [wall tz]. cbn [Datetime.tzinfo Datetime.wall]. intros -> Hr.
  unfold to_z, Datetime.astimezone_utc, Datetime.checked. run.
  cbn [Datetime.tzinfo Datetime.wall]. rewrite Z.sub_0_r, Hr. reflexivity.
Qed.

Lemma to_z_run (dt : Datetime.datetime) (w : World) (s : State) :
  to_z dt w s = (fst (to_z dt w (initial 0)), s).
Proof.
  unfold to_z. run.
  destruct (Datetime.astimezone_utc (local_utcoffset w) dt); reflexivity.
Qed.

Lemma window_run (dt : Datetime.datetime) (w : World) (s : State) :
  window dt w s = (window_of w dt, s).
Proof.
  unfold window_of, window. run.
  destruct (Datetime.add_delta dt (- Datetime.us_per_hour)) as [?|before]; [reflexivity|].
  rewrite (to_z_run before w s), (to_z_run before w (initial 0)). run.
  destruct (fst (to_z before w (initial 0))) as [?|time_from]; [reflexivity|].
  destruct (Datetime.add_delta dt Datetime.us_per_hour) as [?|after]; [reflexivity|].
  rewrite (to_z_run after w s), (to_z_run after w (initial 0)). run.
  destruct (fst (to_z after w (initial 0))); reflexivity.
Qed.

End RenderFacts.

Section LayoutClaim.

Import Py Runtime Lib Main.

Example render_vol1 :
  let out := fc_save "vol1" "2026-01-23T10:15:00Z" Sample.world Sample.start in
  fst out = inr (JObj [("aoi_id", JStr "vol1"); ("datetime", JStr "2026-01-23T10:15:00Z");
                       ("file", JStr "output/vol1/2026-01-23_false_color.png");
                       ("url", JStr "/output/vol1/2026-01-23_false_color.png")]) /\
  files (snd out) !! "output/vol1/2026-01-23_false_color.png" = Some Sample.png.
Proof. vm_compute. split; reflexivity. Qed.

(** The date in the file name is the date in UTC. *)
Example render_late_evening :
  let out := fc_save "vol1" "2026-01-23T23:30:00-05:00" Sample.world Sample.start in
  files (snd out) !! "output/vol1/2026-01-24_false_color.png" = Some Sample.png.
Proof. vm_compute. reflexivity. Qed.

(** C9, as stated, fails on an AOI id that contains a backslash: the
    file is written under the id as it is, while the [url] names the path
    with the backslash turned into a slash. *)
Lemma backslash_id_url_differs :
  let out := fc_save "a\b" "2026-01-23T10:15:00Z" Sample.odd_world Sample.start in
  AoiRepo.known Sample.odd_world "a\b" = inr (Some Sample.odd) /\
  fst out = inr (JObj [("aoi_id", JStr "a\b"); ("datetime", JStr "2026-01-23T10:15:00Z");
                       ("file", JStr "output/a/b/2026-01-23_false_color.png");
                       ("url", JStr "/output/a/b/2026-01-23_false_color.png")]) /\
  files (snd out) !! "output/a\b/2026-01-23_false_color.png" = Some Sample.png /\
  files (snd out) !! "output/a/b/2026-01-23_false_color.png" = None /\
  "/output/a/b/2026-01-23_false_color.png"
    <> ("/" ++ "output/a\b/2026-01-23_false_color.png")%string.
Proof. vm_compute. repeat split; discriminate. Qed.

(** C9, amended: for a known AOI id and a datetime that can be read,
    once the render of the window around it returns the image, [GET
    /aois/{id}/fc] stores it under the path that joins the output
    directory, the AOI id and [{date}_false_color.png], [date] being the
    date of the instant in UTC, replacing what that file held, and
    answers with [url] equal to [/] followed by that path with every
    backslash turned into a slash. For an output directory in normal
    form and an id that is one path component the path reads
    [{output_dir}/{aoi_id}/{date}_false_color.png], and when neither
    contains a backslash the [url] is [/] followed by that very path. *)
Theorem fc_save_stores_under_aoi_and_date (w : World) (s s1 : State)
    (aoi_id datetime_utc : string) (aoi : Models.AOI) (dt : Datetime.datetime)
    (tw : string * string) (png : bytes) :
  AoiRepo.known w aoi_id = inr (Some aoi) ->
  parsed w (JStr datetime_utc) = inr dt ->
  window_of w dt = inr tw ->
  Process.fetch_false_color_png (Models.bbox aoi) (fst tw) (snd tw) 1024 1024 w s
    = (inr png, s1) ->
  let filename := (Datetime.date_isoformat (Datetime.wall dt) ++ "_false_color.png")%string in
  let path := Storage.str (Storage.joinpath
                (Storage.joinpath (Storage.Path (output_dir (settings w))) aoi_id) filename) in
  let shown := replace "\" "/" path in
  Datetime.tzinfo dt = Some 0 /\
  fc_save aoi_id datetime_utc w s
  = (inr (JObj [("aoi_id", JStr aoi_id);
                ("datetime", JStr (replace "+00:00" "Z" (Datetime.isoformat dt)));
                ("file", JStr shown); ("url", JStr ("/" ++ shown))]),
     Storage.written path png s1) /\
  files (Storage.written path png s1) !! path = Some png /\
  (forall other, other <> path ->
     files (Storage.written path png s1) !! other = files s1 !! other) /\
  (Storage.normal_dir (output_dir (settings w)) -> Storage.component aoi_id ->
   path = (output_dir (settings w) ++ "/" ++ aoi_id ++ "/" ++ filename)%string /\
   (Storage.portable (output_dir (settings w)) -> Storage.portable aoi_id -> shown = path)).
Proof.
  intros Hk Hp Hw Hf filename path shown.
  destruct (parsed_utc w _ dt Hp) as [Htz Hr].
  split; [exact Htz|]. split; [|split; [|split]].
  - unfold fc_save, bind. rewrite get_aoi_run, Hk, parse_datetime_utc_run, Hp.
    rewrite window_run, Hw, Hf, save_png_run. cbv beta iota zeta.
    rewrite replace_twice, (to_z_utc dt w _ Htz Hr). reflexivity.
  - cbn [files Storage.written]. apply lookup_insert_eq.
  - intros other Hne. cbn [files Storage.written]. now apply lookup_insert_ne.
  - intros Hd Ha.
    assert (Hpath : path = (output_dir (settings w) ++ "/" ++ aoi_id ++ "/" ++ filename)%string).
    { unfold path, filename.
      apply out_path_layout; [exact Hd | exact Ha | apply filename_component]. }
    split; [exact Hpath|]. intros Hdp Hap. unfold shown. rewrite Hpath.
    apply replace_absent. rewrite !has_app.
    unfold Storage.portable in Hdp, Hap. rewrite Hdp, Hap.
    pose proof (filename_portable (Datetime.wall dt)) as Hfn.
    unfold Storage.portable in Hfn. fold filename in Hfn. rewrite Hfn. reflexivity.
Qed.

Lemma fc_save_stores_under_aoi_and_date_witness :
  let path := "output/vol1/2026-01-23_false_color.png" in
  let s1 := snd (Process.fetch_false_color_png (Models.bbox Sample.vol1)
                   "2026-01-23T09:15:00Z" "2026-01-23T11:15:00Z" 1024 1024
                   Sample.world Sample.start) in
  fc_save "vol1" "2026-01-23T10:15:00Z" Sample.world Sample.start
  = (inr (JObj [("aoi_id", JStr "vol1"); ("datetime", JStr "2026-01-23T10:15:00Z");
                ("file", JStr path); ("url", JStr ("/" ++ path))]),
     Storage.written path Sample.png s1) /\
  files (Storage.written path Sample.png s1) !! path = Some Sample.png.
Proof.
  destruct (fc_save_stores_under_aoi_and_date Sample.world Sample.start
              (snd (Process.fetch_false_color_png (Models.bbox Sample.vol1)
                      "2026-01-23T09:15:00Z" "2026-01-23T11:15:00Z" 1024 1024
                      Sample.world Sample.start))
              "vol1" "2026-01-23T10:15:00Z" Sample.vol1
              (Datetime.mkdt 1769163300000000 (Some 0))
              ("2026-01-23T09:15:00Z", "2026-01-23T11:15:00Z") Sample.png)
    as (_ & Hrun & Hfile & _).
  - vm_compute. reflexivity.
  - vm_compute. reflexivity.
  - vm_compute. reflexivity.
  - vm_compute. reflexivity.
  - split; [exact Hrun | exact Hfile].
Defined.

End LayoutClaim.

Section MissingDatetimeClaim.

Import Py Runtime Lib Main.

Example timeless_single :
  fst (latest_fc "vol1" 30 (Sample.q 80 1) Sample.timeless Sample.start)
  = inr (nothing_rendered "vol1").
Proof. vm_compute. reflexivity. Qed.

Example timeless_batch :
  fst (latest_fc_all 30 (Sample.q 80 1) 2 Sample.timeless Sample.start)
  = inr (batch_answer
           [item Sample.vol1 [("error", JObj [("message", JStr "scene missing datetime")])];
            item Sample.vol2_built
              [("error", JObj [("message", JStr "scene missing datetime")])]]).
Proof. vm_compute. reflexivity. Qed.

Lemma undated_truthy (f : json) : undated f -> truthy f = true.
Proof. intros (m & -> & Hne & _). destruct m; [congruence | reflexivity]. Qed.

Lemma undated_datetime (f : json) :
  undated f ->
  exists props d,
    get_default f "properties" (JObj []) = inr props /\
    py_or props (JObj []) = props /\
    get props "datetime" = inr d /\ truthy d = false.
Proof.
  intros (m & -> & _ & [Hp|(pm & Hp & Hd)]); cbn [get_default]; rewrite Hp.
  - exists (JObj []), JNull. repeat split.
  - exists (JObj pm), (match assoc "datetime" pm with Some x => x | None => JNull end).
    split; [reflexivity|]. split; [destruct pm; reflexivity|].
    split; [apply get_obj|].
    destruct (assoc "datetime" pm); [exact Hd | reflexivity].
Qed.

(** The two handlers on a feature that is there, has no datetime, and
    whose [properties] is a dict or absent: [GET /aois/{id}/latest-fc]
    answers [{aoi_id, datetime: null, file: null, url: null}], the very
    answer it gives when there is no scene, whereas the task of [GET
    /latest-fc-all] returns for that AOI an error record with the message
    'scene missing datetime'. *)
Theorem missing_datetime_single_and_batch :
  (forall w s s1 aoi_id aoi days cloud feature,
     AoiRepo.known w aoi_id = inr (Some aoi) ->
     Catalog.find_latest_s2_scene (Models.bbox aoi) days cloud w s = (inr feature, s1) ->
     undated feature ->
     latest_fc aoi_id days cloud w s = (inr (nothing_rendered aoi_id), s1)) /\
  (forall w s s1 aoi_id aoi days cloud,
     AoiRepo.known w aoi_id = inr (Some aoi) ->
     Catalog.find_latest_s2_scene (Models.bbox aoi) days cloud w s = (inr JNull, s1) ->
     latest_fc aoi_id days cloud w s = (inr (nothing_rendered aoi_id), s1)) /\
  (forall w s s1 a days cloud feature,
     Catalog.find_latest_s2_scene (Models.bbox a) days cloud w s = (inr feature, s1) ->
     undated feature ->
     latest_fc_all_one days cloud a w s
     = (inr (item a [("error", JObj [("message", JStr "scene missing datetime")])]), s1)).
Proof.
  split; [|split].
  - intros w s s1 aoi_id aoi days cloud feature Hk Hf Hu.
    destruct (undated_datetime feature Hu) as (props & d & Hp & _ & Hd & Hfalse).
    unfold latest_fc, bind. rewrite get_aoi_run, Hk. unfold try_except. rewrite Hf.
    rewrite (undated_truthy feature Hu). cbn [negb]. unfold lift. rewrite Hp, Hd, Hfalse.
    reflexivity.
  - intros w s s1 aoi_id aoi days cloud Hk Hf.
    unfold latest_fc, bind. rewrite get_aoi_run, Hk. unfold try_except. rewrite Hf.
    reflexivity.
  - intros w s s1 a days cloud feature Hf Hu.
    destruct (undated_datetime feature Hu) as (props & d & Hp & Hor & Hd & Hfalse).
    unfold latest_fc_all_one, try_except, latest_fc_all_body, bind. rewrite Hf.
    rewrite (undated_truthy feature Hu). cbn [negb]. unfold lift. rewrite Hp, Hor, Hd, Hfalse.
    reflexivity.
Qed.

Lemma missing_datetime_single_and_batch_witness :
  latest_fc "vol1" 30 (Sample.q 80 1) Sample.timeless Sample.start
  = (inr (nothing_rendered "vol1"),
     snd (Catalog.find_latest_s2_scene (Models.bbox Sample.vol1) 30 (Sample.q 80 1)
            Sample.timeless Sample.start)) /\
  latest_fc "vol1" 30 (Sample.q 80 1) Sample.quiet Sample.start
  = (inr (nothing_rendered "vol1"),
     snd (Catalog.find_latest_s2_scene (Models.bbox Sample.vol1) 30 (Sample.q 80 1)
            Sample.quiet Sample.start)) /\
  latest_fc_all_one 30 (Sample.q 80 1) Sample.vol1 Sample.timeless Sample.start
  = (inr (item Sample.vol1 [("error", JObj [("message", JStr "scene missing datetime")])]),
     snd (Catalog.find_latest_s2_scene (Models.bbox Sample.vol1) 30 (Sample.q 80 1)
            Sample.timeless Sample.start)).
Proof.
  destruct missing_datetime_single_and_batch as [H1 [H2 H3]].
  assert (Hu : undated Sample.undated).
  { eexists. split; [reflexivity|]. split; [discriminate|]. right.
    eexists. split; [reflexivity | exact I]. }
  split; [|split].
  - apply (H1 Sample.timeless Sample.start _ "vol1" Sample.vol1 30 (Sample.q 80 1)
              Sample.undated); [vm_compute; reflexivity | vm_compute; reflexivity | exact Hu].
  - apply (H2 Sample.quiet Sample.start _ "vol1" Sample.vol1 30 (Sample.q 80 1));
      vm_compute; reflexivity.
  - apply (H3 Sample.timeless Sample.start _ Sample.vol1 30 (Sample.q 80 1) Sample.undated);
      [vm_compute; reflexivity | exact Hu].
Defined.

(** C10: a selected feature that is there but has no datetime should get
    the all-null answer from [GET /aois/{id}/latest-fc] and the 'scene
    missing datetime' record from [GET /latest-fc-all]. For a feature
    whose [properties] is [null] the batch task does so, guarded by
    [or {}] as [key_fn] is; the single handler reads [properties] without
    that guard and raises [AttributeError]. *)
Theorem null_properties_breaks_latest_fc :
  fst (Catalog.find_latest_s2_scene (Models.bbox Sample.vol1) 30 (Sample.q 80 1)
         Sample.hollowed Sample.start) = inr Sample.hollow /\
  truthy Sample.hollow = true /\ Catalog.lacks_datetime Sample.hollow /\
  fst (latest_fc "vol1" 30 (Sample.q 80 1) Sample.hollowed Sample.start)
    = inl (AttributeError "object has no attribute 'get'") /\
  fst (latest_fc_all_one 30 (Sample.q 80 1) Sample.vol1 Sample.hollowed Sample.start)
    = inr (item Sample.vol1 [("error", JObj [("message", JStr "scene missing datetime")])]).
Proof.
  split; [vm_compute; reflexivity|]. split; [reflexivity|]. split.
  - eexists. split; [reflexivity|]. left. reflexivity.
  - split; vm_compute; reflexivity.
Qed.

End MissingDatetimeClaim.

(* ===================================================================== *)
(** * The batch handlers *)
(* ===================================================================== *)

Section ScheduleFacts.

Import Py Runtime Lib Main.

Lemma first_mentions_in (l : list nat) :
  forall seen i, In i (first_mentions seen l) -> In i l /\ ~ In i seen.
Proof.
  induction l as [|x l IH]; intros seen i; cbn [first_mentions]; [intros []|].
  destruct (existsb (Nat.eqb x) seen) eqn:E.
  - intros H. destruct (IH seen i H). split; [now right | assumption].
  - intros [<-|H].
    + split; [now left|]. intros Hin.
      assert (Ht : existsb (Nat.eqb x) seen = true).
      { apply existsb_exists. exists x. split; [exact Hin | apply Nat.eqb_refl]. }
      congruence.
    + destruct (IH (x :: seen) i H) as [Hi Hs]. split; [now right|].
      intros Hin. apply Hs. now right.
Qed.

Lemma first_mentions_once (l : list nat) : forall seen, List.NoDup (first_mentions seen l).
Proof.
  induction l as [|x l IH]; intros seen; cbn [first_mentions]; [constructor|].
  destruct (existsb (Nat.eqb x) seen); [apply IH|].
  constructor; [|apply IH].
  intros H. apply first_mentions_in in H. destruct H as [_ H]. apply H. now left.
Qed.

Lemma first_mentions_fresh (l : list nat) :
  forall seen, List.NoDup l -> (forall i, In i l -> ~ In i seen) ->
               first_mentions seen l = l.
Proof.
  induction l as [|x l IH]; intros seen Hnd Hfresh; cbn [first_mentions]; [reflexivity|].
  inversion Hnd as [|? ? Hx Hl]; subst.
  destruct (existsb (Nat.eqb x) seen) eqn:E.
  - apply existsb_exists in E. destruct E as (j & Hj & Hxj).
    apply Nat.eqb_eq in Hxj. subst j. destruct (Hfresh x (or_introl eq_refl) Hj).
  - f_equal. apply IH; [exact Hl|].
    intros i Hi [<-|Hs]; [contradiction | exact (Hfresh i (or_intror Hi) Hs)].
Qed.

(** The order of a run is a permutation of the tasks: every task is in
    it, once, and nothing else is. *)
Lemma run_order_once (sched : list nat) (n : nat) : List.NoDup (run_order sched n).
Proof.
  unfold run_order. cbv zeta.
  apply List.NoDup_app; [apply first_mentions_once | apply List.NoDup_filter, seq_NoDup |].
  intros i Hi Hf. apply filter_In in Hf. destruct Hf as [_ Hf].
  apply negb_true_iff in Hf.
  assert (Ht : existsb (Nat.eqb i)
                 (first_mentions [] (List.filter (fun i => (i <? n)%nat) sched)) = true).
  { apply existsb_exists. exists i. split; [exact Hi | apply Nat.eqb_refl]. }
  congruence.
Qed.

Lemma run_order_tasks (sched : list nat) (n i : nat) :
  In i (run_order sched n) -> (i < n)%nat.
Proof.
  unfold run_order. cbv zeta. intros H. apply in_app_or in H. destruct H as [H|H].
  - apply first_mentions_in in H. destruct H as [H _].
    apply filter_In in H. destruct H as [_ H]. now apply Nat.ltb_lt.
  - apply filter_In in H. destruct H as [H _]. apply in_seq in H. lia.
Qed.

(** Every order of the tasks is the order of some schedule: a schedule
    that lists tasks without repeating one is followed as it is. *)
Lemma run_order_follows_schedule (sched : list nat) (n : nat) :
  List.NoDup sched -> Forall (fun i => (i < n)%nat) sched ->
  exists rest, run_order sched n = (sched ++ rest)%list.
Proof.
  intros Hnd Hall. unfold run_order. cbv zeta.
  assert (Hf : List.filter (fun i => (i <? n)%nat) sched = sched).
  { clear Hnd. induction Hall as [|x l Hx _ IH]; [reflexivity|].
    cbn [List.filter]. apply Nat.ltb_lt in Hx. now rewrite Hx, IH. }
  rewrite Hf, (first_mentions_fresh sched [] Hnd) by (intros ? _ []).
  eexists. reflexivity.
Qed.

Example second_task_first : run_order [1; 0]%nat 5 = [1; 0; 2; 3; 4]%nat.
Proof. reflexivity. Qed.

End ScheduleFacts.

Section GatherFacts.

Import Py Runtime Lib Main.

Context {A : Type}.
Variable w : World.
Variable tasks : list (M A).
Variable P : nat -> A -> Prop.

(** Every task returns, whatever the state it starts in. *)
Hypothesis tasks_return :
  forall i t si, tasks !! i = Some t -> exists r si', t w si = (inr r, si') /\ P i r.

Lemma run_tasks_total (order : list nat) :
  forall (slots : list (option A)) (s : State),
    (forall i r, slots !! i = Some (Some r) -> P i r) ->
    exists slots' s',
      run_tasks tasks order slots w s = (inr slots', s') /\
      List.length slots' = List.length slots /\
      (forall i r, slots' !! i = Some (Some r) -> P i r) /\
      (forall i, (i < List.length slots)%nat ->
         (In i order /\ (i < List.length tasks)%nat) \/ (exists r, slots !! i = Some (Some r)) ->
         exists r, slots' !! i = Some (Some r)).
Proof.
  induction order as [|i rest IH]; intros slots s Hinv.
  - exists slots, s. repeat split; auto.
    intros i _ [[[] _]|H]; exact H.
  - cbn [run_tasks]. destruct (tasks !! i) as [t|] eqn:Ht.
    + destruct (tasks_return i t s Ht) as (r & s1 & Hrun & Hr).
      unfold bind. rewrite Hrun.
      destruct (IH (<[i := Some r]> slots) s1) as (slots' & s' & Hgo & Hlen & Hinv' & Hfill).
      { intros j r' Hj. destruct (decide (i = j)) as [<-|Hne].
        - destruct (lt_dec i (List.length slots)) as [Hlt|Hge].
          + rewrite list_lookup_insert_eq in Hj by exact Hlt. now injection Hj as <-.
          + rewrite list_insert_ge in Hj by lia. now apply Hinv.
        - rewrite list_lookup_insert_ne in Hj by exact Hne. now apply Hinv. }
      exists slots', s'. rewrite length_insert in Hlen. repeat split; auto.
      intros j Hj Hcase. apply Hfill; [now rewrite length_insert|].
      destruct (decide (i = j)) as [<-|Hne].
      * right. exists r. now apply list_lookup_insert_eq.
      * destruct Hcase as [[[Heq|Hin] Hlt]|(r' & Hr')]; [contradiction | now left |].
        right. exists r'. now rewrite list_lookup_insert_ne.
    + destruct (IH slots s Hinv) as (slots' & s' & Hgo & Hlen & Hinv' & Hfill).
      exists slots', s'. repeat split; auto.
      intros j Hj Hcase. apply Hfill; [exact Hj|].
      destruct Hcase as [[[<-|Hin] Hlt]|H]; [|now left|now right].
      apply lookup_ge_None in Ht. lia.
Qed.

Lemma collect_total (slots : list (option A)) (s : State) :
  (forall i, (i < List.length slots)%nat -> exists r, slots !! i = Some (Some r)) ->
  exists rs,
    collect slots w s = (inr rs, s) /\
    List.length rs = List.length slots /\
    (forall i r, rs !! i = Some r -> slots !! i = Some (Some r)).
Proof.
  induction slots as [|o slots IH]; intros H.
  - exists []. repeat split. intros i r Hi. destruct i; discriminate Hi.
  - destruct (H 0%nat) as (r0 & Hr0); [simpl; lia|]. injection Hr0 as ->.
    destruct IH as (rs & Hrs & Hlen & Hlook).
    { intros i Hi. apply (H (S i)). simpl. lia. }
    exists (r0 :: rs). cbn [collect]. unfold bind. rewrite Hrs. repeat split.
    + simpl. now rewrite Hlen.
    + intros [|i] r Hi; [exact (f_equal Some Hi) | now apply Hlook].
Qed.

Lemma lookup_repeat_None (n i : nat) (v : option A) :
  List.repeat None n !! i = Some v -> v = None.
Proof.
  revert i. induction n as [|n IH]; intros [|i] H; try discriminate H.
  - now injection H as <-.
  - now apply (IH i).
Qed.

Lemma run_order_covers (sched : list nat) (n i : nat) :
  (i < n)%nat -> In i (run_order sched n).
Proof.
  intros Hi. unfold run_order. cbv zeta. apply in_or_app.
  destruct (existsb (Nat.eqb i)
              (first_mentions [] (List.filter (fun i => (i <? n)%nat) sched))) eqn:E.
  - left. apply existsb_exists in E. destruct E as (j & Hj & Hij).
    apply Nat.eqb_eq in Hij. now subst.
  - right. apply filter_In. split; [apply in_seq; lia | now rewrite E].
Qed.

(** [gather] returns the result of every task, each under the index of
    its task, whatever the order they ran in. *)
Lemma gather_total (s : State) :
  exists rs s',
    gather tasks w s = (inr rs, s') /\
    List.length rs = List.length tasks /\
    (forall i r, rs !! i = Some r -> P i r).
Proof.
  unfold gather, bind, ask.
  destruct (run_tasks_total (run_order (schedule w) (List.length tasks))
              (List.repeat None (List.length tasks)) s)
    as (slots & s' & Hrun & Hlen & Hinv & Hfill).
  { intros i r Hi. apply lookup_repeat_None in Hi. discriminate Hi. }
  rewrite Hrun. rewrite repeat_length in Hlen, Hfill.
  destruct (collect_total slots s') as (rs & Hrs & Hlen' & Hlook).
  { intros i Hi. rewrite Hlen in Hi. apply Hfill; [exact Hi|]. left.
    split; [now apply run_order_covers | exact Hi]. }
  exists rs, s'. rewrite Hrs. repeat split; [congruence|].
  intros i r Hi. apply Hinv. now apply Hlook.
Qed.

End GatherFacts.

Section BatchFacts.

Import Py Runtime Lib Main.

Lemma item_of_exn_run (where_ : option string) (a : Models.AOI) (e : exn)
    (w : World) (s : State) :
  item_of_exn where_ a e w s = (inr (item a [("error", error_of where_ w e)]), s).
Proof. destruct e; reflexivity. Qed.

Lemma lookup_map {X Y : Type} (f : X -> Y) (l : list X) (i : nat) (y : Y) :
  map f l !! i = Some y -> exists x, l !! i = Some x /\ y = f x.
Proof.
  revert i. induction l as [|x l IH]; intros [|i] H; try discriminate H.
  - injection H as <-. now exists x.
  - now apply IH.
Qed.

(** What the guarded part of a task returns is a record of its AOI. *)
Lemma latest_scenes_body_item (days : Z) (cloud : Q) (a : Models.AOI) (w : World) (s : State) :
  forall r, fst (latest_scenes_body days cloud a w s) = inr r ->
            exists members, r = item a members.
Proof.
  intros r. unfold latest_scenes_body, bind.
  destruct (Catalog.find_latest_s2_scene (Models.bbox a) days cloud w s) as [[e|f] s1];
    [discriminate|].
  destruct (truthy f); cbn [negb]; [|intros [= <-]; eauto].
  unfold lift, ret.
  destruct (get_default f "properties" (JObj [])) as [?|props]; [discriminate|].
  destruct (get props "datetime"); [discriminate|].
  destruct (get props "eo:cloud_cover"); [discriminate|].
  destruct (get f "id"); [discriminate|].
  intros [= <-]. eauto.
Qed.

Lemma latest_fc_all_body_item (days : Z) (cloud : Q) (a : Models.AOI) (w : World) (s : State) :
  forall r, fst (latest_fc_all_body days cloud a w s) = inr r ->
            exists members, r = item a members.
Proof.
  intros r. unfold latest_fc_all_body, bind.
  destruct (Catalog.find_latest_s2_scene (Models.bbox a) days cloud w s) as [[e|f] s1];
    [discriminate|].
  destruct (truthy f); cbn [negb]; [|intros [= <-]; eauto].
  unfold lift.
  destruct (get_default f "properties" (JObj [])) as [?|props]; [discriminate|].
  destruct (get (py_or props (JObj [])) "datetime") as [?|dt_str]; [discriminate|].
  destruct (truthy dt_str); cbn [negb]; [|intros [= <-]; eauto].
  rewrite parse_datetime_utc_run.
  destruct (parsed w dt_str) as [?|dt]; [discriminate|].
  rewrite window_run. destruct (window_of w dt) as [?|tw]; [discriminate|].
  destruct (Process.fetch_false_color_png _ _ _ _ _ w s1) as [[?|png] s2]; [discriminate|].
  rewrite save_png_run. cbv zeta. unfold ret. intros [= <-]. eauto.
Qed.

(** A task never raises: its entry is the record of the guarded part or
    the error record of what that raised. *)
Lemma task_returns_entry (body : M json) (where_ : option string) (a : Models.AOI)
    (w : World) (s : State) :
  (forall r, fst (body w s) = inr r -> exists members, r = item a members) ->
  exists r s',
    try_except body (item_of_exn where_ a) w s = (inr r, s') /\ entry body where_ w a s r.
Proof.
  intros Hitem. unfold try_except, entry.
  destruct (body w s) as [[e|x] s1] eqn:E; cbn [fst] in *.
  - rewrite item_of_exn_run. do 2 eexists. split; [reflexivity|]. split; eauto.
  - do 2 eexists. split; [reflexivity|]. split; auto.
Qed.

(** [gather] over the tasks of a batch: one entry for each AOI, in the
    order of the AOIs. *)
Lemma gather_entries (one : Models.AOI -> M json) (Q : Models.AOI -> json -> Prop)
    (aois : list Models.AOI) (w : World) (s : State) :
  (forall a si, exists r si', one a w si = (inr r, si') /\ Q a r) ->
  exists results s',
    gather (map one aois) w s = (inr results, s') /\ Forall2 Q aois results.
Proof.
  intros Hone.
  destruct (gather_total w (map one aois)
              (fun i r => exists a, aois !! i = Some a /\ Q a r)) with (s := s)
    as (rs & s' & Hrun & Hlen & Hall).
  { intros i t si Hi. apply lookup_map in Hi. destruct Hi as (a & Ha & ->).
    destruct (Hone a si) as (r & si' & Hr & Hq). exists r, si'. split; eauto. }
  exists rs, s'. split; [exact Hrun|].
  apply Forall2_same_length_lookup_2.
  - now rewrite Hlen, length_map.
  - intros i a r Ha Hr. destruct (Hall i r Hr) as (a' & Ha' & Hq). congruence.
Qed.

End BatchFacts.

Section BatchClaim.

Import Py Runtime Lib Main.

Example five_sites_scenes :
  match fst (latest_scenes 30 (Sample.q 80 1) 2 Sample.third_fails Sample.start) with
  | inr (JObj [("count", n); ("results", JArr rs)]) =>
      n = jnum 5 /\
      map (fun r => get r "aoi_id") rs
        = [inr (JStr "site1"); inr (JStr "site2"); inr (JStr "site3");
           inr (JStr "site4"); inr (JStr "site5")] /\
      map failed rs = [false; false; true; false; false]
  | _ => False
  end.
Proof. vm_compute. repeat split. Qed.

Example five_sites_renders :
  match fst (latest_fc_all 30 (Sample.q 80 1) 2 Sample.third_fails Sample.start) with
  | inr (JObj [("count", n); ("results", JArr rs)]) =>
      n = jnum 5 /\
      map (fun r => get r "aoi_id") rs
        = [inr (JStr "site1"); inr (JStr "site2"); inr (JStr "site3");
           inr (JStr "site4"); inr (JStr "site5")] /\
      map failed rs = [false; false; true; false; false]
  | _ => False
  end.
Proof. vm_compute. repeat split. Qed.

(** The tasks need not run in the order of the AOIs. Here the event
    loop takes the task of the second site first: its search is the
    first to reach the catalog and is the one that fails, and its entry
    is still the second of the answer. *)
Example second_site_runs_first :
  let out := latest_scenes 30 (Sample.q 80 1) 2 Fixtures.early_failure Sample.start in
  schedule Fixtures.early_failure = [1; 0]%nat /\
  Notions.searched (trace (snd out))
    = map Models.bbox [Sample.site 2; Sample.site 1; Sample.site 3; Sample.site 4;
                       Sample.site 5] /\
  match fst out with
  | inr (JObj [("count", n); ("results", JArr rs)]) =>
      n = jnum 5 /\
      map (fun r => get r "aoi_id") rs
        = [inr (JStr "site1"); inr (JStr "site2"); inr (JStr "site3");
           inr (JStr "site4"); inr (JStr "site5")] /\
      map failed rs = [false; true; false; false; false]
  | _ => False
  end.
Proof. vm_compute. repeat split. Qed.

(** C1: whatever the AOIs on file and whatever each of them meets (a
    scene, no scene, an upstream HTTP error, any other exception), [GET
    /latest-scenes] and [GET /latest-fc-all] return a list with exactly
    one entry for each AOI, in the order of the AOIs; the entry is a
    record of its AOI, the error record of the exception when the task
    failed; the call itself does not fail and no entry is left out. *)
Theorem batch_keeps_one_entry_per_aoi (w : World) (s : State) (days : Z) (cloud : Q)
    (concurrency : Z) (aois : list Models.AOI) :
  AoiRepo.loaded w = inr aois ->
  (exists results s',
     latest_scenes days cloud concurrency w s = (inr (batch_answer results), s') /\
     Forall2 (fun a r => exists si,
                entry (latest_scenes_body days cloud a) (Some "catalog.search") w a si r)
             aois results) /\
  (exists results s',
     latest_fc_all days cloud concurrency w s = (inr (batch_answer results), s') /\
     Forall2 (fun a r => exists si, entry (latest_fc_all_body days cloud a) None w a si r)
             aois results) /\
  (forall a si e,
     fst (Catalog.find_latest_s2_scene (Models.bbox a) days cloud w si) = inl e ->
     fst (latest_scenes_body days cloud a w si) = inl e /\
     fst (latest_fc_all_body days cloud a w si) = inl e) /\
  (forall a si f,
     fst (Catalog.find_latest_s2_scene (Models.bbox a) days cloud w si) = inr f ->
     truthy f = false ->
     fst (latest_scenes_body days cloud a w si) = inr (item a [("scene", JNull)]) /\
     fst (latest_fc_all_body days cloud a w si)
       = inr (item a [("datetime", JNull); ("file", JNull); ("url", JNull)])).
Proof.
  intros Hload. split; [|split; [|split]].
  - destruct (gather_entries (latest_scenes_one days cloud)
                (fun a r => exists si,
                   entry (latest_scenes_body days cloud a) (Some "catalog.search") w a si r)
                aois w s) as (results & s' & Hrun & Hall).
    { intros a si.
      destruct (task_returns_entry (latest_scenes_body days cloud a) (Some "catalog.search")
                  a w si (latest_scenes_body_item days cloud a w si)) as (r & si' & Hr & He).
      exists r, si'. split; [exact Hr | now exists si]. }
    exists results, s'. split; [|exact Hall].
    unfold latest_scenes, bind. now rewrite load_aois_run, Hload, Hrun.
  - destruct (gather_entries (latest_fc_all_one days cloud)
                (fun a r => exists si, entry (latest_fc_all_body days cloud a) None w a si r)
                aois w s) as (results & s' & Hrun & Hall).
    { intros a si.
      destruct (task_returns_entry (latest_fc_all_body days cloud a) None
                  a w si (latest_fc_all_body_item days cloud a w si)) as (r & si' & Hr & He).
      exists r, si'. split; [exact Hr | now exists si]. }
    exists results, s'. split; [|exact Hall].
    unfold latest_fc_all, bind. now rewrite load_aois_run, Hload, Hrun.
  - intros a si e. unfold latest_scenes_body, latest_fc_all_body, bind.
    destruct (Catalog.find_latest_s2_scene (Models.bbox a) days cloud w si) as [[e'|f] s1];
      cbn [fst]; [|discriminate]. now intros [= ->].
  - intros a si f. unfold latest_scenes_body, latest_fc_all_body, bind.
    destruct (Catalog.find_latest_s2_scene (Models.bbox a) days cloud w si) as [[e'|f'] s1];
      cbn [fst]; [discriminate|]. intros [= ->] ->. now split.
Qed.

Lemma batch_keeps_one_entry_per_aoi_witness :
  (exists results s',
     latest_scenes 30 (Sample.q 80 1) 2 Sample.third_fails Sample.start
       = (inr (batch_answer results), s') /\
     Forall2 (fun a r => exists si,
                entry (latest_scenes_body 30 (Sample.q 80 1) a) (Some "catalog.search")
                      Sample.third_fails a si r)
             Sample.five results) /\
  (exists results s',
     latest_fc_all 30 (Sample.q 80 1) 2 Sample.third_fails Sample.start
       = (inr (batch_answer results), s') /\
     Forall2 (fun a r => exists si,
                entry (latest_fc_all_body 30 (Sample.q 80 1) a) None
                      Sample.third_fails a si r)
             Sample.five results).
Proof.
  destruct (batch_keeps_one_entry_per_aoi Sample.third_fails Sample.start 30 (Sample.q 80 1) 2
              Sample.five) as (H1 & H2 & _).
  - vm_compute. reflexivity.
  - split; [exact H1 | exact H2].
Defined.

End BatchClaim.

(* ===================================================================== *)
(** * Further properties of the AOI validator *)
(* ===================================================================== *)

Section ModelsMore.

Import Py Models Notions.

Lemma check_bbox_inr (c c' : AOI) :
  check_bbox c = inr c' ->
  c' = c /\ exists b, bbox c = Some b /\ List.length b = 4%nat.
Proof.
  unfold check_bbox. destruct (bbox c) as [[|x b]|]; try discriminate.
  destruct (List.length (x :: b) =? 4)%nat eqn:E; [|discriminate].
  intros [= <-]. split; [reflexivity|]. exists (x :: b). split; [reflexivity|].
  now apply Nat.eqb_eq.
Qed.

Lemma check_bbox_four (c : AOI) (b : list json) :
  bbox c = Some b -> List.length b = 4%nat -> check_bbox c = inr c.
Proof.
  intros Hb Hl. unfold check_bbox. rewrite Hb.
  destruct b as [|x b]; [discriminate|]. now rewrite Hl.
Qed.

(** What construction keeps and what it leaves behind. *)
Lemma ensure_bbox_inr (a a' : AOI) :
  ensure_bbox a = inr a' ->
  id a' = id a /\ name a' = name a /\ geometry a' = geometry a /\
  exists b, bbox a' = Some b /\ List.length b = 4%nat.
Proof.
  unfold ensure_bbox. destruct (bbox a) as [b|] eqn:Hb.
  - intros H. apply check_bbox_inr in H. destruct H as [-> H]. now repeat split.
  - destruct (geometry a) as [g|] eqn:Hg.
    + destruct (geometry_truthy (Some g)).
      * destruct (negb (type_is_polygon g)); [discriminate|].
        destruct (envelope g) as [e|b]; [discriminate|].
        intros H. apply check_bbox_inr in H. destruct H as [-> H]. now repeat split.
      * intros H. apply check_bbox_inr in H. destruct H as [-> H]. now repeat split.
    + intros H. apply check_bbox_inr in H. destruct H as [-> H]. now repeat split.
Qed.

(** X1: an AOI that was constructed passes the validator again, as it is;
    its id, name and geometry are those supplied. *)
Theorem ensure_bbox_idempotent (a a' : AOI) :
  ensure_bbox a = inr a' ->
  ensure_bbox a' = inr a' /\
  id a' = id a /\ name a' = name a /\ geometry a' = geometry a.
Proof.
  intros H. destruct (ensure_bbox_inr a a' H) as (Hi & Hn & Hg & b & Hb & Hl).
  split; [|now repeat split].
  unfold ensure_bbox. rewrite Hb. now apply (check_bbox_four a' b).
Qed.

Lemma ensure_bbox_idempotent_witness :
  ensure_bbox Sample.vol2_built = inr Sample.vol2_built /\
  id Sample.vol2_built = id Sample.vol2 /\ name Sample.vol2_built = name Sample.vol2 /\
  geometry Sample.vol2_built = geometry Sample.vol2.
Proof. apply (ensure_bbox_idempotent Sample.vol2 Sample.vol2_built). reflexivity. Defined.

(** X2: a bbox that is supplied but does not have four items makes
    construction fail, also beside a sound Polygon geometry: the geometry
    is no fallback for a bad bbox. *)
Theorem bad_bbox_not_repaired_from_geometry (a : AOI) (b : list json) :
  bbox a = Some b -> List.length b <> 4%nat -> ensure_bbox a = inl bbox_error.
Proof.
  intros Hb Hl. unfold ensure_bbox, check_bbox. rewrite Hb.
  destruct b as [|x b]; [reflexivity|].
  destruct (List.length (x :: b) =? 4)%nat eqn:E; [|reflexivity].
  apply Nat.eqb_eq in E. contradiction.
Qed.

Lemma bad_bbox_not_repaired_from_geometry_witness :
  ensure_bbox Fixtures.short_bbox = inl bbox_error.
Proof.
  apply (bad_bbox_not_repaired_from_geometry Fixtures.short_bbox
           (numbers [Sample.q 14 1; Sample.q 50 1; Sample.q 29 2])); [reflexivity | discriminate].
Defined.

Lemma coordinate_exists (i : nat) (ring : list (list Q)) :
  Forall (fun c => (i < List.length c)%nat) ring -> exists xs, coordinate i ring xs.
Proof.
  induction 1 as [|c ring Hc _ [xs IH]]; [exists []; constructor|].
  destruct (nth_error c i) as [x|] eqn:E.
  - exists (x :: xs). now constructor.
  - apply nth_error_None in E. lia.
Qed.

Lemma coordinate_length (i : nat) (ring : list (list Q)) (xs : list Q) :
  coordinate i ring xs -> Forall (fun c => (i < List.length c)%nat) ring.
Proof.
  induction 1 as [|c x ring xs Hc _ IH]; constructor; [|exact IH].
  apply nth_error_Some. congruence.
Qed.

Lemma polygon_truthy (g : Geometry) : type_is_polygon g = true -> geometry_truthy (Some g) = true.
Proof.
  unfold type_is_polygon. simpl. destruct (g_type g); [reflexivity | discriminate].
Qed.

(** A column of a ring of numbers is read, or a position is too short. *)
Lemma column_outcome (i : nat) (ring : list (list Q)) :
  (exists xs, column i (of_ring ring) = inr xs) \/
  column i (of_ring ring) = inl (IndexError "list index out of range").
Proof.
  unfold column, of_ring. cbn [items].
  induction ring as [|c ring IH]; cbn [map column_of]; [left; now exists []|].
  rewrite subscript_numbers. destruct (nth_error c i); [|now right].
  destruct IH as [[xs ->]| ->]; [left; eauto | now right].
Qed.

Lemma column_short (i : nat) (ring : list (list Q)) :
  Exists (fun c => (List.length c <= i)%nat) ring ->
  column i (of_ring ring) = inl (IndexError "list index out of range").
Proof.
  unfold column, of_ring. cbn [items].
  induction 1 as [c ring Hc|c ring _ IH]; cbn [map column_of]; rewrite subscript_numbers.
  - destruct (nth_error c i) eqn:E; [|reflexivity].
    assert (H : nth_error c i <> None) by congruence.
    apply nth_error_Some in H. lia.
  - destruct (nth_error c i); [|reflexivity]. now rewrite IH.
Qed.

(** X3: with no bbox and a Polygon geometry whose first ring is a list
    of positions that are lists of numbers, construction succeeds
    exactly when that ring is not empty and its positions all have at
    least two numbers. *)
Theorem polygon_only_accepted_iff (a : AOI) (g : Geometry) (ring : list (list Q))
    (others : list json) :
  bbox a = None -> geometry a = Some g -> type_is_polygon g = true ->
  g_coordinates g = Some (JArr (of_ring ring :: others)) ->
  ((exists a', ensure_bbox a = inr a') <->
   ring <> [] /\ Forall (fun c => (2 <= List.length c)%nat) ring).
Proof.
  intros Hb Hg Hp Hc. pose proof (polygon_truthy g Hp) as Ht.
  unfold ensure_bbox. rewrite Hb, Hg, Ht, Hp. cbn [negb]. split.
  - intros [a' H]. destruct (envelope g) as [e|b] eqn:He; [discriminate|].
    destruct (envelope_inr g ring others b Hc He)
      as (lons & lats & w & s & e & n & H0 & H1 & _ & [Hw _] & _).
    split.
    + intros ->. inversion H0; subst. destruct Hw.
    + apply (coordinate_length 1 ring lats H1).
  - intros (Hne & Hall).
    destruct (coordinate_exists 0 ring) as [lons H0].
    { eapply Forall_impl; [exact Hall|]. simpl. intros c Hc'. lia. }
    destruct (coordinate_exists 1 ring) as [lats H1].
    { eapply Forall_impl; [exact Hall|]. simpl. intros c Hc'. lia. }
    destruct (py_min_least lons (coordinate_nonempty _ _ _ H0 Hne)) as (w & Ew & _).
    destruct (py_min_least lats (coordinate_nonempty _ _ _ H1 Hne)) as (s & Es & _).
    destruct (py_max_greatest lons (coordinate_nonempty _ _ _ H0 Hne)) as (e & Ee & _).
    destruct (py_max_greatest lats (coordinate_nonempty _ _ _ H1 Hne)) as (n & En & _).
    exists (set_bbox a (numbers [w; s; e; n])). unfold envelope. rewrite Hc.
    cbn [subscript nth_error].
    rewrite (column_coordinate _ _ _ H0), (column_coordinate _ _ _ H1), Ew, Es, Ee, En.
    reflexivity.
Qed.

Lemma polygon_only_accepted_iff_witness :
  (exists a', ensure_bbox Sample.vol2 = inr a') <->
  Sample.ring <> [] /\ Forall (fun c => (2 <= List.length c)%nat) Sample.ring.
Proof.
  apply (polygon_only_accepted_iff Sample.vol2 Sample.polygon Sample.ring []); reflexivity.
Defined.

(** X4: what a Polygon that gives no envelope raises. Only the empty ring
    ends in a [ValueError], the kind a validator is expected to raise;
    missing [coordinates] raise [KeyError], an empty list of rings or a
    position of fewer than two numbers [IndexError]. *)
Theorem polygon_failure_kinds (a : AOI) (g : Geometry) :
  bbox a = None -> geometry a = Some g -> type_is_polygon g = true ->
  (g_coordinates g = None -> exists msg, ensure_bbox a = inl (KeyError msg)) /\
  (g_coordinates g = Some (JArr []) -> exists msg, ensure_bbox a = inl (IndexError msg)) /\
  (forall others, g_coordinates g = Some (JArr (JArr [] :: others)) ->
   exists msg, ensure_bbox a = inl (ValueError msg)) /\
  (forall ring others, g_coordinates g = Some (JArr (of_ring ring :: others)) ->
   Exists (fun c => (List.length c < 2)%nat) ring ->
   exists msg, ensure_bbox a = inl (IndexError msg)).
Proof.
  intros Hb Hg Hp. pose proof (polygon_truthy g Hp) as Ht.
  unfold ensure_bbox. rewrite Hb, Hg, Ht, Hp. cbn [negb]. unfold envelope.
  repeat split.
  - intros ->. eexists. reflexivity.
  - intros ->. eexists. reflexivity.
  - intros others ->. eexists. reflexivity.
  - intros ring others -> Hex. cbn [subscript nth_error].
    assert (H1 : column 1 (of_ring ring) = inl (IndexError "list index out of range")).
    { apply column_short. eapply Exists_impl; [exact Hex|]. simpl. intros c Hc. lia. }
    eexists. destruct (column_outcome 0 ring) as [[xs ->]| ->]; [|reflexivity].
    now rewrite H1.
Qed.

Lemma polygon_failure_kinds_witness :
  (exists msg, ensure_bbox Fixtures.no_coordinates = inl (KeyError msg)) /\
  (exists msg, ensure_bbox Fixtures.no_ring = inl (IndexError msg)) /\
  (exists msg, ensure_bbox Fixtures.empty_ring = inl (ValueError msg)) /\
  (exists msg, ensure_bbox Fixtures.flat_position = inl (IndexError msg)).
Proof.
  split; [|split; [|split]].
  - apply (polygon_failure_kinds Fixtures.no_coordinates _ eq_refl eq_refl eq_refl).
    reflexivity.
  - apply (polygon_failure_kinds Fixtures.no_ring _ eq_refl eq_refl eq_refl). reflexivity.
  - apply (polygon_failure_kinds Fixtures.empty_ring _ eq_refl eq_refl eq_refl) with (others := []).
    reflexivity.
  - eapply (polygon_failure_kinds Fixtures.flat_position _ eq_refl eq_refl eq_refl).
    + reflexivity.
    + right. left. simpl. lia.
Defined.

End ModelsMore.

(* ===================================================================== *)
(** * Further properties of the token cache *)
(* ===================================================================== *)

Section TokenMore.

Import Py Runtime Lib Token Notions.

Lemma cache_miss_step (w : World) (s : State) :
  ~ cached_and_valid s (now_of s) ->
  get_access_token w s =
  (r <- deliver (token_endpoint w (requests s)) ;;
   raise_for_status r ;;
   payload <- response_json r ;;
   tok <- lift (getitem payload "access_token") ;;
   set_access_token tok ;;
   e <- lift (get_default payload "expires_in" (JNum 3600)) ;;
   f <- py_float e ;;
   set_expires_at (Float.add (now_of s) f) ;;
   s' <- get_state ;;
   ret (cache_access_token s')) w (asked s).
Proof.
  intros H. rewrite <- cache_is_fresh_true in H. apply not_true_is_false in H.
  unfold get_access_token. run. rewrite H. reflexivity.
Qed.

(** X5: a refresh that fails before a token is read (the endpoint cannot
    be reached, answers with a status outside 2xx, with a body that is
    not JSON, or with a dict without [access_token]) raises after that one
    request and leaves the cache as it was; an old token is not cleared. *)
Theorem failed_refresh_keeps_cache (w : World) (s : State) :
  ~ cached_and_valid s (now_of s) ->
  (forall cls msg, token_endpoint w (requests s) = Failure cls msg ->
     get_access_token w s = (inl (PyError cls msg), asked s)) /\
  (forall r, token_endpoint w (requests s) = Answer r -> is_success r = false ->
     get_access_token w s = (inl (HTTPStatusError (status_code r) (text r)), asked s)) /\
  (forall r, token_endpoint w (requests s) = Answer r -> is_success r = true ->
     json_body r = None ->
     exists e, get_access_token w s = (inl e, asked s)) /\
  (forall r m, token_endpoint w (requests s) = Answer r -> is_success r = true ->
     json_body r = Some (JObj m) -> assoc "access_token" m = None ->
     get_access_token w s = (inl (KeyError "access_token"), asked s)).
Proof.
  intros H. rewrite (cache_miss_step w s H). repeat split.
  - intros cls msg ->. reflexivity.
  - intros r -> Hs. run. now rewrite Hs.
  - intros r -> Hs Hj. run. rewrite Hs, Hj. eexists. reflexivity.
  - intros r m -> Hs Hj Hm. run. rewrite Hs, Hj. cbn [getitem]. now rewrite Hm.
Qed.

Lemma failed_refresh_keeps_cache_witness :
  get_access_token Fixtures.unreachable Fixtures.stale
    = (inl (PyError "ConnectTimeout" "timed out"), asked Fixtures.stale) /\
  get_access_token Fixtures.refused Fixtures.stale
    = (inl (HTTPStatusError 401 "invalid_client"), asked Fixtures.stale) /\
  get_access_token Fixtures.tokenless Fixtures.stale
    = (inl (KeyError "access_token"), asked Fixtures.stale) /\
  cache_access_token (asked Fixtures.stale) = JStr "t0".
Proof.
  assert (Hstale : ~ cached_and_valid Fixtures.stale (now_of Fixtures.stale)).
  { intros [_ H]. vm_compute in H. discriminate H. }
  destruct (failed_refresh_keeps_cache Fixtures.unreachable Fixtures.stale Hstale)
    as (H1 & _).
  destruct (failed_refresh_keeps_cache Fixtures.refused Fixtures.stale Hstale)
    as (_ & H2 & _).
  destruct (failed_refresh_keeps_cache Fixtures.tokenless Fixtures.stale Hstale)
    as (_ & _ & _ & H4).
  split; [|split; [|split]].
  - apply H1. reflexivity.
  - apply (H2 (mkResponse 401 "invalid_client" None "")); reflexivity.
  - eapply H4; reflexivity.
  - reflexivity.
Defined.

(** X6: the cache is written in two steps. An answer that carries a
    token but a lifetime [float] cannot take raises [TypeError] with the
    new token already stored next to the old [expires_at]. *)
Theorem unreadable_lifetime_stores_token_only (w : World) (s : State) (r : Response)
    (m : list (string * json)) (tok v : json) :
  ~ cached_and_valid s (now_of s) ->
  token_endpoint w (requests s) = Answer r -> is_success r = true ->
  json_body r = Some (JObj m) ->
  assoc "access_token" m = Some tok -> assoc "expires_in" m = Some v -> not_a_number v ->
  exists msg,
    get_access_token w s =
    (inl (TypeError msg),
     mkState (clock s) tok (cache_expires_at s) (files s)
             (S (requests s)) (trace s ++ [TokenPost])).
Proof.
  intros H Hr Hs Hj Ht He Hv. rewrite (cache_miss_step w s H), Hr. run.
  rewrite Hs, Hj. cbn [getitem get_default]. rewrite Ht, He. run.
  destruct v; try contradiction; eexists; reflexivity.
Qed.

Lemma unreadable_lifetime_stores_token_only_witness :
  exists msg,
    get_access_token Fixtures.ageless Fixtures.stale =
    (inl (TypeError msg),
     mkState Sample.noon (JStr "t1") (Float.Finite (Sample.noon - Sample.q 10 1)) ∅ 1
             [TokenPost]).
Proof.
  apply (unreadable_lifetime_stores_token_only Fixtures.ageless Fixtures.stale
           (mkResponse 200 ""
              (Some (JObj [("access_token", JStr "t1"); ("expires_in", JNull)])) Sample.png)
           [("access_token", JStr "t1"); ("expires_in", JNull)] (JStr "t1") JNull).
  - intros [_ H]. vm_compute in H. discriminate H.
  - reflexivity.
  - reflexivity.
  - reflexivity.
  - reflexivity.
  - reflexivity.
  - exact I.
Defined.

(** A lifetime of sixty seconds to the digit can be served from the
    cache: just past four seconds on the clock, the float sum with sixty
    is rounded up, and the same instant finds more than sixty left. *)
Example sixty_second_token_reused :
  let s1 := snd (get_access_token Fixtures.minute Fixtures.past_four) in
  token_requests (trace s1) = 1%nat /\
  get_access_token Fixtures.minute s1 = (inr (JStr "t5"), s1).
Proof. split; vm_compute; reflexivity. Qed.

(** X7: a token granted for less than sixty seconds by ten microseconds
    or more is never served from the cache, with clock readings up to
    [2 ** 32] seconds: every call at or after the time of the grant asks
    the endpoint again. *)
Theorem short_lived_token_never_reused (w : World) (s1 s2 : State) (r : Response)
    (payload tok : json) (e : Q) :
  ~ cached_and_valid s1 (now_of s1) ->
  token_endpoint w (requests s1) = Answer r -> is_success r = true ->
  json_body r = Some payload -> grants w payload tok (Float.Finite e) ->
  (- (2147483648) <= e)%Q -> (e <= 60 - (1 # 100000))%Q ->
  cache_expires_at s2 = cache_expires_at (snd (get_access_token w s1)) ->
  (0 <= clock s1)%Q -> (clock s1 <= clock s2)%Q -> (clock s2 <= 4294967296)%Q ->
  token_requests (trace (snd (get_access_token w s2))) = S (token_requests (trace s2)).
Proof.
  intros H Hr Hs Hj Hg He' He Hc H0 Hlater Hhi.
  rewrite (cache_miss_grant w s1 r payload tok _ H Hr Hs Hj Hg) in Hc.
  cbn [snd cache_expires_at] in Hc.
  assert (Hmiss : ~ cached_and_valid s2 (now_of s2)).
  { intros [_ Hv]. rewrite Hc in Hv.
    destruct (remaining_near s1 s2 e) as (y & Ey & Ly & Uy); try lra.
    rewrite Ey in Hv. apply lt_finite in Hv. lra. }
  destruct (cache_miss_trace w s2 Hmiss) as [-> _].
  rewrite token_requests_app. change (token_requests [TokenPost]) with 1%nat. lia.
Qed.

Lemma short_lived_token_never_reused_witness :
  token_requests
    (trace (snd (get_access_token Fixtures.brief
                   (snd (get_access_token Fixtures.brief Sample.start)))))
  = 2%nat.
Proof.
  apply (short_lived_token_never_reused Fixtures.brief Sample.start
           (snd (get_access_token Fixtures.brief Sample.start))
           (mkResponse 200 ""
              (Some (JObj [("access_token", JStr "t2");
                           ("expires_in", JNum (Sample.q 30 1))])) Sample.png)
           (JObj [("access_token", JStr "t2"); ("expires_in", JNum (Sample.q 30 1))])
           (JStr "t2") (Sample.q 30 1)).
  - intros [H _]. discriminate H.
  - reflexivity.
  - reflexivity.
  - reflexivity.
  - eexists. split; [reflexivity|]. split; reflexivity.
  - vm_compute. discriminate.
  - vm_compute. discriminate.
  - reflexivity.
  - vm_compute. discriminate.
  - vm_compute. discriminate.
  - vm_compute. discriminate.
Defined.

End TokenMore.

(* ===================================================================== *)
(** * Further properties of the catalog client *)
(* ===================================================================== *)

Section RetryMore.

Import Py Runtime Lib Token Catalog Notions.

Lemma same_store_refl (s : State) : same_store s s.
Proof. now repeat split. Qed.

Lemma token_requests_retried (rq : CatalogRequest) (k : nat) :
  forall i s, token_requests (trace (retried rq i k s)) = token_requests (trace s).
Proof.
  induction k as [|k IH]; intros i s; [reflexivity|].
  cbn [retried]. rewrite IH. cbn [trace paused posted].
  now rewrite !token_requests_app, !Nat.add_0_r.
Qed.

Lemma same_store_retried (rq : CatalogRequest) (k : nat) :
  forall i s, same_store s (retried rq i k s).
Proof.
  induction k as [|k IH]; intros i s; [apply same_store_refl|].
  cbn [retried]. destruct (IH (S i) (paused (backoff i) (posted rq s))) as (H1 & H2 & H3).
  repeat split; [rewrite H1 | rewrite H2 | rewrite H3]; reflexivity.
Qed.

Lemma clock_retried (rq : CatalogRequest) (k : nat) :
  forall i s, (clock (retried rq i k s) == clock s + total (map backoff (seq i k)))%Q.
Proof.
  induction k as [|k IH]; intros i s; cbn [retried seq map total fold_right].
  - lra.
  - rewrite IH. cbn [clock paused posted]. fold (total (map backoff (seq (S i) k))). lra.
Qed.

Lemma sleep_then {A : Type} (d : Q) (c : M A) (w : World) (s : State) :
  (sleep d ;; c) w s = c w (paused d s).
Proof. reflexivity. Qed.

(** The loop on any answers: it stops after [k + 1] requests and [k]
    pauses, for some [k] below the number of indices left. *)
Lemma retry_loop_footprint (w : World) (rq : CatalogRequest) (tries : nat) (n : nat) :
  forall i s last,
    (i + S n = tries)%nat ->
    exists k,
      (k <= n)%nat /\
      snd (retry_loop (post_catalog rq) (Z.of_nat tries) (seq i (S n)) last w s)
      = posted rq (retried rq i k s).
Proof.
  induction n as [|n IH]; intros i s last Hi.
  - exists 0%nat. split; [lia|].
    cbn [seq retry_loop retried]. unfold bind at 1. rewrite post_catalog_run.
    destruct (catalog_endpoint w (requests s) rq) as [r|cls msg]; [|reflexivity].
    assert (Hstop : transient r && (Z.of_nat i <? Z.of_nat tries - 1) = false).
    { apply andb_false_iff. right. apply Z.ltb_ge. lia. }
    rewrite Hstop. now rewrite settle_run.
  - change (seq i (S (S n))) with (i :: seq (S i) (S n)).
    cbn [retry_loop]. unfold bind at 1. rewrite post_catalog_run.
    destruct (catalog_endpoint w (requests s) rq) as [r|cls msg];
      [|exists 0%nat; split; [lia | reflexivity]].
    destruct (transient r && (Z.of_nat i <? Z.of_nat tries - 1)) eqn:Hgo; cbv beta iota.
    + rewrite sleep_then. fold (backoff i).
      destruct (IH (S i) (paused (backoff i) (posted rq s)) (Some r)) as (k & Hk & ->); [lia|].
      exists (S k). split; [lia | reflexivity].
    + exists 0%nat. split; [lia|]. now rewrite settle_run.
Qed.

(** X8: whatever the upstream answers, a catalog search with [tries >= 1]
    sends at least one and at most [tries] requests, pauses once between
    two requests and never after the last, with the [i]-th pause lasting
    [1.5 * i] seconds; it sends nothing to the token endpoint and leaves
    the token cache and the files alone. *)
Theorem post_with_retry_footprint (w : World) (rq : CatalogRequest) (tries : nat) (s : State) :
  (1 <= tries)%nat ->
  let s' := snd (_post_with_retry (post_catalog rq) tries w s) in
  exists k,
    (k < tries)%nat /\
    catalog_posts (trace s') = (catalog_posts (trace s) + (k + 1))%nat /\
    pauses (trace s') = (pauses (trace s) ++ map backoff (seq 0 k))%list /\
    (clock s' == clock s + total (map backoff (seq 0 k)))%Q /\
    token_requests (trace s') = token_requests (trace s) /\
    same_store s s'.
Proof.
  intros Ht s'. destruct tries as [|n]; [lia|].
  destruct (retry_loop_footprint w rq (S n) n 0 s None eq_refl) as (k & Hk & E).
  unfold s', _post_with_retry. rewrite E. exists k. split; [lia|].
  split; [|split; [|split; [|split]]].
  - cbn [posted trace]. rewrite trace_retried.
    rewrite !catalog_posts_app, catalog_posts_rounds.
    change (catalog_posts [CatalogPost rq]) with 1%nat. lia.
  - cbn [posted trace]. rewrite trace_retried.
    rewrite !pauses_app, pauses_rounds. cbn [pauses]. now rewrite app_nil_r.
  - cbn [posted clock]. apply clock_retried.
  - cbn [posted trace]. rewrite token_requests_app, token_requests_retried.
    change (token_requests [CatalogPost rq]) with 0%nat. lia.
  - destruct (same_store_retried rq k 0 s) as (H1 & H2 & H3). now repeat split.
Qed.

Lemma post_with_retry_footprint_witness :
  let s' := snd (_post_with_retry (post_catalog Sample.request) 4 Sample.flaky Sample.start) in
  exists k,
    (k < 4)%nat /\
    catalog_posts (trace s') = (catalog_posts (trace Sample.start) + (k + 1))%nat /\
    pauses (trace s') = (pauses (trace Sample.start) ++ map backoff (seq 0 k))%list /\
    (clock s' == clock Sample.start + total (map backoff (seq 0 k)))%Q /\
    token_requests (trace s') = token_requests (trace Sample.start) /\
    same_store Sample.start s'.
Proof.
  apply (post_with_retry_footprint Sample.flaky Sample.request 4 Sample.start). lia.
Defined.

Lemma total_backoff_bound (k : nat) :
  (k < 4)%nat -> (0 <= total (map backoff (seq 0 k)) <= 9)%Q.
Proof.
  intros Hk. destruct k as [|[|[|[|k]]]]; [| | | |lia];
    vm_compute; split; discriminate.
Qed.

(** X9: the pauses of one catalog search (four tries) add up to nine
    seconds at most, whatever the upstream answers. *)
Theorem retry_pauses_at_most_nine_seconds (w : World) (rq : CatalogRequest) (s : State) :
  let s' := snd (_post_with_retry (post_catalog rq) 4 w s) in
  (clock s <= clock s')%Q /\ (clock s' <= clock s + 9)%Q /\
  (List.length (pauses (trace s')) <= List.length (pauses (trace s)) + 3)%nat.
Proof.
  intros s'.
  destruct (retry_loop_footprint w rq 4 3 0 s None eq_refl) as (k & Hk & E).
  unfold s', _post_with_retry. rewrite E. cbn [posted trace clock].
  pose proof (clock_retried rq k 0 s) as Hc.
  pose proof (total_backoff_bound k ltac:(lia)) as [H0 H9].
  split; [|split].
  - rewrite Hc. lra.
  - rewrite Hc. lra.
  - rewrite trace_retried, !pauses_app, pauses_rounds. cbn [pauses].
    rewrite !List.length_app, length_map, length_seq. simpl. lia.
Qed.

(** After [k] transient answers, an exception of the transport. *)
Lemma retry_loop_failure (w : World) (rq : CatalogRequest) (tries : nat)
    (cls msg : string) (k : nat) :
  forall i s last,
    (i + k < tries)%nat ->
    (forall j, (j < k)%nat ->
       exists rj, catalog_endpoint w (requests s + j) rq = Answer rj /\ transient rj = true) ->
    catalog_endpoint w (requests s + k) rq = Failure cls msg ->
    retry_loop (post_catalog rq) (Z.of_nat tries) (seq i (tries - i)) last w s
    = (inl (PyError cls msg), posted rq (retried rq i k s)).
Proof.
  induction k as [|k IH]; intros i s last Hlt Htr Hr.
  - destruct (tries - i)%nat as [|n] eqn:En; [lia|].
    cbn [seq retry_loop retried]. unfold bind at 1. rewrite post_catalog_run.
    rewrite Nat.add_0_r in Hr. now rewrite Hr.
  - destruct (tries - i)%nat as [|n] eqn:En; [lia|].
    cbn [seq retry_loop retried]. unfold bind at 1. rewrite post_catalog_run.
    destruct (Htr 0%nat ltac:(lia)) as (r0 & Hr0 & Ht0).
    rewrite Nat.add_0_r in Hr0. rewrite Hr0, Ht0.
    assert (Hgo : (Z.of_nat i <? Z.of_nat tries - 1) = true) by (apply Z.ltb_lt; lia).
    rewrite Hgo. cbn [andb].
    replace n with (tries - S i)%nat by lia.
    change ((sleep (backoff i) ;; retry_loop (post_catalog rq) (Z.of_nat tries)
               (seq (S i) (tries - S i)) (Some r0)) w (posted rq s))
      with (retry_loop (post_catalog rq) (Z.of_nat tries) (seq (S i) (tries - S i)) (Some r0)
              w (paused (backoff i) (posted rq s))).
    apply IH.
    + lia.
    + intros j Hj. destruct (Htr (S j) ltac:(lia)) as (rj & Hrj & Htj).
      exists rj. split; [|exact Htj]. cbn [requests paused posted].
      now replace (S (requests s) + j)%nat with (requests s + S j)%nat by lia.
    + cbn [requests paused posted].
      now replace (S (requests s) + k)%nat with (requests s + S k)%nat by lia.
Qed.

(** X10: only a status of 502, 503 or 504 is tried again. When
    [client.post] itself raises (a time-out, a refused connection), at
    the first request or after some transient answers, the exception
    leaves the search at once: no pause follows and no request. *)
Theorem transport_failure_not_retried (w : World) (rq : CatalogRequest) (s : State)
    (k : nat) (cls msg : string) :
  (k <= 3)%nat ->
  (forall j, (j < k)%nat ->
     exists rj, catalog_endpoint w (requests s + j) rq = Answer rj /\
                (status_code rj = 502 \/ status_code rj = 503 \/ status_code rj = 504)) ->
  catalog_endpoint w (requests s + k) rq = Failure cls msg ->
  let out := _post_with_retry (post_catalog rq) 4 w s in
  fst out = inl (PyError cls msg) /\
  catalog_posts (trace (snd out)) = (catalog_posts (trace s) + (k + 1))%nat /\
  pauses (trace (snd out)) = (pauses (trace s) ++ map backoff (seq 0 k))%list.
Proof.
  intros Hk Htr Hr out.
  assert (E : out = (inl (PyError cls msg), posted rq (retried rq 0 k s))).
  { apply (retry_loop_failure w rq 4 cls msg k 0 s None); [lia | | exact Hr].
    intros j Hj. destruct (Htr j Hj) as (rj & Hrj & Hst).
    exists rj. split; [exact Hrj | now apply transient_iff]. }
  rewrite E. cbn [fst snd posted trace]. rewrite trace_retried. repeat split.
  - rewrite !catalog_posts_app, catalog_posts_rounds.
    change (catalog_posts [CatalogPost rq]) with 1%nat. lia.
  - rewrite !pauses_app, pauses_rounds. cbn [pauses]. now rewrite app_nil_r.
Qed.

Lemma transport_failure_not_retried_witness :
  let out := _post_with_retry (post_catalog Sample.request) 4 Fixtures.dropped Sample.start in
  fst out = inl (PyError "ReadTimeout" "timed out") /\
  catalog_posts (trace (snd out)) = (0 + (1 + 1))%nat /\
  pauses (trace (snd out)) = ([] ++ map backoff (seq 0 1))%list.
Proof.
  apply (transport_failure_not_retried Fixtures.dropped Sample.request Sample.start 1%nat
           "ReadTimeout" "timed out").
  - lia.
  - intros [|j] Hj; [|lia]. eexists. split; [reflexivity|]. right. left. reflexivity.
  - reflexivity.
Defined.

End RetryMore.

Section SearchMore.

Import Py Runtime Lib Token Catalog Notions.

Lemma max_from_raises (w : World) (s : State) (e : exn) (g : json) (after : list json)
    (before : list json) :
  forall best kbest,
    (forall f, In f before -> exists k, key_of w f = inr k) ->
    key_of w g = inl e ->
    max_from key_fn best kbest (before ++ g :: after) w s = (inl e, s).
Proof.
  induction before as [|x before IH]; intros best kbest Hk Hg.
  - cbn [app max_from]. unfold bind. now rewrite key_fn_run, Hg.
  - destruct (Hk x (or_introl eq_refl)) as (k & Ek).
    cbn [app max_from]. unfold bind. rewrite key_fn_run, Ek.
    destruct (instant kbest <? instant k); apply IH; auto;
      intros f Hf; apply Hk; now right.
Qed.

(** X11: one listed feature whose datetime cannot be read makes the whole
    selection fail: [find_latest_s2_scene] raises the error of the first
    such feature, however many sound features are listed with it. *)
Theorem unreadable_datetime_fails_selection (w : World) (s s1 : State)
    (bbox : option (list json)) (days : Z) (max_cloud : Q) (m : list (string * json))
    (before after : list json) (g : json) (e : exn) :
  search bbox days max_cloud w s = (inr (JObj m), s1) ->
  assoc "features" m = Some (JArr (before ++ g :: after)) ->
  (forall f, In f before -> exists k, key_of w f = inr k) ->
  key_of w g = inl e ->
  find_latest_s2_scene bbox days max_cloud w s = (inl e, s1).
Proof.
  intros Hs Hm Hk Hg. unfold find_latest_s2_scene, bind. rewrite Hs.
  rewrite (latest_of_features w s1 m _ Hm) by (destruct before; discriminate).
  destruct before as [|x before].
  - cbn [app py_max]. unfold bind. now rewrite key_fn_run, Hg.
  - destruct (Hk x (or_introl eq_refl)) as (k & Ek).
    cbn [app py_max]. unfold bind. rewrite key_fn_run, Ek.
    apply max_from_raises; [|exact Hg]. intros f Hf. apply Hk. now right.
Qed.

Lemma unreadable_datetime_fails_selection_witness :
  find_latest_s2_scene (Models.bbox Sample.vol1) 30 (Sample.q 80 1)
    Fixtures.poisoned Sample.start
  = (inl (ValueError "Invalid isoformat string"),
     snd (search (Models.bbox Sample.vol1) 30 (Sample.q 80 1) Fixtures.poisoned Sample.start)).
Proof.
  apply (unreadable_datetime_fails_selection Fixtures.poisoned Sample.start _
           (Models.bbox Sample.vol1) 30 (Sample.q 80 1)
           [("features", JArr [Sample.scene_a; Fixtures.garbled])]
           [Sample.scene_a] [] Fixtures.garbled).
  - vm_compute. reflexivity.
  - reflexivity.
  - intros f [<-|[]]. eexists. vm_compute. reflexivity.
  - vm_compute. reflexivity.
Defined.

Lemma _iso_z_run (dt : Datetime.datetime) (w : World) (s : State) :
  _iso_z dt w s = (fst (_iso_z dt w (initial 0)), s).
Proof.
  unfold _iso_z. run.
  destruct (Datetime.astimezone_utc (local_utcoffset w) dt); reflexivity.
Qed.

Lemma datetime_now_utc_run (w : World) (s : State) :
  datetime_now_utc w s = (Datetime.checked (Qfloor (clock s * 1000000)) (Some 0), s).
Proof. reflexivity. Qed.

Lemma get_access_token_no_catalog (w : World) (s : State) :
  catalog_posts (trace (snd (get_access_token w s))) = catalog_posts (trace s).
Proof.
  destruct (cache_is_fresh s (now_of s)) eqn:E.
  - apply cache_is_fresh_true in E. now rewrite (cache_hit w s E).
  - assert (H : ~ cached_and_valid s (now_of s)).
    { rewrite <- cache_is_fresh_true. congruence. }
    destruct (cache_miss_trace w s H) as [-> _].
    rewrite catalog_posts_app. change (catalog_posts [TokenPost]) with 0%nat. lia.
Qed.

Lemma search_without_token (w : World) (s : State) (bbox : option (list json))
    (days : Z) (max_cloud : Q) (e : exn) :
  fst (get_access_token w s) = inl e ->
  exists e' s',
    search bbox days max_cloud w s = (inl e', s') /\
    catalog_posts (trace s') = catalog_posts (trace s).
Proof.
  intros He. unfold search.
  unfold bind at 1. rewrite datetime_now_utc_run.
  destruct (Datetime.checked (Qfloor (clock s * 1000000)) (Some 0)) as [?|now0];
    [do 2 eexists; split; reflexivity|].
  unfold bind at 1. unfold lift.
  destruct (Datetime.add_delta (Datetime.replace_microsecond_0 now0)
              (- (days * Datetime.us_per_day))) as [?|start];
    [do 2 eexists; split; reflexivity|].
  unfold bind at 1. rewrite (_iso_z_run start w s).
  destruct (fst (_iso_z start w (initial 0))) as [?|from];
    [do 2 eexists; split; reflexivity|].
  unfold bind at 1. rewrite (_iso_z_run (Datetime.replace_microsecond_0 now0) w s).
  destruct (fst (_iso_z (Datetime.replace_microsecond_0 now0) w (initial 0))) as [?|to];
    [do 2 eexists; split; reflexivity|].
  unfold bind at 1. pose proof (get_access_token_no_catalog w s) as Hc.
  destruct (get_access_token w s) as [[e0|tok] s1]; cbn [fst snd] in *; [|discriminate].
  do 2 eexists. split; [reflexivity | exact Hc].
Qed.

(** X12: the search asks for the token before it sends anything to the
    catalog: when the token cannot be had, [find_latest_s2_scene] raises
    and no catalog request has been sent. *)
Theorem no_token_no_catalog_request (w : World) (s : State) (bbox : option (list json))
    (days : Z) (max_cloud : Q) (e : exn) :
  fst (get_access_token w s) = inl e ->
  let out := find_latest_s2_scene bbox days max_cloud w s in
  (exists e', fst out = inl e') /\
  catalog_posts (trace (snd out)) = catalog_posts (trace s).
Proof.
  intros He out.
  destruct (search_without_token w s bbox days max_cloud e He) as (e' & s' & Hs & Hc).
  unfold out, find_latest_s2_scene, bind. rewrite Hs. split; [now exists e' | exact Hc].
Qed.

Lemma no_token_no_catalog_request_witness :
  let out := find_latest_s2_scene (Models.bbox Sample.vol1) 30 (Sample.q 80 1)
               Fixtures.refused Sample.start in
  (exists e', fst out = inl e') /\
  catalog_posts (trace (snd out)) = catalog_posts (trace Sample.start).
Proof.
  apply (no_token_no_catalog_request Fixtures.refused Sample.start (Models.bbox Sample.vol1)
           30 (Sample.q 80 1) (HTTPStatusError 401 "invalid_client")).
  reflexivity.
Defined.

End SearchMore.

(* ===================================================================== *)
(** * Timestamps *)
(* ===================================================================== *)

Section StampMore.

Import Py Runtime Lib Notions.

Local Arguments String.append !s1 s2 : simpl nomatch.

Lemma replace_skips (c : ascii) (old' new a b : string) :
  Storage.has c a = false ->
  replace (String c old') new (a ++ b)%string = (a ++ replace (String c old') new b)%string.
Proof.
  unfold replace. induction a as [|x a IH]; [reflexivity|].
  cbn [Storage.has]. intros H. apply orb_false_iff in H. destruct H as [Hx Ha].
  change ((String x a ++ b)%string) with (String x (a ++ b)%string).
  cbn [replace_from String.prefix].
  destruct (ascii_dec c x) as [<-|Hne].
  - now rewrite Ascii.eqb_refl in Hx.
  - rewrite (IH Ha). reflexivity.
Qed.

Lemma has_time (c : ascii) (us : Z) :
  (nat_of_ascii c < 48 \/ 57 < nat_of_ascii c)%nat -> c <> ":"%char -> c <> "."%char ->
  Storage.has c (Datetime.time_isoformat us) = false.
Proof.
  intros Hc H1 H2. unfold Datetime.time_isoformat.
  rewrite !has_app, !(has_digits c _ Hc). cbn [Storage.has].
  destruct (Ascii.eqb_spec ":"%char c); [congruence|].
  destruct (us mod Datetime.us_per_second =? 0); [reflexivity|].
  rewrite has_app, (has_digits c _ Hc). cbn [Storage.has].
  destruct (Ascii.eqb_spec "."%char c); [congruence | reflexivity].
Qed.

Lemma stamp_of_utc (wall : Z) :
  replace "+00:00" "Z" (Datetime.isoformat (Datetime.mkdt wall (Some 0)))
  = (Datetime.date_isoformat wall ++ "T"
     ++ Datetime.time_isoformat (wall mod Datetime.us_per_day) ++ "Z")%string.
Proof.
  unfold Datetime.isoformat. cbn [Datetime.wall Datetime.tzinfo].
  change (Datetime.offset_isoformat 0) with "+00:00".
  rewrite replace_skips.
  2:{ apply has_date; [left; apply Nat.ltb_lt; reflexivity | discriminate]. }
  f_equal.
  rewrite (replace_skips "+" "00:00" "Z" "T") by reflexivity.
  rewrite replace_skips.
  2:{ apply has_time; [left; apply Nat.ltb_lt; reflexivity | discriminate | discriminate]. }
  reflexivity.
Qed.

(** X13: [to_z] and [_iso_z] agree. On an aware datetime whose instant is
    within the supported years they give the date and the time of the
    instant in UTC, followed by [Z]: no numeric offset is left. *)
Theorem utc_stamp_ends_in_z (dt : Datetime.datetime) (off : Z) (w : World) (s : State) :
  Datetime.tzinfo dt = Some off ->
  Datetime.in_range (Datetime.wall dt - off) = true ->
  let u := Datetime.wall dt - off in
  let stamp := (Datetime.date_isoformat u ++ "T"
                ++ Datetime.time_isoformat (u mod Datetime.us_per_day) ++ "Z")%string in
  Main.to_z dt w s = (inr stamp, s) /\ Catalog._iso_z dt w s = (inr stamp, s).
Proof.
  intros Htz Hr u stamp.
  unfold Main.to_z, Catalog._iso_z, Datetime.astimezone_utc, Datetime.checked. run.
  rewrite Htz, Hr. run. rewrite stamp_of_utc. now split.
Qed.

Lemma utc_stamp_ends_in_z_witness :
  Main.to_z (Datetime.mkdt 1769211000000000 (Some (-18000000000))) Sample.world Sample.start
    = (inr "2026-01-24T04:30:00Z", Sample.start) /\
  Catalog._iso_z (Datetime.mkdt 1769211000000000 (Some (-18000000000)))
                 Sample.world Sample.start
    = (inr "2026-01-24T04:30:00Z", Sample.start).
Proof.
  apply (utc_stamp_ends_in_z (Datetime.mkdt 1769211000000000 (Some (-18000000000)))
           (-18000000000) Sample.world Sample.start); reflexivity.
Defined.

End StampMore.

(* ===================================================================== *)
(** * app/services/process.py *)
(* ===================================================================== *)

Section RenderMore.

Import Py Runtime Lib Token Notions.

Lemma process_posts_app (t u : list event) :
  process_posts (t ++ u) = (process_posts t ++ process_posts u)%list.
Proof. apply flat_map_app. Qed.

Lemma writes_app (t u : list event) : writes (t ++ u) = (writes t ++ writes u)%list.
Proof. apply flat_map_app. Qed.

(** A call of [get_access_token] changes neither the clock nor the
    files, and adds at most one event, a token request. *)
Lemma token_footprint (w : World) (s : State) :
  files (snd (get_access_token w s)) = files s /\
  clock (snd (get_access_token w s)) = clock s /\
  (trace (snd (get_access_token w s)) = trace s \/
   trace (snd (get_access_token w s)) = (trace s ++ [TokenPost])%list).
Proof.
  unfold get_access_token. run.
  destruct (cache_is_fresh s (now_of s)); run; [auto|].
  destruct (token_endpoint w (requests s)) as [r|cls msg]; run; [|auto].
  destruct (is_success r); run; [|auto].
  destruct (json_body r) as [payload|]; run; [|auto].
  destruct (getitem payload "access_token") as [?|tok]; run; [auto|].
  destruct (get_default payload "expires_in" (JNum 3600)) as [?|v]; run; [auto|].
  destruct (to_float w v); run; auto.
Qed.

Lemma token_trace_quiet (w : World) (s : State) :
  process_posts (trace (snd (get_access_token w s))) = process_posts (trace s) /\
  Catalog.pauses (trace (snd (get_access_token w s))) = Catalog.pauses (trace s) /\
  writes (trace (snd (get_access_token w s))) = writes (trace s).
Proof.
  destruct (token_footprint w s) as (_ & _ & [-> | ->]); [auto|].
  rewrite process_posts_app, pauses_app, writes_app. cbn. now rewrite !app_nil_r.
Qed.

(** The whole of [fetch_false_color_png] in terms of the token call. *)
Lemma fetch_run (bbox : option (list json)) (time_from time_to : string) (width height : Z)
    (w : World) (s : State) :
  Process.fetch_false_color_png bbox time_from time_to width height w s =
  match get_access_token w s with
  | (inl e, s1) => (inl e, s1)
  | (inr tok, s1) =>
      let rq := mkProcessRequest tok bbox time_from time_to width height in
      (content_of (process_endpoint w (requests s1) rq),
       mkState (clock s1) (cache_access_token s1) (cache_expires_at s1) (files s1)
               (S (requests s1)) (trace s1 ++ [ProcessPost rq]))
  end.
Proof.
  unfold Process.fetch_false_color_png, Process.post_process, bind at 1.
  destruct (get_access_token w s) as [[e|tok] s1]; [reflexivity|].
  run. unfold content_of.
  destruct (process_endpoint w (requests s1) _) as [r|cls msg]; run; [|reflexivity].
  destruct (is_success r); reflexivity.
Qed.

(** X14: one render is one request. [fetch_false_color_png] leaves the
    files and the clock alone and never pauses; when no token can be had
    it fails with the error of the token call and sends nothing to the
    process endpoint; otherwise it sends exactly one request, bearing
    the token, and its result is what that single answer gives: the
    body of a 2xx answer, and an error for every other answer (a 503
    included, which is not tried again) and for a failed transport. *)
Theorem render_is_one_request (bbox : option (list json)) (time_from time_to : string)
    (width height : Z) (w : World) (s : State) :
  let out := Process.fetch_false_color_png bbox time_from time_to width height w s in
  files (snd out) = files s /\ clock (snd out) = clock s /\
  Catalog.pauses (trace (snd out)) = Catalog.pauses (trace s) /\
  writes (trace (snd out)) = writes (trace s) /\
  match get_access_token w s with
  | (inl e, _) =>
      fst out = inl e /\ process_posts (trace (snd out)) = process_posts (trace s)
  | (inr tok, s1) =>
      let rq := mkProcessRequest tok bbox time_from time_to width height in
      process_posts (trace (snd out)) = (process_posts (trace s) ++ [rq])%list /\
      fst out = content_of (process_endpoint w (requests s1) rq)
  end.
Proof.
  cbv zeta. rewrite fetch_run.
  destruct (token_footprint w s) as (Hf & Hc & _).
  destruct (token_trace_quiet w s) as (Hp & Hs & Hw).
  destruct (get_access_token w s) as [[e|tok] s1]; cbn [fst snd] in *.
  - repeat split; assumption.
  - cbn [files clock trace]. rewrite process_posts_app, pauses_app, writes_app.
    cbn. rewrite !app_nil_r. repeat split; congruence.
Qed.

End RenderMore.

(* ===================================================================== *)
(** * app/services/storage.py *)
(* ===================================================================== *)

Section StorageMore.

Import Py Runtime Lib Storage Notions.

Local Arguments String.append !s1 s2 : simpl nomatch.

Lemma append_inv_head (a b c : string) : (a ++ b)%string = (a ++ c)%string -> b = c.
Proof. induction a as [|x a IH]; simpl; [auto | intros H; injection H; auto]. Qed.

Lemma append_inv_tail (c : string) :
  forall a b : string, (a ++ c)%string = (b ++ c)%string -> a = b.
Proof.
  induction a as [|x a IH]; intros [|y b] H.
  - reflexivity.
  - apply (f_equal String.length) in H. rewrite !length_append in H. simpl in H. lia.
  - apply (f_equal String.length) in H. rewrite !length_append in H. simpl in H. lia.
  - simpl in H. injection H as -> H. f_equal. now apply IH.
Qed.

Lemma append_slash_inv :
  forall a b x y : string,
    has "/" a = false -> has "/" b = false ->
    (a ++ "/" ++ x)%string = (b ++ "/" ++ y)%string -> a = b /\ x = y.
Proof.
  induction a as [|c a IH]; intros [|d b] x y Ha Hb H.
  - simpl in H. injection H as H. auto.
  - simpl in H. injection H as <- _. simpl in Hb. discriminate.
  - simpl in H. injection H as -> _. simpl in Ha. discriminate.
  - simpl in H. injection H as -> H. simpl in Ha, Hb.
    apply orb_false_iff in Ha. apply orb_false_iff in Hb.
    destruct (IH b x y (proj2 Ha) (proj2 Hb) H) as [-> ->]. auto.
Qed.

Lemma dated_component (date : string) :
  has "/" date = false -> component (date ++ "_false_color.png").
Proof.
  intros H. split; [|split].
  - rewrite has_app, H. reflexivity.
  - intros E. apply (f_equal String.length) in E. rewrite length_append in E.
    simpl in E. lia.
  - intros E. apply (f_equal String.length) in E. rewrite length_append in E.
    simpl in E. lia.
Qed.

Lemma dated_path (d aoi_id date : string) :
  normal_dir d -> component aoi_id -> has "/" date = false ->
  str (joinpath (joinpath (Path d) aoi_id) (date ++ "_false_color.png"))
  = (d ++ "/" ++ aoi_id ++ "/" ++ date ++ "_false_color.png")%string.
Proof. intros Hd Ha Hs. apply out_path_layout; auto using dated_component. Qed.

(** X15: images do not overwrite each other. With an output directory
    in normal form, ids that are one path component and dates without a
    slash, the image saved for one AOI and date is still in its file
    after an image was saved for another AOI or another date. *)
Theorem other_scene_keeps_saved_image (w : World) (s : State)
    (id1 id2 date1 date2 : string) (png1 png2 : bytes) :
  normal_dir (output_dir (settings w)) ->
  component id1 -> component id2 ->
  has "/" date1 = false -> has "/" date2 = false ->
  id1 <> id2 \/ date1 <> date2 ->
  let s1 := snd (save_png id1 date1 png1 w s) in
  let s2 := snd (save_png id2 date2 png2 w s1) in
  let path1 := (output_dir (settings w) ++ "/" ++ id1 ++ "/" ++ date1
                ++ "_false_color.png")%string in
  files s1 !! path1 = Some png1 /\ files s2 !! path1 = Some png1.
Proof.
  intros Hd H1 H2 Hs1 Hs2 Hne. cbv zeta. rewrite !save_png_run. cbv zeta.
  rewrite (dated_path _ id1 date1 Hd H1 Hs1), (dated_path _ id2 date2 Hd H2 Hs2).
  unfold written. cbn [snd files].
  split; [apply lookup_insert_eq|].
  rewrite lookup_insert_ne; [apply lookup_insert_eq|].
  intros E. apply append_inv_head in E.
  change (("/" ++ ?x)%string) with (String "/" x) in E. injection E as E.
  destruct (append_slash_inv _ _ _ _ (proj1 H2) (proj1 H1) E) as [Hi Hdte].
  apply append_inv_tail in Hdte. destruct Hne; congruence.
Qed.

Lemma other_scene_keeps_saved_image_witness :
  files (snd (save_png "vol2" "2026-01-23" "png-b" Sample.world
                (snd (save_png "vol1" "2026-01-23" "png-a" Sample.world Sample.start))))
    !! "output/vol1/2026-01-23_false_color.png" = Some "png-a".
Proof.
  refine (proj2 (other_scene_keeps_saved_image Sample.world Sample.start
                   "vol1" "vol2" "2026-01-23" "2026-01-23" "png-a" "png-b"
                   _ _ _ _ _ _)).
  - split; [reflexivity | discriminate].
  - split; [reflexivity | split; discriminate].
  - split; [reflexivity | split; discriminate].
  - reflexivity.
  - reflexivity.
  - left. discriminate.
Defined.

Lemma root_absolute (x : string) :
  is_absolute x = true -> exists r, root_of x = String "/" r.
Proof.
  destruct x as [|c1 x]; [discriminate|]. cbn [is_absolute root_of]. intros ->.
  destruct x as [|c2 x]; [eauto|]. destruct (is_slash c2); [|eauto].
  destruct x as [|c3 x]; [eauto|]. destruct (is_slash c3); eauto.
Qed.

Lemma str_rooted (p : PurePath) (r : string) :
  root p = String "/" r -> exists rest, str p = String "/" rest.
Proof. unfold str. intros ->. destruct (parts p); simpl; eauto. Qed.

(** X16: an id that starts with a slash takes the image out of the
    output directory. [save_png] then writes to the path made of the id
    and the file name alone, an absolute path in which the configured
    [output_dir] has no part. *)
Theorem absolute_id_leaves_output_dir (w : World) (s : State)
    (aoi_id date_str : string) (png : bytes) :
  is_absolute aoi_id = true ->
  let path := str (joinpath (Path aoi_id) (date_str ++ "_false_color.png")) in
  save_png aoi_id date_str png w s = (inr (replace "\" "/" path), written path png s) /\
  exists rest, path = String "/" rest.
Proof.
  intros Ha. cbv zeta. rewrite save_png_run. cbv zeta.
  assert (Hj : forall p, joinpath p aoi_id = Path aoi_id)
    by (intros p; unfold joinpath; now rewrite Ha).
  rewrite !Hj. split; [reflexivity|].
  unfold joinpath.
  destruct (is_absolute (date_str ++ "_false_color.png")) eqn:Hf.
  - destruct (root_absolute _ Hf) as [r Hr]. now apply (str_rooted _ r).
  - destruct (root_absolute _ Ha) as [r Hr]. now apply (str_rooted _ r).
Qed.

Lemma absolute_id_leaves_output_dir_witness :
  save_png "/srv/www" "2026-01-23" "png-a" Sample.world Sample.start
  = (inr "/srv/www/2026-01-23_false_color.png",
     written "/srv/www/2026-01-23_false_color.png" "png-a" Sample.start).
Proof.
  exact (proj1 (absolute_id_leaves_output_dir Sample.world Sample.start
                  "/srv/www" "2026-01-23" "png-a" eq_refl)).
Defined.

End StorageMore.

(* ===================================================================== *)
(** * app/services/aoi_repo.py *)
(* ===================================================================== *)

Section AoiMore.

Import Py Runtime Lib Models AoiRepo Notions.

Lemma construct_all_inr (raw l : list AOI) (w : World) (s : State) :
  fst (construct_all raw w s) = inr l ->
  Forall2 (fun x a => ensure_bbox x = inr a) raw l.
Proof.
  revert l. induction raw as [|x raw IH]; intros l.
  - cbn. intros [= <-]. constructor.
  - cbn [construct_all]. run. destruct (ensure_bbox x) as [e|a] eqn:Ex; [discriminate|].
    rewrite construct_all_run.
    destruct (fst (construct_all raw w (initial 0))) as [e|l'] eqn:El; [discriminate|].
    cbn. intros [= <-]. constructor; [exact Ex|].
    apply IH. now rewrite construct_all_run.
Qed.

Lemma construct_all_inl (raw : list AOI) (x : AOI) (e : exn) (w : World) (s : State) :
  In x raw -> ensure_bbox x = inl e ->
  exists y e', In y raw /\ ensure_bbox y = inl e' /\ fst (construct_all raw w s) = inl e'.
Proof.
  induction raw as [|y raw IH]; [intros []|].
  intros Hin Hx. cbn [construct_all]. run.
  destruct (ensure_bbox y) as [e'|a] eqn:Ey.
  - exists y, e'. split; [now left | now split].
  - destruct Hin as [->|Hin]; [congruence|].
    destruct (IH Hin Hx) as (z & e' & Hz & Hez & Hc).
    rewrite construct_all_run in Hc |- *. cbn [fst] in Hc. rewrite Hc.
    exists z, e'. split; [now right | now split].
Qed.

Lemma find_first (raw l : list AOI) (aoi_id : string) :
  Forall2 (fun x a => ensure_bbox x = inr a) raw l ->
  match List.find (fun a => String.eqb (id a) aoi_id) l with
  | Some a =>
      exists before x after,
        raw = (before ++ x :: after)%list /\
        Forall (fun y => id y <> aoi_id) before /\
        id x = aoi_id /\ ensure_bbox x = inr a
  | None => Forall (fun y => id y <> aoi_id) raw
  end.
Proof.
  induction 1 as [|x a raw l Hx Hrest IH]; [constructor|].
  destruct (ensure_bbox_inr x a Hx) as (Hid & _).
  cbn [List.find]. destruct (String.eqb_spec (id a) aoi_id) as [E|E].
  - exists [], x, raw. repeat split; [constructor | congruence | exact Hx].
  - destruct (List.find (fun a => String.eqb (id a) aoi_id) l) as [b|].
    + destruct IH as (before & y & after & -> & Hb & Hy & Hey).
      exists (x :: before), y, after. repeat split; try assumption.
      constructor; [congruence | exact Hb].
    + constructor; [congruence | exact IH].
Qed.

(** X17: what [get_aoi] finds. When it returns an AOI, that AOI is the
    validated form of the first record of the file bearing the id: it
    has the id asked for and a bbox of four numbers, and no earlier
    record has the id. When it returns [None] no record of the file has
    the id. *)
Theorem get_aoi_first_record (w : World) (raw : list AOI) (aoi_id : string) :
  aoi_file w = Some raw ->
  match known w aoi_id with
  | inr (Some a) =>
      exists before x after,
        raw = (before ++ x :: after)%list /\
        Forall (fun y => id y <> aoi_id) before /\
        id x = aoi_id /\ ensure_bbox x = inr a /\
        id a = aoi_id /\ exists b, bbox a = Some b /\ List.length b = 4%nat
  | inr None => Forall (fun y => id y <> aoi_id) raw
  | inl e => exists x, In x raw /\ ensure_bbox x = inl e
  end.
Proof.
  intros Hfile. unfold known, get_aoi. run. rewrite load_aois_run.
  unfold loaded, load_aois. run. rewrite Hfile.
  destruct (fst (construct_all raw w (initial 0))) as [e|l] eqn:El; cbn [fst].
  - clear Hfile. revert e El. induction raw as [|x raw IH]; intros e; [discriminate|].
    cbn [construct_all]. run. destruct (ensure_bbox x) as [e'|a] eqn:Ex.
    + intros [= <-]. exists x. split; [now left | exact Ex].
    + rewrite construct_all_run.
      destruct (fst (construct_all raw w (initial 0))) as [e'|l'] eqn:El'; [|discriminate].
      cbn. intros [= <-]. destruct (IH e' eq_refl) as (y & Hy & Hey).
      exists y. split; [now right | exact Hey].
  - pose proof (find_first raw l aoi_id (construct_all_inr raw l w _ El)) as H.
    destruct (List.find (fun a => String.eqb (id a) aoi_id) l) as [a|]; [|exact H].
    destruct H as (before & x & after & Hraw & Hb & Hx & Hex).
    destruct (ensure_bbox_inr x a Hex) as (Hid & _ & _ & Hbox).
    exists before, x, after. repeat split; try assumption. congruence.
Qed.

Lemma get_aoi_first_record_witness :
  exists before x after,
    [Sample.vol1; Sample.vol2] = (before ++ x :: after)%list /\
    Forall (fun y => id y <> "vol2") before /\
    id x = "vol2" /\ ensure_bbox x = inr Sample.vol2_built /\
    id Sample.vol2_built = "vol2" /\
    exists b, bbox Sample.vol2_built = Some b /\ List.length b = 4%nat.
Proof.
  exact (get_aoi_first_record Sample.world [Sample.vol1; Sample.vol2] "vol2" eq_refl).
Defined.

End AoiMore.

(* ===================================================================== *)
(** * app/main.py: the single-AOI handlers *)
(* ===================================================================== *)

Section HandlerMore.

Import Py Runtime Lib Models AoiRepo Main Notions.

Lemma loaded_inl (w : World) (raw : list AOI) (x : AOI) (e : exn) :
  aoi_file w = Some raw -> In x raw -> ensure_bbox x = inl e ->
  exists y e', In y raw /\ ensure_bbox y = inl e' /\ loaded w = inl e'.
Proof.
  intros Hfile Hin Hx. unfold loaded, load_aois. run. rewrite Hfile.
  apply (construct_all_inl raw x e w (initial 0) Hin Hx).
Qed.

Lemma known_inl (w : World) (e : exn) (aoi_id : string) :
  loaded w = inl e -> known w aoi_id = inl e.
Proof. intros H. unfold known, get_aoi. run. now rewrite load_aois_run, H. Qed.

(** X18: one invalid record in the AOI file breaks every endpoint that
    reads the file, for every AOI: the lookups of the four single-AOI
    handlers and both batch handlers fail with the error of an invalid
    record, before any request is sent or anything is stored. *)
Theorem invalid_record_breaks_every_endpoint (w : World) (raw : list AOI)
    (x : AOI) (e : exn) :
  aoi_file w = Some raw -> In x raw -> ensure_bbox x = inl e ->
  exists y e',
    In y raw /\ ensure_bbox y = inl e' /\
    forall (s : State) (aoi_id datetime_utc : string) (days : Z) (cloud : Q)
           (concurrency : Z),
      latest_scene aoi_id days cloud w s = (inl e', s) /\
      fc_png aoi_id datetime_utc w s = (inl e', s) /\
      fc_save aoi_id datetime_utc w s = (inl e', s) /\
      latest_fc aoi_id days cloud w s = (inl e', s) /\
      latest_scenes days cloud concurrency w s = (inl e', s) /\
      latest_fc_all days cloud concurrency w s = (inl e', s).
Proof.
  intros Hfile Hin Hx.
  destruct (loaded_inl w raw x e Hfile Hin Hx) as (y & e' & Hy & Hey & Hl).
  exists y, e'. split; [exact Hy|]. split; [exact Hey|].
  intros s aoi_id datetime_utc days cloud concurrency.
  pose proof (known_inl w e' aoi_id Hl) as Hk.
  repeat split.
  - unfold latest_scene, bind. now rewrite get_aoi_run, Hk.
  - unfold fc_png, bind. now rewrite get_aoi_run, Hk.
  - unfold fc_save, bind. now rewrite get_aoi_run, Hk.
  - unfold latest_fc, bind. now rewrite get_aoi_run, Hk.
  - unfold latest_scenes, bind. now rewrite load_aois_run, Hl.
  - unfold latest_fc_all, bind. now rewrite load_aois_run, Hl.
Qed.

Lemma invalid_record_breaks_every_endpoint_witness :
  exists y e',
    In y [Sample.vol1; Fixtures.short_bbox] /\ ensure_bbox y = inl e' /\
    forall (s : State) (aoi_id datetime_utc : string) (days : Z) (cloud : Q)
           (concurrency : Z),
      latest_scene aoi_id days cloud Fixtures.broken_file s = (inl e', s) /\
      fc_png aoi_id datetime_utc Fixtures.broken_file s = (inl e', s) /\
      fc_save aoi_id datetime_utc Fixtures.broken_file s = (inl e', s) /\
      latest_fc aoi_id days cloud Fixtures.broken_file s = (inl e', s) /\
      latest_scenes days cloud concurrency Fixtures.broken_file s = (inl e', s) /\
      latest_fc_all days cloud concurrency Fixtures.broken_file s = (inl e', s).
Proof.
  apply (invalid_record_breaks_every_endpoint Fixtures.broken_file
           [Sample.vol1; Fixtures.short_bbox] Fixtures.short_bbox bbox_error).
  - reflexivity.
  - right. left. reflexivity.
  - reflexivity.
Defined.

Lemma known_none (w : World) (aoi_id : string) :
  unlisted w aoi_id -> known w aoi_id = inr None.
Proof.
  unfold unlisted, known, get_aoi. run. rewrite load_aois_run.
  unfold loaded, load_aois. run.
  destruct (aoi_file w) as [raw|]; [|reflexivity].
  intros [Hv Hi].
  assert (H : exists l, fst (construct_all raw w (initial 0)) = inr l /\
                        List.find (fun a => String.eqb (id a) aoi_id) l = None).
  { induction raw as [|x raw IH]; [exists []; now split|].
    inversion Hv as [|? ? [a Ha] Hv']; subst. inversion Hi as [|? ? Hx Hi']; subst.
    destruct (IH Hv' Hi') as (l & Hl & Hf).
    exists (a :: l). cbn [construct_all]. run. rewrite Ha, construct_all_run, Hl.
    split; [reflexivity|]. cbn [List.find].
    destruct (ensure_bbox_inr x a Ha) as (Hid & _).
    destruct (String.eqb_spec (id a) aoi_id); [congruence | exact Hf]. }
  destruct H as (l & -> & ->). reflexivity.
Qed.

(** X19: an id that no record of the AOI file bears is answered with
    404 by all four single-AOI handlers, whatever the other arguments
    are, and nothing else happens: no request is sent, nothing is
    stored, the token cache is as it was. *)
Theorem unknown_aoi_is_404 (w : World) (aoi_id : string) :
  unlisted w aoi_id ->
  forall (s : State) (datetime_utc : string) (days : Z) (cloud : Q),
    latest_scene aoi_id days cloud w s = (inl (HTTPException 404 (JStr "AOI not found")), s) /\
    fc_png aoi_id datetime_utc w s = (inl (HTTPException 404 (JStr "AOI not found")), s) /\
    fc_save aoi_id datetime_utc w s = (inl (HTTPException 404 (JStr "AOI not found")), s) /\
    latest_fc aoi_id days cloud w s = (inl (HTTPException 404 (JStr "AOI not found")), s).
Proof.
  intros H s datetime_utc days cloud. apply known_none in H.
  repeat split.
  - unfold latest_scene, bind. now rewrite get_aoi_run, H.
  - unfold fc_png, bind. now rewrite get_aoi_run, H.
  - unfold fc_save, bind. now rewrite get_aoi_run, H.
  - unfold latest_fc, bind. now rewrite get_aoi_run, H.
Qed.

Lemma unknown_aoi_is_404_witness :
  latest_fc "vol3" 30 100 Sample.world Sample.start
  = (inl (HTTPException 404 (JStr "AOI not found")), Sample.start).
Proof.
  refine (proj2 (proj2 (proj2 (unknown_aoi_is_404 Sample.world "vol3" _
                                 Sample.start "2026-01-23T10:15:00Z" 30 100)))).
  split.
  - constructor; [eexists; reflexivity|]. constructor; [eexists; reflexivity|]. constructor.
  - constructor; [discriminate|]. constructor; [discriminate|]. constructor.
Defined.

Lemma take_length (n : nat) : forall s : string, (String.length (take n s) <= n)%nat.
Proof.
  unfold take. induction n as [|n IH]; intros [|c s]; simpl; try lia.
  specialize (IH s). lia.
Qed.

Lemma take_prefix (n : nat) : forall s : string, exists rest, s = (take n s ++ rest)%string.
Proof.
  unfold take. induction n as [|n IH]; intros [|c s]; simpl.
  - now exists "".
  - now exists (String c s).
  - now exists "".
  - destruct (IH s) as [rest Hr]. exists rest.
    change (String c s = String c (substring 0 n s ++ rest)). now rewrite <- Hr.
Qed.

(** X20: what becomes of a failed catalog search. Both
    [latest_scene] and [latest_fc] answer an upstream error status with
    that same status and a detail that names [catalog.search] and
    carries the first 1200 characters of the upstream body at most. For
    every other failure the two differ: [latest_scene] answers 502 with
    the message of the error, [latest_fc] lets the error through as it
    is. *)
Theorem search_failure_by_handler (w : World) (s s1 : State) (aoi_id : string)
    (aoi : AOI) (days : Z) (cloud : Q) (e : exn) :
  known w aoi_id = inr (Some aoi) ->
  Catalog.find_latest_s2_scene (bbox aoi) days cloud w s = (inl e, s1) ->
  match e with
  | HTTPStatusError st tx =>
      exists body rest,
        tx = (body ++ rest)%string /\ (String.length body <= 1200)%nat /\
        let detail := JObj [("where", JStr "catalog.search");
                            ("upstream_status", JNum (inject_Z st));
                            ("upstream_body", JStr body)] in
        latest_scene aoi_id days cloud w s = (inl (HTTPException st detail), s1) /\
        latest_fc aoi_id days cloud w s = (inl (HTTPException st detail), s1)
  | _ =>
      latest_scene aoi_id days cloud w s
      = (inl (HTTPException 502 (JObj [("where", JStr "catalog.search");
                                       ("error", JStr (exn_str w e))])), s1) /\
      latest_fc aoi_id days cloud w s = (inl e, s1)
  end.
Proof.
  intros Hk Hf.
  assert (Hs : latest_scene aoi_id days cloud w s
               = match e with
                 | HTTPStatusError st tx =>
                     (inl (HTTPException st (upstream_detail "catalog.search" st tx)), s1)
                 | _ => (inl (HTTPException 502 (JObj [("where", JStr "catalog.search");
                                                       ("error", JStr (exn_str w e))])), s1)
                 end).
  { unfold latest_scene, bind. rewrite get_aoi_run, Hk. unfold try_except. rewrite Hf.
    destruct e; reflexivity. }
  assert (Hl : latest_fc aoi_id days cloud w s = (inl (guarded "catalog.search" e), s1)).
  { unfold latest_fc, bind. rewrite get_aoi_run, Hk. unfold try_except. rewrite Hf.
    destruct e; reflexivity. }
  destruct e as [st tx|st d|cls msg]; [|now split|now split].
  destruct (take_prefix 1200 tx) as [rest Hr].
  exists (take 1200 tx), rest. split; [exact Hr|]. split; [apply take_length|].
  cbv zeta. split; [exact Hs | exact Hl].
Qed.

Lemma search_failure_by_handler_witness :
  exists body rest,
    "internal error" = (body ++ rest)%string /\ (String.length body <= 1200)%nat /\
    let detail := JObj [("where", JStr "catalog.search");
                        ("upstream_status", JNum (inject_Z 500));
                        ("upstream_body", JStr body)] in
    latest_scene "vol1" 30 100 Sample.down Sample.start
    = (inl (HTTPException 500 detail),
       snd (Catalog.find_latest_s2_scene (bbox Sample.vol1) 30 100 Sample.down Sample.start)) /\
    latest_fc "vol1" 30 100 Sample.down Sample.start
    = (inl (HTTPException 500 detail),
       snd (Catalog.find_latest_s2_scene (bbox Sample.vol1) 30 100 Sample.down Sample.start)).
Proof.
  apply (search_failure_by_handler Sample.down Sample.start _ "vol1" Sample.vol1 30 100
           (HTTPStatusError 500 "internal error")).
  - reflexivity.
  - vm_compute. reflexivity.
Defined.

End HandlerMore.

(* ===================================================================== *)
(** * From the selected scene to the stored image *)
(* ===================================================================== *)

Section SceneMore.

Import Py Runtime Lib Models AoiRepo Catalog Main Notions.

Lemma max_from_inv (w : World) (s s' : State) (f : json) (items : list json) :
  forall best kbest,
    max_from key_fn best kbest items w s = (inr f, s') ->
    f = best \/ exists k, key_of w f = inr k.
Proof.
  induction items as [|x items IH]; intros best kbest.
  - cbn. intros [= <- _]. now left.
  - cbn [max_from]. unfold bind. rewrite key_fn_run.
    destruct (key_of w x) as [e|k] eqn:Ek; [discriminate|].
    destruct (instant kbest <? instant k); intros H; apply IH in H.
    + destruct H as [->|H]; [right; eauto | now right].
    + exact H.
Qed.

Lemma latest_of_inv (w : World) (s s' : State) (data f : json) :
  latest_of data w s = (inr f, s') -> f = JNull \/ exists k, key_of w f = inr k.
Proof.
  unfold latest_of, bind, lift.
  destruct (get data "features") as [e|fs]; [discriminate|].
  destruct (negb (truthy (py_or fs (JArr [])))); [cbn; intros [= <- _]; now left|].
  destruct (iterate (py_or fs (JArr [])) w s) as [[e|items] s0]; [discriminate|].
  destruct items as [|x items]; [discriminate|].
  cbn [py_max]. unfold bind. rewrite key_fn_run.
  destruct (key_of w x) as [e|k] eqn:Ek; [discriminate|].
  intros H. apply max_from_inv in H. right. destruct H as [->|H]; eauto.
Qed.

(** X21: the handlers can read the datetime of every scene the search
    selects. When [find_latest_s2_scene] returns a feature with a
    datetime, that string has been read by [fromisoformat] to compute
    the key of the feature; so [parse_datetime_utc] never answers 422
    for it in [latest_fc] and [latest_fc_all], and when the datetime
    carries an offset it gives the very instant the selection used. *)
Theorem selected_scene_datetime_is_readable (w : World) (s s1 : State)
    (bbox : option (list json)) (days : Z) (cloud : Q) (f : json) (d : string) :
  find_latest_s2_scene bbox days cloud w s = (inr f, s1) ->
  datetime_of f d ->
  exists dt0 k,
    fromisoformat w (replace "Z" "+00:00" d) = Some dt0 /\
    key_of w f = inr k /\
    (forall e, parsed w (JStr d) = inl e -> exists cls msg, e = PyError cls msg) /\
    (Datetime.tzinfo dt0 <> None -> parsed w (JStr d) = inr k).
Proof.
  intros Hf Hd. unfold find_latest_s2_scene, bind in Hf.
  destruct (search bbox days cloud w s) as [[e|data] s0]; [discriminate|].
  apply latest_of_inv in Hf.
  destruct Hf as [->|[k Hk]]; [destruct Hd as (m & pm & Hm & _); discriminate|].
  pose proof (key_of_dated w f d Hd) as Hkey. rewrite Hk in Hkey.
  unfold _parse_dt in Hkey. run.
  unfold parsed, parse_datetime_utc. run. cbn [as_str].
  destruct (fromisoformat w (replace "Z" "+00:00" d)) as [dt0|]; [|discriminate].
  exists dt0, k. split; [reflexivity|]. split; [exact Hk|]. split.
  - cbn [fst]. unfold Datetime.astimezone_utc, Datetime.checked.
    intros e He.
    repeat match type of He with
           | context [match ?x with _ => _ end] => destruct x
           | context [if ?x then _ else _] => destruct x
           end; cbn in He; try discriminate; injection He as <-; eauto.
  - cbn [fst] in *. destruct (Datetime.tzinfo dt0); [intros _; now rewrite <- Hkey | congruence].
Qed.

Lemma selected_scene_datetime_is_readable_witness :
  exists dt0 k,
    fromisoformat Sample.world (replace "Z" "+00:00" "2026-01-20T10:15:00Z") = Some dt0 /\
    key_of Sample.world Sample.scene_a = inr k /\
    (forall e, parsed Sample.world (JStr "2026-01-20T10:15:00Z") = inl e ->
               exists cls msg, e = PyError cls msg) /\
    (Datetime.tzinfo dt0 <> None ->
     parsed Sample.world (JStr "2026-01-20T10:15:00Z") = inr k).
Proof.
  apply (selected_scene_datetime_is_readable Sample.world Sample.start
           (snd (find_latest_s2_scene (bbox Sample.vol1) 30 100 Sample.world Sample.start))
           (bbox Sample.vol1) 30 100 Sample.scene_a "2026-01-20T10:15:00Z").
  - vm_compute. reflexivity.
  - exists [("id", JStr "S2A_T33UVR");
            ("properties", JObj [("datetime", JStr "2026-01-20T10:15:00Z");
                                 ("eo:cloud_cover", JNum (Sample.q 42 1))])],
           [("datetime", JStr "2026-01-20T10:15:00Z");
            ("eo:cloud_cover", JNum (Sample.q 42 1))].
    split; [reflexivity|]. split; [reflexivity|]. split; [reflexivity | discriminate].
Defined.

Lemma known_id (w : World) (aoi_id : string) (a : AOI) :
  known w aoi_id = inr (Some a) -> id a = aoi_id.
Proof.
  unfold known, get_aoi. run. rewrite load_aois_run.
  destruct (loaded w) as [e|l]; [discriminate|]. cbn [fst].
  intros [= H]. apply find_some in H. now apply String.eqb_eq.
Qed.

Lemma fetch_frame (bbox : option (list json)) (time_from time_to : string) (width height : Z)
    (w : World) (s : State) :
  files (snd (Process.fetch_false_color_png bbox time_from time_to width height w s))
  = files s /\
  writes (trace (snd (Process.fetch_false_color_png bbox time_from time_to width height w s)))
  = writes (trace s).
Proof.
  rewrite fetch_run.
  destruct (token_footprint w s) as (Hf & _ & _).
  destruct (token_trace_quiet w s) as (_ & _ & Hw).
  destruct (Token.get_access_token w s) as [[e|tok] s1]; cbn [fst snd] in *; [now split|].
  cbn [files trace]. rewrite writes_app. cbn. rewrite app_nil_r. now split.
Qed.

(** X22: [fc_png] stores nothing. Whatever the id and the datetime, and
    whatever the upstream answers, the files after the call are the
    files before it and no write is recorded. *)
Theorem fc_png_stores_nothing (w : World) (s : State) (aoi_id datetime_utc : string) :
  files (snd (fc_png aoi_id datetime_utc w s)) = files s /\
  writes (trace (snd (fc_png aoi_id datetime_utc w s))) = writes (trace s).
Proof.
  unfold fc_png, bind. rewrite get_aoi_run.
  destruct (known w aoi_id) as [e|[aoi|]]; [now split | | now split].
  rewrite parse_datetime_utc_run.
  destruct (parsed w (JStr datetime_utc)) as [e|dt]; [now split|].
  rewrite window_run. destruct (window_of w dt) as [e|tw]; [now split|].
  unfold try_except.
  pose proof (fetch_frame (bbox aoi) (fst tw) (snd tw) 1024 1024 w s) as H.
  destruct (Process.fetch_false_color_png (bbox aoi) (fst tw) (snd tw) 1024 1024 w s)
    as [[e|png] s1]; cbn [fst snd] in H; [destruct e; exact H | exact H].
Qed.

(** X23: what becomes of a failed render. [fc_save] lets the error of
    [fetch_false_color_png] through as it is, an upstream error status
    included, while [fc_png] answers an upstream error status with that
    status and a detail naming [process]; neither stores anything. *)
Theorem render_failure_by_handler (w : World) (s s1 : State) (aoi_id datetime_utc : string)
    (aoi : AOI) (dt : Datetime.datetime) (tw : string * string) (e : exn) :
  known w aoi_id = inr (Some aoi) ->
  parsed w (JStr datetime_utc) = inr dt ->
  window_of w dt = inr tw ->
  Process.fetch_false_color_png (bbox aoi) (fst tw) (snd tw) 1024 1024 w s = (inl e, s1) ->
  fc_save aoi_id datetime_utc w s = (inl e, s1) /\
  fc_png aoi_id datetime_utc w s = (inl (guarded "process" e), s1) /\
  files s1 = files s /\ writes (trace s1) = writes (trace s).
Proof.
  intros Hk Hp Hw Hf.
  pose proof (fetch_frame (bbox aoi) (fst tw) (snd tw) 1024 1024 w s) as H.
  rewrite Hf in H. cbn [snd] in H.
  split; [|split; [|exact H]].
  - unfold fc_save, bind. now rewrite get_aoi_run, Hk, parse_datetime_utc_run, Hp, window_run, Hw, Hf.
  - unfold fc_png, bind. rewrite get_aoi_run, Hk, parse_datetime_utc_run, Hp, window_run, Hw.
    unfold try_except. rewrite Hf. destruct e; reflexivity.
Qed.

Lemma render_failure_by_handler_witness :
  fst (fc_save "vol1" "2026-01-23T10:15:00Z" Fixtures.render_down Sample.start)
  = inl (HTTPStatusError 503 "overloaded") /\
  fst (fc_png "vol1" "2026-01-23T10:15:00Z" Fixtures.render_down Sample.start)
  = inl (HTTPException 503 (upstream_detail "process" 503 "overloaded")).
Proof.
  destruct (render_failure_by_handler Fixtures.render_down Sample.start
              (snd (Process.fetch_false_color_png (bbox Sample.vol1)
                      "2026-01-23T09:15:00Z" "2026-01-23T11:15:00Z" 1024 1024
                      Fixtures.render_down Sample.start))
              "vol1" "2026-01-23T10:15:00Z" Sample.vol1
              (Datetime.mkdt 1769163300000000 (Some 0))
              ("2026-01-23T09:15:00Z", "2026-01-23T11:15:00Z")
              (HTTPStatusError 503 "overloaded"))
    as (H1 & H2 & _).
  - vm_compute. reflexivity.
  - vm_compute. reflexivity.
  - vm_compute. reflexivity.
  - vm_compute. reflexivity.
  - rewrite H1, H2. split; reflexivity.
Defined.

Lemma dated_truthy (f : json) (d : string) : datetime_of f d -> truthy f = true.
Proof. intros (m & pm & -> & Hm & _). destruct m; [discriminate | reflexivity]. Qed.

Lemma dated_members (f : json) (d : string) :
  datetime_of f d ->
  exists pm,
    get_default f "properties" (JObj []) = inr (JObj pm) /\
    truthy (JObj pm) = true /\
    get (JObj pm) "datetime" = inr (JStr d) /\ truthy (JStr d) = true.
Proof.
  intros (m & pm & -> & Hm & Hd & Hne). exists pm. cbn [get_default get].
  rewrite Hm, Hd. repeat split.
  - destruct pm; [discriminate | reflexivity].
  - cbn. destruct (String.eqb_spec d ""); [congruence | reflexivity].
Qed.

(** X24: from the selected scene to the stored image. When the search
    selects a scene with a datetime and the render of the window of one
    hour on each side of it returns an image, [latest_fc] and the task
    of [latest_fc_all] for the same AOI do the same: they store the
    image under the AOI id and the UTC date of the scene, and report
    the datetime as the catalog wrote it, with the same file and url. *)
Theorem latest_fc_stores_under_scene_date (w : World) (s s1 s2 : State)
    (aoi_id : string) (aoi : AOI) (days : Z) (cloud : Q) (f : json) (d : string)
    (dt : Datetime.datetime) (tw : string * string) (png : bytes) :
  known w aoi_id = inr (Some aoi) ->
  find_latest_s2_scene (bbox aoi) days cloud w s = (inr f, s1) ->
  datetime_of f d ->
  parsed w (JStr d) = inr dt ->
  window_of w dt = inr tw ->
  Process.fetch_false_color_png (bbox aoi) (fst tw) (snd tw) 1024 1024 w s1 = (inr png, s2) ->
  let filename := (Datetime.date_isoformat (Datetime.wall dt) ++ "_false_color.png")%string in
  let path := Storage.str (Storage.joinpath
                (Storage.joinpath (Storage.Path (output_dir (settings w))) aoi_id) filename) in
  let shown := replace "\" "/" path in
  latest_fc aoi_id days cloud w s
  = (inr (JObj [("aoi_id", JStr aoi_id); ("datetime", JStr d);
                ("file", JStr shown); ("url", JStr ("/" ++ shown))]),
     Storage.written path png s2) /\
  latest_fc_all_one days cloud aoi w s
  = (inr (JObj [("aoi_id", JStr aoi_id); ("name", JStr (name aoi)); ("datetime", JStr d);
                ("file", JStr shown); ("url", JStr ("/" ++ shown))]),
     Storage.written path png s2).
Proof.
  intros Hk Hf Hd Hp Hw Hr. cbv zeta.
  pose proof (dated_truthy f d Hd) as Ht.
  destruct (dated_members f d Hd) as (pm & Hprops & Htp & Hdt & Htd).
  pose proof (known_id w aoi_id aoi Hk) as Hid.
  split.
  - unfold latest_fc, bind. rewrite get_aoi_run, Hk. unfold try_except. rewrite Hf, Ht.
    cbn [negb]. unfold lift. rewrite Hprops, Hdt, Htd. cbn [negb].
    rewrite parse_datetime_utc_run, Hp, window_run, Hw, Hr, save_png_run.
    cbv beta iota zeta. unfold ret, Datetime.date_iso. now rewrite replace_twice.
  - unfold latest_fc_all_one, try_except, latest_fc_all_body, bind. rewrite Hf, Ht.
    cbn [negb]. unfold lift. rewrite Hprops. unfold py_or. rewrite Htp, Hdt, Htd.
    cbn [negb].
    rewrite parse_datetime_utc_run, Hp, window_run, Hw, Hr, save_png_run.
    cbv beta iota zeta. unfold ret, Datetime.date_iso, item.
    now rewrite replace_twice, Hid.
Qed.

Lemma latest_fc_stores_under_scene_date_witness :
  fst (latest_fc "vol1" 30 100 Sample.world Sample.start)
  = inr (JObj [("aoi_id", JStr "vol1"); ("datetime", JStr "2026-01-20T10:15:00Z");
               ("file", JStr "output/vol1/2026-01-20_false_color.png");
               ("url", JStr "/output/vol1/2026-01-20_false_color.png")]) /\
  fst (latest_fc_all_one 30 100 Sample.vol1 Sample.world Sample.start)
  = inr (JObj [("aoi_id", JStr "vol1"); ("name", JStr "Volcano one");
               ("datetime", JStr "2026-01-20T10:15:00Z");
               ("file", JStr "output/vol1/2026-01-20_false_color.png");
               ("url", JStr "/output/vol1/2026-01-20_false_color.png")]).
Proof.
  destruct (latest_fc_stores_under_scene_date Sample.world Sample.start
              (snd (find_latest_s2_scene (bbox Sample.vol1) 30 100 Sample.world Sample.start))
              (snd (Process.fetch_false_color_png (bbox Sample.vol1)
                      "2026-01-20T09:15:00Z" "2026-01-20T11:15:00Z" 1024 1024 Sample.world
                      (snd (find_latest_s2_scene (bbox Sample.vol1) 30 100
                              Sample.world Sample.start))))
              "vol1" Sample.vol1 30 100 Sample.scene_a "2026-01-20T10:15:00Z"
              (Datetime.mkdt 1768904100000000 (Some 0))
              ("2026-01-20T09:15:00Z", "2026-01-20T11:15:00Z") Sample.png)
    as (H1 & H2).
  - vm_compute. reflexivity.
  - vm_compute. reflexivity.
  - exists [("id", JStr "S2A_T33UVR");
            ("properties", JObj [("datetime", JStr "2026-01-20T10:15:00Z");
                                 ("eo:cloud_cover", JNum (Sample.q 42 1))])],
           [("datetime", JStr "2026-01-20T10:15:00Z");
            ("eo:cloud_cover", JNum (Sample.q 42 1))].
    split; [reflexivity|]. split; [reflexivity|]. split; [reflexivity | discriminate].
  - vm_compute. reflexivity.
  - vm_compute. reflexivity.
  - vm_compute. reflexivity.
  - rewrite H1, H2. split; vm_compute; reflexivity.
Defined.

End SceneMore.

(* ===================================================================== *)
(** * app/main.py: reading datetimes, and the batch over no AOI *)
(* ===================================================================== *)

Section EdgeMore.

Import Py Runtime Lib Models AoiRepo Catalog Main Notions.

(** X25: a datetime without offset is read in two ways.
    [parse_datetime_utc] takes its wall-clock reading as UTC, while
    [_parse_dt], which computes the keys of the scenes, takes it as the
    local time of the server: the two instants differ by the local UTC
    offset. *)
Theorem naive_datetime_read_two_ways (w : World) (d : string) (dt0 : Datetime.datetime) :
  fromisoformat w (replace "Z" "+00:00" d) = Some dt0 ->
  Datetime.tzinfo dt0 = None ->
  Datetime.in_range (Datetime.wall dt0) = true ->
  Datetime.in_range (Datetime.wall dt0 - local_utcoffset w (Datetime.wall dt0)) = true ->
  parsed w (JStr d) = inr (Datetime.mkdt (Datetime.wall dt0) (Some 0)) /\
  fst (_parse_dt d w (initial 0))
  = inr (Datetime.mkdt (Datetime.wall dt0 - local_utcoffset w (Datetime.wall dt0)) (Some 0)).
Proof.
  intros Hf Htz Hr Hl. split.
  - unfold parsed, parse_datetime_utc. run. cbn [as_str]. rewrite Hf, Htz.
    unfold Datetime.astimezone_utc, Datetime.replace_tzinfo_utc, Datetime.checked.
    cbn [Datetime.tzinfo Datetime.wall fst]. now rewrite Z.sub_0_r, Hr.
  - unfold _parse_dt. run. rewrite Hf.
    unfold Datetime.astimezone_utc, Datetime.checked. rewrite Htz. cbn [fst].
    now rewrite Hl.
Qed.

Lemma naive_datetime_read_two_ways_witness :
  parsed Fixtures.east (JStr "2026-01-23T10:15:00")
  = inr (Datetime.mkdt 1769163300000000 (Some 0)) /\
  fst (_parse_dt "2026-01-23T10:15:00" Fixtures.east (initial 0))
  = inr (Datetime.mkdt 1769159700000000 (Some 0)).
Proof.
  apply (naive_datetime_read_two_ways Fixtures.east "2026-01-23T10:15:00"
           (Datetime.mkdt 1769163300000000 None)).
  - vm_compute. reflexivity.
  - reflexivity.
  - vm_compute. reflexivity.
  - vm_compute. reflexivity.
Defined.

Lemma run_no_tasks {A : Type} (order : list nat) (w : World) (s : State) :
  run_tasks (@nil (M A)) order [] w s = (inr [], s).
Proof. induction order as [|i order IH]; [reflexivity | exact IH]. Qed.

Lemma gather_nothing {A : Type} (w : World) (s : State) :
  gather (@nil (M A)) w s = (inr [], s).
Proof. unfold gather, bind, ask. cbn [List.length List.repeat]. now rewrite run_no_tasks. Qed.

(** X26: a batch over no AOI. When the AOI file is missing or lists
    nothing, both batch handlers answer a count of zero and an empty
    list, and nothing else happens: no token is asked for, no request is
    sent, nothing is stored. *)
Theorem batch_over_no_aoi (w : World) (s : State) (days : Z) (cloud : Q) (concurrency : Z) :
  aoi_file w = None \/ aoi_file w = Some [] ->
  latest_scenes days cloud concurrency w s
  = (inr (JObj [("count", JNum 0); ("results", JArr [])]), s) /\
  latest_fc_all days cloud concurrency w s
  = (inr (JObj [("count", JNum 0); ("results", JArr [])]), s).
Proof.
  intros H.
  assert (Hl : loaded w = inr []).
  { unfold loaded, load_aois. run. destruct H as [-> | ->]; reflexivity. }
  split.
  - unfold latest_scenes, bind. rewrite load_aois_run, Hl. cbn [map].
    now rewrite gather_nothing.
  - unfold latest_fc_all, bind. rewrite load_aois_run, Hl. cbn [map].
    now rewrite gather_nothing.
Qed.

Lemma batch_over_no_aoi_witness :
  latest_scenes 30 100 4 Fixtures.no_file Sample.start
  = (inr (JObj [("count", JNum 0); ("results", JArr [])]), Sample.start) /\
  latest_fc_all 30 100 4 Fixtures.no_file Sample.start
  = (inr (JObj [("count", JNum 0); ("results", JArr [])]), Sample.start).
Proof.
  apply (batch_over_no_aoi Fixtures.no_file Sample.start 30 100 4). left. reflexivity.
Defined.

End EdgeMore.

(* ===================================================================== *)
(** * scripts/run_job.py *)
(* ===================================================================== *)

Section JobMore.

Import Py Runtime Job Notions.

Local Open Scope job_scope.

(** One index of the loop: either the loop goes on, one request and one
    pause later, or it ends with what the outcome gives. *)
Lemma get_loop_step (env : Env) (url : string) (tries : Z) (i : nat) (rest : list nat)
    (le : option exn) (lr : option Response) (l : Log) :
  let o := http_get env (List.length (sent l)) url in
  if again o && (Z.of_nat i <? tries - 1)
  then exists le' lr',
         get_loop url tries (i :: rest) le lr env l
         = get_loop url tries rest le' lr' env
             (mkLog (sent l ++ [url]) (naps l ++ [Catalog.backoff i]))
  else get_loop url tries (i :: rest) le lr env l
       = (final o, mkLog (sent l ++ [url]) (naps l)).
Proof.
  cbv zeta. cbn [get_loop]. unfold bind, requests_get.
  destruct (http_get env (List.length (sent l)) url) as [r|cls msg]; cbn [again final].
  - destruct (Catalog.transient r && (Z.of_nat i <? tries - 1)); [|reflexivity].
    exists le, (Some r). reflexivity.
  - cbn [andb]. destruct (Z.of_nat i <? tries - 1); [|reflexivity].
    exists (Some (PyError cls msg)), lr. reflexivity.
Qed.

Lemma get_loop_footprint (env : Env) (url : string) (tries : nat) (n : nat) :
  forall i l le lr,
    (i + S n = tries)%nat ->
    exists k,
      (k <= n)%nat /\
      sent (snd (get_loop url (Z.of_nat tries) (seq i (S n)) le lr env l))
      = (sent l ++ repeat url (S k))%list /\
      naps (snd (get_loop url (Z.of_nat tries) (seq i (S n)) le lr env l))
      = (naps l ++ map Catalog.backoff (seq i k))%list /\
      (forall j, (j < k)%nat -> again (http_get env (List.length (sent l) + j) url) = true) /\
      fst (get_loop url (Z.of_nat tries) (seq i (S n)) le lr env l)
      = final (http_get env (List.length (sent l) + k) url) /\
      ((k < n)%nat -> again (http_get env (List.length (sent l) + k) url) = false).
Proof.
  induction n as [|n IH]; intros i l le lr Hi.
  - exists 0%nat. split; [lia|]. change (seq i 1) with [i].
    pose proof (get_loop_step env url (Z.of_nat tries) i [] le lr l) as H. cbv zeta in H.
    assert (Hlast : (Z.of_nat i <? Z.of_nat tries - 1) = false) by (apply Z.ltb_ge; lia).
    rewrite Hlast, andb_false_r in H. rewrite H. cbn [fst snd sent naps seq map repeat].
    rewrite app_nil_r, Nat.add_0_r. repeat split; intros; lia.
  - change (seq i (S (S n))) with (i :: seq (S i) (S n)).
    pose proof (get_loop_step env url (Z.of_nat tries) i (seq (S i) (S n)) le lr l) as H.
    cbv zeta in H.
    assert (Hgo : (Z.of_nat i <? Z.of_nat tries - 1) = true) by (apply Z.ltb_lt; lia).
    rewrite Hgo, andb_true_r in H.
    destruct (again (http_get env (List.length (sent l)) url)) eqn:Ea.
    + destruct H as (le' & lr' & ->).
      destruct (IH (S i) (mkLog (sent l ++ [url]) (naps l ++ [Catalog.backoff i])) le' lr')
        as (k & Hk & Hs & Hn & Hj & Hf & Hl); [lia|].
      cbn [sent naps] in Hs, Hn, Hj, Hf, Hl. rewrite List.length_app in Hj, Hf, Hl.
      cbn [List.length] in Hj, Hf, Hl.
      exists (S k). split; [lia|]. rewrite Hs, Hn, Hf.
      split; [now rewrite <- app_assoc|]. split; [now rewrite <- app_assoc|].
      split; [|split].
      * intros [|j] Hlt; [now rewrite Nat.add_0_r|].
        specialize (Hj j ltac:(lia)).
        now replace (List.length (sent l) + S j)%nat
          with (List.length (sent l) + 1 + j)%nat by lia.
      * now replace (List.length (sent l) + S k)%nat
          with (List.length (sent l) + 1 + k)%nat by lia.
      * intros Hlt. specialize (Hl ltac:(lia)).
        now replace (List.length (sent l) + S k)%nat
          with (List.length (sent l) + 1 + k)%nat by lia.
    + exists 0%nat. split; [lia|]. rewrite H. cbn [fst snd sent naps seq map repeat].
      rewrite app_nil_r, Nat.add_0_r. repeat split; [intros; lia | now intros _].
Qed.

(** X27: what [get_with_retry] does with [tries >= 1]. It sends the
    request again, after a pause of [1.5 * i] seconds, as long as the
    [i]-th outcome is a status of 502, 503 or 504 or an exception of
    the transport, and tries are left: exceptions are tried again here,
    unlike in the catalog search of the backend. It stops at the first
    other outcome or at the last try, and gives what that outcome is:
    the response as it is, whatever its status (a last 503 is returned,
    not raised), or the exception. So it sends between one and [tries]
    requests and never returns [None]. *)
Theorem get_with_retry_footprint (env : Env) (url : string) (tries : nat) (l : Log) :
  (1 <= tries)%nat ->
  let out := get_with_retry url tries env l in
  exists k,
    (k < tries)%nat /\
    sent (snd out) = (sent l ++ repeat url (k + 1))%list /\
    naps (snd out) = (naps l ++ map Catalog.backoff (seq 0 k))%list /\
    (forall j, (j < k)%nat -> again (http_get env (List.length (sent l) + j) url) = true) /\
    fst out = final (http_get env (List.length (sent l) + k) url) /\
    ((k + 1 < tries)%nat -> again (http_get env (List.length (sent l) + k) url) = false) /\
    fst out <> inr None.
Proof.
  intros Ht out. destruct tries as [|n]; [lia|].
  destruct (get_loop_footprint env url (S n) n 0 l None None eq_refl)
    as (k & Hk & Hs & Hn & Hj & Hf & Hl).
  exists k. unfold out, get_with_retry. rewrite Hs, Hn, Hf, Nat.add_1_r.
  split; [lia|]. repeat split; try assumption.
  - intros Hlt. apply Hl. lia.
  - destruct (http_get env (List.length (sent l) + k) url); discriminate.
Qed.

Lemma get_with_retry_footprint_witness :
  let out := get_with_retry "http://127.0.0.1:8000/aois/vol1/latest-scene" 4
               JobFixtures.shaky JobFixtures.fresh in
  exists k,
    (k < 4)%nat /\
    sent (snd out)
    = (sent JobFixtures.fresh
       ++ repeat "http://127.0.0.1:8000/aois/vol1/latest-scene" (k + 1))%list /\
    naps (snd out) = (naps JobFixtures.fresh ++ map Catalog.backoff (seq 0 k))%list /\
    (forall j, (j < k)%nat ->
       again (http_get JobFixtures.shaky (List.length (sent JobFixtures.fresh) + j)
                "http://127.0.0.1:8000/aois/vol1/latest-scene") = true) /\
    fst out
    = final (http_get JobFixtures.shaky (List.length (sent JobFixtures.fresh) + k)
               "http://127.0.0.1:8000/aois/vol1/latest-scene") /\
    ((k + 1 < 4)%nat ->
     again (http_get JobFixtures.shaky (List.length (sent JobFixtures.fresh) + k)
              "http://127.0.0.1:8000/aois/vol1/latest-scene") = false) /\
    fst out <> inr None.
Proof.
  apply (get_with_retry_footprint JobFixtures.shaky
           "http://127.0.0.1:8000/aois/vol1/latest-scene" 4 JobFixtures.fresh).
  lia.
Defined.

Lemma total_app (a b : list Q) : (total (a ++ b) == total a + total b)%Q.
Proof.
  unfold total. induction a as [|x a IH]; cbn [app fold_right]; [lra | rewrite IH; lra].
Qed.

Lemma within_refl (l : Log) : within 0 l l.
Proof.
  unfold within. change (inject_Z (Z.of_nat 0)) with 0%Q.
  split; [lia | split; [lia | lra]].
Qed.

Lemma within_trans (n m : nat) (l1 l2 l3 : Log) :
  within n l1 l2 -> within m l2 l3 -> within (n + m) l1 l3.
Proof.
  unfold within. intros (A1 & A2 & A3) (B1 & B2 & B3).
  split; [lia | split; [lia|]].
  rewrite Nat2Z.inj_add, inject_Z_plus. lra.
Qed.

Lemma within_mono (n m : nat) (l l' : Log) : (n <= m)%nat -> within n l l' -> within m l l'.
Proof.
  unfold within. intros Hle (A1 & A2 & A3). split; [lia | split; [lia|]].
  assert (H : (inject_Z (Z.of_nat n) <= inject_Z (Z.of_nat m))%Q).
  { rewrite <- Zle_Qle. lia. }
  lra.
Qed.

(** One call with four tries. *)
Lemma get_with_retry_within (env : Env) (url : string) (l : Log) :
  within 1 l (snd (get_with_retry url 4 env l)) /\
  fst (get_with_retry url 4 env l) <> inr None.
Proof.
  destruct (get_loop_footprint env url 4 3 0 l None None eq_refl)
    as (k & Hk & Hs & Hn & _ & Hf & _).
  unfold get_with_retry. change (seq 0 4) with (seq 0 (S 3)). change (Z.of_nat 4) with 4%Z in *.
  split.
  - unfold within. rewrite Hs, Hn. rewrite !List.length_app, repeat_length, length_map, length_seq.
    split; [lia | split; [lia|]].
    fold (total (naps l ++ map Catalog.backoff (seq 0 k))). fold (total (naps l)).
    rewrite total_app.
    pose proof (total_backoff_bound k ltac:(lia)) as [_ H9].
    change (inject_Z (Z.of_nat 1)) with 1%Q. lra.
  - rewrite Hf. destruct (http_get env (List.length (sent l) + k) url); discriminate.
Qed.

Ltac jrun :=
  cbv beta iota delta [Job.bind Job.ret Job.raise Job.lift Job.ask Job.attempt
                       Job.response_of Job.json_of] in *;
  cbn [fst snd] in *.

Lemma image_log (name aoi_id : json) (env : Env) (l : Log) :
  snd (image name aoi_id env l) = snd (get_with_retry (fc_url env aoi_id) 4 env l).
Proof.
  unfold image. jrun.
  destruct (get_with_retry (fc_url env aoi_id) 4 env l) as [[e|[r2|]] l1];
    jrun; try reflexivity.
  destruct (status_code r2 =? 200); jrun; [|reflexivity].
  destruct (json_body r2) as [d2|]; jrun; [|reflexivity].
  destruct (get d2 "url") as [e|u]; jrun; [reflexivity|].
  destruct (truthy u); jrun; [|reflexivity].
  destruct (getitem d2 "url") as [e|u']; jrun; [reflexivity|].
  destruct (lstrip u'); reflexivity.
Qed.

Lemma image_rows (name aoi_id : json) (env : Env) (l : Log) (img : option string)
    (es : list Err) :
  fst (image name aoi_id env l) = inr (img, es) ->
  (List.length es <= 1)%nat /\ (img <> None -> es = []) /\
  Forall (fun row => e_step row = "latest-fc" /\ e_id row = aoi_id /\ e_name row = name) es.
Proof.
  unfold image. jrun.
  destruct (get_with_retry (fc_url env aoi_id) 4 env l) as [[e|[r2|]] l1];
    jrun; try discriminate.
  destruct (status_code r2 =? 200); jrun.
  - destruct (json_body r2) as [d2|]; jrun; [|discriminate].
    destruct (get d2 "url") as [e|u]; jrun; [discriminate|].
    destruct (truthy u); jrun.
    + destruct (getitem d2 "url") as [e|u']; jrun; [discriminate|].
      destruct (lstrip u'); jrun; [discriminate|]. intros [= <- <-].
      split; [cbn; lia | split; [reflexivity | constructor]].
    + intros [= <- <-]. split; [cbn; lia | split; [reflexivity | constructor]].
  - intros [= <- <-]. split; [cbn; lia|]. split; [congruence|].
    constructor; [now repeat split | constructor].
Qed.

(** One round of the loop: the log, and the rows added. *)
Lemma visit_footprint (a : json) (hits : list Hit) (errs : list Err) (env : Env) (l : Log) :
  within 2 l (snd (visit a hits errs env l)) /\
  forall hits' errs',
    fst (visit a hits errs env l) = inr (hits', errs') ->
    exists hs es,
      hits' = (hits ++ hs)%list /\ errs' = (errs ++ es)%list /\
      (List.length hs <= 1)%nat /\ (List.length es <= 1)%nat.
Proof.
  assert (Hkeep : forall (l' : Log), within 0 l l' -> within 2 l l')
    by (intros l'; apply within_mono; lia).
  assert (Hone : forall (l' : Log), within 1 l l' -> within 2 l l')
    by (intros l'; apply within_mono; lia).
  unfold visit. jrun.
  destruct (getitem a "id") as [e|aoi_id]; jrun;
    [split; [apply Hkeep, within_refl | discriminate]|].
  destruct (get_default a "name" aoi_id) as [e|name]; jrun;
    [split; [apply Hkeep, within_refl | discriminate]|].
  destruct (get_with_retry_within env (scene_url env aoi_id) l) as [Hw Hsome].
  destruct (get_with_retry (scene_url env aoi_id) 4 env l) as [[e|[r|]] l1]; jrun.
  - split; [now apply Hone|]. intros ? ? [= <- <-].
    eexists [], [_]. rewrite app_nil_r. repeat split; cbn; lia.
  - destruct (negb (status_code r =? 200)); jrun.
    { split; [now apply Hone|]. intros ? ? [= <- <-].
      eexists [], [_]. rewrite app_nil_r. repeat split; cbn; lia. }
    destruct (json_body r) as [data|]; jrun; [|split; [now apply Hone | discriminate]].
    destruct (get data "datetime") as [e|dt]; jrun;
      [split; [now apply Hone | discriminate]|].
    destruct (negb (truthy dt)); jrun.
    { split; [now apply Hone|]. intros ? ? [= <- <-].
      exists [], []. rewrite !app_nil_r. repeat split; cbn; lia. }
    destruct (get data "cloud_cover") as [e|cloud]; jrun;
      [split; [now apply Hone | discriminate]|].
    destruct (get data "scene_id") as [e|scene]; jrun;
      [split; [now apply Hone | discriminate]|].
    pose proof (image_log name aoi_id env l1) as Hlog.
    pose proof (image_rows name aoi_id env l1) as Hrows.
    destruct (get_with_retry_within env (fc_url env aoi_id) l1) as [Hw2 _].
    rewrite <- Hlog in Hw2.
    assert (H2 : within 2 l (snd (image name aoi_id env l1)))
      by apply (within_trans 1 1 l l1 _ Hw Hw2).
    destruct (image name aoi_id env l1) as [[e|[img es]] l2]; jrun.
    + split; [exact H2|]. intros ? ? [= <- <-].
      eexists [_], [_]. repeat split; cbn; lia.
    + split; [exact H2|]. intros ? ? [= <- <-].
      destruct (Hrows img es eq_refl) as (Hlen & _).
      eexists [_], es. repeat split; [cbn; lia | exact Hlen].
  - now destruct Hsome.
Qed.

(** X28: what the loop of [main] can cost and give. Over [n] AOIs it
    sends at most [8 * n] requests and pauses at most [6 * n] times,
    for [18 * n] seconds at most, whatever the backend answers and
    whether the loop ends or an exception leaves it; when it ends, the
    rows it found are added after those already there, at most one hit
    and at most one error for each AOI. *)
Theorem survey_bounds (aois : list json) (env : Env) :
  forall (hits : list Hit) (errs : list Err) (l : Log),
    within (2 * List.length aois) l (snd (survey aois hits errs env l)) /\
    forall hits' errs',
      fst (survey aois hits errs env l) = inr (hits', errs') ->
      exists hs es,
        hits' = (hits ++ hs)%list /\ errs' = (errs ++ es)%list /\
        (List.length hs <= List.length aois)%nat /\
        (List.length es <= List.length aois)%nat.
Proof.
  induction aois as [|a aois IH]; intros hits errs l.
  - cbn. split; [apply within_refl|]. intros ? ? [= <- <-].
    exists [], []. rewrite !app_nil_r. repeat split; cbn; lia.
  - cbn [survey List.length]. unfold bind.
    destruct (visit_footprint a hits errs env l) as [Hw Hrows].
    destruct (visit a hits errs env l) as [[e|[hits1 errs1]] l1]; cbn [fst snd] in *.
    + split; [|discriminate]. apply (within_mono 2); [lia | exact Hw].
    + destruct (Hrows hits1 errs1 eq_refl) as (hs1 & es1 & -> & -> & Hh1 & He1).
      destruct (IH (hits ++ hs1)%list (errs ++ es1)%list l1) as [Hw2 Hrows2].
      split.
      * replace (2 * S (List.length aois))%nat with (2 + 2 * List.length aois)%nat by lia.
        exact (within_trans _ _ _ _ _ Hw Hw2).
      * intros hits' errs' Hout.
        destruct (Hrows2 hits' errs' Hout) as (hs & es & -> & -> & Hh & He).
        exists (hs1 ++ hs)%list, (es1 ++ es)%list.
        rewrite !app_assoc, !List.length_app. repeat split; lia.
Qed.

(** X29: a scene that was found is reported even when its image is not.
    When the backend answers the latest-scene request of an AOI with
    status 200 and a datetime, the round adds exactly one row to
    [hits], with the datetime, cloud cover and scene id of that answer,
    whatever becomes of the latest-fc request; it adds at most one row
    to [errs], about the latest-fc step, and none when the row of
    [hits] has an image url. *)
Theorem found_scene_is_a_hit (env : Env) (l l1 : Log) (m dmap : list (string * json))
    (hits : list Hit) (errs : list Err) (aoi_id dt : json) (r : Response) :
  assoc "id" m = Some aoi_id ->
  get_with_retry (scene_url env aoi_id) 4 env l = (inr (Some r), l1) ->
  status_code r = 200 ->
  json_body r = Some (JObj dmap) ->
  assoc "datetime" dmap = Some dt ->
  truthy dt = true ->
  exists img es l2,
    visit (JObj m) hits errs env l
    = (inr ((hits ++ [mkHit (name_of m aoi_id) aoi_id dt (member dmap "cloud_cover")
                            (member dmap "scene_id") img])%list,
            (errs ++ es)%list), l2) /\
    (List.length es <= 1)%nat /\
    (img <> None -> es = []) /\
    Forall (fun row => e_step row = "latest-fc" /\ e_id row = aoi_id) es.
Proof.
  intros Hid Hget Hst Hbody Hdt Htruthy.
  unfold visit. jrun. cbn [getitem get_default get]. rewrite Hid. jrun.
  rewrite Hget. jrun. rewrite Hst. cbn [Z.eqb Pos.eqb negb]. rewrite Hbody. jrun.
  cbn [get get_default]. jrun. rewrite Hdt, Htruthy. cbn [negb]. jrun.
  fold (name_of m aoi_id). fold (member dmap "cloud_cover"). fold (member dmap "scene_id").
  pose proof (image_rows (name_of m aoi_id) aoi_id env l1) as Hrows.
  destruct (image (name_of m aoi_id) aoi_id env l1) as [[e|[img es]] l2]; jrun.
  - eexists None, [_], l2. split; [reflexivity|]. split; [cbn; lia|].
    split; [congruence|]. constructor; [now split | constructor].
  - destruct (Hrows img es eq_refl) as (Hlen & Himg & Hall).
    exists img, es, l2. split; [reflexivity|]. split; [exact Hlen|]. split; [exact Himg|].
    eapply Forall_impl; [exact Hall|]. intros row (H1 & H2 & _). now split.
Qed.

Lemma found_scene_is_a_hit_witness :
  exists img es l2,
    visit (JObj [("id", JStr "vol1"); ("name", JStr "Volcano one")]) [] []
          JobFixtures.shaky JobFixtures.fresh
    = (inr (([] ++ [mkHit (JStr "Volcano one") (JStr "vol1") (JStr "2026-01-20T10:15:00Z")
                          (JNum (Sample.q 42 1)) (JStr "S2A_T33UVR") img])%list,
            ([] ++ es)%list), l2) /\
    (List.length es <= 1)%nat /\
    (img <> None -> es = []) /\
    Forall (fun row => e_step row = "latest-fc" /\ e_id row = JStr "vol1") es.
Proof.
  apply (found_scene_is_a_hit JobFixtures.shaky JobFixtures.fresh
           (snd (get_with_retry (scene_url JobFixtures.shaky (JStr "vol1")) 4
                   JobFixtures.shaky JobFixtures.fresh))
           [("id", JStr "vol1"); ("name", JStr "Volcano one")]
           [("aoi_id", JStr "vol1"); ("datetime", JStr "2026-01-20T10:15:00Z");
            ("cloud_cover", JNum (Sample.q 42 1)); ("scene_id", JStr "S2A_T33UVR")]
           [] [] (JStr "vol1") (JStr "2026-01-20T10:15:00Z")
           (mkResponse 200 "" (Some JobFixtures.scene_answer) "")).
  - reflexivity.
  - vm_compute. reflexivity.
  - reflexivity.
  - reflexivity.
  - reflexivity.
  - reflexivity.
Defined.

(** X30: a failed latest-scene request costs the AOI its place in the
    report, and nothing more. When [get_with_retry] raises, or returns
    a status other than 200, the round adds one row to [errs] about the
    latest-scene step, with [EXC] or the status, adds nothing to
    [hits], and does not ask for the image: the log is the one the
    latest-scene request left. *)
Theorem failed_search_is_one_error_row (env : Env) (l l1 : Log) (m : list (string * json))
    (hits : list Hit) (errs : list Err) (aoi_id : json) (out : result (option Response)) :
  assoc "id" m = Some aoi_id ->
  get_with_retry (scene_url env aoi_id) 4 env l = (out, l1) ->
  match out with
  | inl _ => True
  | inr (Some r) => status_code r <> 200
  | inr None => False
  end ->
  exists row,
    visit (JObj m) hits errs env l = (inr (hits, (errs ++ [row])%list), l1) /\
    e_step row = "latest-scene" /\ e_id row = aoi_id /\ e_name row = name_of m aoi_id /\
    e_code row = match out with
                 | inr (Some r) => Status (status_code r)
                 | _ => EXC
                 end.
Proof.
  intros Hid Hget Hout.
  unfold visit. jrun. cbn [getitem get_default get]. rewrite Hid. jrun.
  rewrite Hget. jrun. fold (name_of m aoi_id).
  destruct out as [e|[r|]]; jrun; [| |destruct Hout].
  - eexists. split; [reflexivity|]. now repeat split.
  - apply Z.eqb_neq in Hout. rewrite Hout. cbn [negb].
    eexists. split; [reflexivity|]. now repeat split.
Qed.

Lemma failed_search_is_one_error_row_witness :
  exists row,
    visit (JObj [("id", JStr "vol1"); ("name", JStr "Volcano one")]) [] []
          JobFixtures.failing JobFixtures.fresh
    = (inr ([], ([] ++ [row])%list),
       mkLog ["http://127.0.0.1:8000/aois/vol1/latest-scene"] []) /\
    e_step row = "latest-scene" /\ e_id row = JStr "vol1" /\
    e_name row = JStr "Volcano one" /\ e_code row = Status 500.
Proof.
  apply (failed_search_is_one_error_row JobFixtures.failing JobFixtures.fresh
           (mkLog ["http://127.0.0.1:8000/aois/vol1/latest-scene"] [])
           [("id", JStr "vol1"); ("name", JStr "Volcano one")] [] [] (JStr "vol1")
           (inr (Some (mkResponse 500 "internal error" None "")))).
  - reflexivity.
  - vm_compute. reflexivity.
  - discriminate.
Defined.

End JobMore.
